(** * StreamFX video denoising filter: the instance, its provider backend
      and the size policy

    A shallow embedding of [source/filters/filter-video-denoising.cpp]
    (namespace [streamfx::filter::video_denoising]) as built with
    [ENABLE_FILTER_VIDEO_DENOISING_NVIDIA] defined, followed by the
    properties of the size policy, of the provider backend and of the
    instance state machine.

    Conventions.
    - [uint32_t] values are integers of [Z] in the range [0, 2^32).
    - [double] values are modelled by [Double.double]: IEEE-754 binary64
      with round-to-nearest-even, restricted to what the program computes
      (non-negative numbers, the division 0/0 and x/0).
    - A member function of the instance becomes a function from the state
      before the call to an [outcome]: normal return, a C++ exception
      leaving the function, or a null [shared_ptr] dereference.
    - Results of vendor SDK calls and of host (libobs) calls are inputs of
      the functions that make them. *)

From Stdlib Require Import ZArith Lia Bool List String.
From Stdlib Require Import Floats.SpecFloat.
Import ListNotations.
Open Scope Z_scope.

(** ** Double precision arithmetic *)

Module Double.

(** A binary64 value of the program: the non-negative number [m * 2^e],
    positive infinity, or not-a-number. *)
Inductive double : Type :=
| Finite (m e : Z)
| Inf
| NaN.

(** Numerator and denominator of [n / d * 2^(-e)]. *)
Definition scale_num (e n : Z) : Z := n * 2 ^ Z.max 0 (- e).
Definition scale_den (e d : Z) : Z := d * 2 ^ Z.max 0 e.

(** The integer nearest to [N / D], ties to even. *)
Definition nearest_even (N D : Z) : Z :=
  let q := N / D in
  match 2 * (N mod D) ?= D with
  | Lt => q
  | Gt => q + 1
  | Eq => if Z.even q then q else q + 1
  end.

(** The exponent [e] with [2^52 <= n / d * 2^(-e) < 2^53]. *)
Definition exponent (n d : Z) : Z :=
  let e0 := Z.log2 n - Z.log2 d - 53 in
  if 2 ^ 53 * scale_den e0 d <=? scale_num e0 n then e0 + 1 else e0.

(** The binary64 number nearest to the rational [n / d], for [0 <= n]
    and [0 < d]: a 53 bit significand, ties to even. *)
Definition round_ratio (n d : Z) : double :=
  if n =? 0 then Finite 0 0
  else
    let e := exponent n d in
    Finite (nearest_even (scale_num e n) (scale_den e d)) e.

(** [static_cast<double>(x)] of a [uint32_t]: exact. *)
Definition of_uint32 (x : Z) : double := Finite x 0.

(** [a / b]. *)
Definition div (a b : double) : double :=
  match a, b with
  | NaN, _ | _, NaN => NaN
  | Inf, Inf => NaN
  | Inf, Finite _ _ => Inf
  | Finite _ _, Inf => Finite 0 0
  | Finite m1 e1, Finite m2 e2 =>
      if m2 =? 0 then (if m1 =? 0 then NaN else Inf)
      else round_ratio (scale_num (e2 - e1) m1) (scale_den (e2 - e1) m2)
  end.

(** [a * b]. *)
Definition mul (a b : double) : double :=
  match a, b with
  | NaN, _ | _, NaN => NaN
  | Inf, Inf => Inf
  | Inf, Finite m _ | Finite m _, Inf => if m =? 0 then NaN else Inf
  | Finite m1 e1, Finite m2 e2 =>
      round_ratio (scale_num (- (e1 + e2)) (m1 * m2))
                  (scale_den (- (e1 + e2)) 1)
  end.

(** C's [round]: the nearest integral value, halfway cases away from
    zero. *)
Definition round (a : double) : double :=
  match a with
  | Finite m e =>
      if 0 <=? e then Finite m e
      else Finite ((2 * m + 2 ^ (- e)) / (2 * 2 ^ (- e))) 0
  | _ => a
  end.

(** [static_cast<uint32_t>(a)]: truncation; the conversion is undefined
    (here [None]) for NaN, infinity and values of 2^32 or more. *)
Definition to_uint32 (a : double) : option Z :=
  match a with
  | Finite m e =>
      let t := if 0 <=? e then m * 2 ^ e else m / 2 ^ (- e) in
      if t <? 2 ^ 32 then Some t else None
  | _ => None
  end.

(** The same value in the Standard Library's specification of IEEE-754
    arithmetic, to compare the operations above with [SFdiv] and
    [SFmul] at precision 53 and maximal exponent 1024. *)
Definition to_spec (a : double) : spec_float :=
  match a with
  | Finite m e => binary_normalize 53 1024 m e false
  | Inf => S754_infinity false
  | NaN => S754_nan
  end.

End Double.

(** ** The size policy *)

(** [std::clamp<uint32_t>(v, lo, hi)]. *)
Definition clamp (v lo hi : Z) : Z :=
  if v <? lo then lo else if hi <? v then hi else v.

(** [video_denoising_instance::resize_nvidia_noise_removal(x, y)]. *)
Definition resize_nvidia_noise_removal (x y : Z) : option (Z * Z) :=
  if y <? x then
    (* Dominant Width *)
    let ar := Double.div (Double.of_uint32 y) (Double.of_uint32 x) in
    let rx := clamp x 142 1920 in
    match Double.to_uint32 (Double.round (Double.mul (Double.of_uint32 rx) ar)) with
    | Some ry => Some (rx, ry)
    | None => None
    end
  else
    (* Dominant Height *)
    let ar := Double.div (Double.of_uint32 x) (Double.of_uint32 y) in
    let ry := clamp y 80 1080 in
    match Double.to_uint32 (Double.round (Double.mul (Double.of_uint32 ry) ar)) with
    | Some rx => Some (rx, ry)
    | None => None
    end.

(** ** Providers *)

(** Modelled from the spec: the enumeration [denoise_provider] is declared
    in [filter-video-denoising.hpp], which is not part of the sources at
    hand; the settings schema gives [0 = Automatic] and
    [1 = NvidiaVideoNoiseRemoval].  A provider is the integer that
    [static_cast<denoise_provider>(obs_data_get_int(..))] yields, so values
    without an enumerator are representable, as they are in the code. *)
Definition denoise_provider : Type := Z.
Definition AUTOMATIC : denoise_provider := 0.
Definition NVIDIA_VIDEO_NOISE_REMOVAL : denoise_provider := 1.

Definition ST : string := "Filter.VideoDenoising".
Definition ST_PROVIDER : string := ST ++ ".Provider".
Definition ST_PROVIDER_NVIDIA_VIDEO_NOISE_REMOVAL : string :=
  ST_PROVIDER ++ ".NVIDIAVideoNoiseRemoval".

(** [static denoise_provider provider_priority[]]. *)
Definition provider_priority : list denoise_provider :=
  [NVIDIA_VIDEO_NOISE_REMOVAL].

(** [D_TRANSLATE(key)]: the localisation lookup, taken as the key. *)
Definition D_TRANSLATE (key : string) : string := key.

(** The switch block of [video_render] that lets the provider restrict the
    size (lines 162 to 173): the size policy of a provider. *)
Definition size_policy (p : denoise_provider) (width height : Z) : option (Z * Z) :=
  if p =? NVIDIA_VIDEO_NOISE_REMOVAL then resize_nvidia_noise_removal width height
  else Some (width, height).

(** Second definition, following the words of the specification: the
    side that is not dominant is [round(clamped * other / dominant)] in
    exact arithmetic, halfway cases away from zero. *)
Definition round_div (n d : Z) : Z := (2 * n + d) / (2 * d).

Definition size_policy_spec (p : denoise_provider) (width height : Z) : Z * Z :=
  if p =? NVIDIA_VIDEO_NOISE_REMOVAL then
    if height <? width then
      let cw := clamp width 142 1920 in (cw, round_div (cw * height) width)
    else
      let ch := clamp height 80 1080 in (round_div (ch * width) height, ch)
  else (width, height).

(** [n / d] lies exactly halfway between two integers. *)
Definition halfway (n d : Z) : Prop := (2 * n) mod (2 * d) = d.

(** [r] is an integer nearest to [n / d]. *)
Definition nearest (r n d : Z) : Prop :=
  (2 * r - 1) * d <= 2 * n <= (2 * r + 1) * d.

(** ** Outcomes *)

(** How a call of a member function ends: it returns, a C++ exception
    leaves it, or it dereferences a null [shared_ptr]. *)
Inductive outcome (A : Type) : Type :=
| Ok (a : A)
| Throw (what : string)
| Fault.
Arguments Ok {A} a.
Arguments Throw {A} what.
Arguments Fault {A}.

(** [denoise_provider_to_string]. *)
Definition denoise_provider_to_string (provider : denoise_provider) : outcome string :=
  if provider =? NVIDIA_VIDEO_NOISE_REMOVAL
  then Ok (D_TRANSLATE ST_PROVIDER_NVIDIA_VIDEO_NOISE_REMOVAL)
  else Throw "Missing Conversion Entry".

(** ** Collaborators: vendor SDK, host, worker pool *)

(** The two surfaces of the NVIDIA backend. *)
Inductive surface : Type := input_surface | output_surface.

(** The vendor calls whose result the code inspects.  The three [get]
    calls return or throw; the image calls return a result code. *)
Inductive vendor_call : Type :=
| cuda_obs_get
| cv_get
| vfx_get
| UnmapResource (s : surface)
| InitFromD3D11Texture (s : surface)
| MapResource (s : surface).

(** The answers of the vendor SDK during one operation: [true] is
    [result::SUCCESS], respectively a [get] that returns. *)
Definition vendor : Type := vendor_call -> bool.

(** A GPU texture: the object and its dimensions. *)
Record texture : Type := {
  tex_id : nat;
  tex_width : Z;
  tex_height : Z
}.

(** The cross-API image descriptor [NvCVImage]; the code reads its width
    only.  A descriptor starts zeroed and [NvCVImage_Dealloc] zeroes it. *)
Record NvCVImage : Type := {
  cvi_width : Z;
  cvi_height : Z
}.
Definition cvi_empty : NvCVImage := {| cvi_width := 0; cvi_height := 0 |}.
Definition cvi_of_texture (t : texture) : NvCVImage :=
  {| cvi_width := tex_width t; cvi_height := tex_height t |}.

(** A source of the host. *)
Record obs_source : Type := {
  base_width : Z;
  base_height : Z
}.

(** [obs_source_get_base_width] and [obs_source_get_base_height]: libobs
    answers 0 for a null source. *)
Definition obs_source_get_base_width (target : option obs_source) : Z :=
  match target with Some s => base_width s | None => 0 end.
Definition obs_source_get_base_height (target : option obs_source) : Z :=
  match target with Some s => base_height s | None => 0 end.

(** What the host answers during one render tick. *)
Record host : Type := {
  obs_filter_get_target : option obs_source;
  obs_filter_get_parent : option obs_source;
  obs_source_process_filter_begin : bool;
  gs_framebuffer_srgb_enabled : bool;
  gs_get_linear_srgb : bool;
  (** how often [gs_effect_loop(effect, "Draw")] answers true *)
  gs_effect_loop : nat
}.

(** [obs_get_base_effect(OBS_EFFECT_DEFAULT)]. *)
Definition OBS_EFFECT_DEFAULT : nat := 0%nat.

(** The calls with an effect outside the instance, in the order made. *)
Inductive event : Type :=
| obs_source_skip_video_filter
| obs_source_process_filter_begin_call
| obs_source_process_filter_end (width height : Z)
| rendertarget_render (width height : Z)
| gs_clear
| gs_blend_state_push
| gs_enable_color
| gs_enable_blending (b : bool)
| gs_enable_depth_test (b : bool)
| gs_enable_stencil_test (b : bool)
| gs_set_cull_mode
| gs_enable_framebuffer_srgb (b : bool)
| gs_blend_state_pop
| texture_create (t : texture)
| gs_copy_texture (dst src : texture)
| gs_effect_set_texture (effect : nat) (srgb : bool) (t : texture)
| gs_draw_sprite (width height : Z)
| NvCVImage_UnmapResource (s : surface)
| NvCVImage_Dealloc (s : surface)
| NvCVImage_InitFromD3D11Texture (s : surface) (t : texture)
| NvCVImage_MapResource (s : surface)
| D_LOG_ERROR (message : string)
| D_LOG_WARNING (message : string).

(** The settings blob [obs_data_t]: integer items by name;
    [obs_data_get_int] answers 0 for a missing item. *)
Definition obs_data : Type := list (string * Z).

Fixpoint obs_data_get_int (data : obs_data) (name : string) : Z :=
  match data with
  | [] => 0
  | (k, v) :: rest => if String.eqb k name then v else obs_data_get_int rest name
  end.

(** A queued task of the worker pool: its handle and the
    [switch_provider_data_t] bound to it. *)
Record task : Type := {
  task_handle : nat;
  task_provider : denoise_provider
}.

(** Modelled from the spec: the worker pool [streamfx::threadpool()] is
    not part of the sources at hand.  It is a FIFO queue with per-handle
    cancellation: [push] appends and hands out a fresh handle, [pop]
    removes the task of a handle if it is still pending. *)
Definition threadpool_pop (h : nat) (pool : list task) : list task :=
  filter (fun t => negb (Nat.eqb (task_handle t) h)) pool.
Definition threadpool_push (h : nat) (p : denoise_provider) (pool : list task) : list task :=
  pool ++ [{| task_handle := h; task_provider := p |}].

(** ** The factory *)

(** [video_denoising_factory]: availability of the NVIDIA provider, the
    SDK references it holds and whether the filter was registered. *)
Record video_denoising_factory : Type := {
  _nvidia_available : bool;
  factory_nvcuda : bool;
  factory_nvcvi : bool;
  factory_nvvfx : bool;
  registered : bool
}.

(** [video_denoising_factory::video_denoising_factory()], with the log
    lines it writes. *)
Definition video_denoising_factory_new (v : vendor) : video_denoising_factory * list event :=
  let loaded := v cuda_obs_get && v cv_get && v vfx_get in
  let log1 :=
    if loaded then []
    else [D_LOG_WARNING "Failed to make NVIDIA Video Effects denoising available due to error: %s"] in
  let any_available := loaded in
  if negb any_available then
    ({| _nvidia_available := false; factory_nvcuda := false; factory_nvcvi := false;
        factory_nvvfx := false; registered := false |},
     log1 ++ [D_LOG_ERROR "All supported denoising providers failed to initialize, disabling effect."])
  else
    ({| _nvidia_available := true; factory_nvcuda := true; factory_nvcvi := true;
        factory_nvvfx := true; registered := true |}, log1).

(** [video_denoising_factory::is_provider_available]. *)
Definition is_provider_available (f : video_denoising_factory) (provider : denoise_provider) : bool :=
  if provider =? NVIDIA_VIDEO_NOISE_REMOVAL then _nvidia_available f else false.

(** [video_denoising_factory::initialize], [finalize] and [get] on the
    global [_video_denoising_factory_instance]. *)
Definition factory_initialize (v : vendor) (g : option video_denoising_factory)
  : option video_denoising_factory :=
  match g with
  | None => Some (fst (video_denoising_factory_new v))
  | Some f => Some f
  end.
Definition factory_finalize (g : option video_denoising_factory)
  : option video_denoising_factory := None.
Definition factory_get (g : option video_denoising_factory)
  : option video_denoising_factory := g.

(** ** The instance *)

(** The render target [_input]: the size of its last render. *)
Record rendertarget : Type := {
  rt_width : Z;
  rt_height : Z
}.

(** [_input->get_texture()]: the texture of the render target, object 0. *)
Definition get_texture (rt : rendertarget) : texture :=
  {| tex_id := 0%nat; tex_width := rt_width rt; tex_height := rt_height rt |}.

(** The members of [video_denoising_instance] that belong to the NVIDIA
    backend.  A [shared_ptr] to an SDK singleton is [true] when it is not
    null; a texture pointer is [None] when it is null. *)
Record nvidia_members : Type := {
  _nvcuda : bool;
  _nvcvi : bool;
  _nvvfx : bool;
  _nvidia_input : option texture;
  _nvidia_output : option texture;
  _nvidia_cvi_input : NvCVImage;
  _nvidia_cvi_output : NvCVImage
}.

(** The members of [video_denoising_instance]. *)
Record video_denoising_instance : Type := {
  _size : Z * Z;
  _provider_ready : bool;
  _provider : denoise_provider;
  _provider_task : option nat;
  _input : rendertarget;
  _output : option texture;
  nvidia : nvidia_members
}.

(** The instance together with what it shares with the rest of the
    plugin: the global factory, the worker pool, the counters that name
    new task handles and textures, and the calls made so far. *)
Record world : Type := {
  this : video_denoising_instance;
  factory : option video_denoising_factory;
  pool : list task;
  next_handle : nat;
  next_texture : nat;
  trace : list event
}.

(** Field updates. *)
Definition set_this (f : video_denoising_instance -> video_denoising_instance) (w : world) : world :=
  {| this := f (this w); factory := factory w; pool := pool w;
     next_handle := next_handle w; next_texture := next_texture w; trace := trace w |}.
Definition set_pool (f : list task -> list task) (w : world) : world :=
  {| this := this w; factory := factory w; pool := f (pool w);
     next_handle := next_handle w; next_texture := next_texture w; trace := trace w |}.
Definition set_next_handle (n : nat) (w : world) : world :=
  {| this := this w; factory := factory w; pool := pool w;
     next_handle := n; next_texture := next_texture w; trace := trace w |}.
Definition set_next_texture (n : nat) (w : world) : world :=
  {| this := this w; factory := factory w; pool := pool w;
     next_handle := next_handle w; next_texture := n; trace := trace w |}.
Definition emit (e : event) (w : world) : world :=
  {| this := this w; factory := factory w; pool := pool w;
     next_handle := next_handle w; next_texture := next_texture w;
     trace := trace w ++ [e] |}.

Definition with_size (v : Z * Z) (i : video_denoising_instance) : video_denoising_instance :=
  {| _size := v; _provider_ready := _provider_ready i; _provider := _provider i;
     _provider_task := _provider_task i; _input := _input i; _output := _output i;
     nvidia := nvidia i |}.
Definition with_provider_ready (v : bool) (i : video_denoising_instance) : video_denoising_instance :=
  {| _size := _size i; _provider_ready := v; _provider := _provider i;
     _provider_task := _provider_task i; _input := _input i; _output := _output i;
     nvidia := nvidia i |}.
Definition with_provider (v : denoise_provider) (i : video_denoising_instance) : video_denoising_instance :=
  {| _size := _size i; _provider_ready := _provider_ready i; _provider := v;
     _provider_task := _provider_task i; _input := _input i; _output := _output i;
     nvidia := nvidia i |}.
Definition with_provider_task (v : option nat) (i : video_denoising_instance) : video_denoising_instance :=
  {| _size := _size i; _provider_ready := _provider_ready i; _provider := _provider i;
     _provider_task := v; _input := _input i; _output := _output i;
     nvidia := nvidia i |}.
Definition with_input (v : rendertarget) (i : video_denoising_instance) : video_denoising_instance :=
  {| _size := _size i; _provider_ready := _provider_ready i; _provider := _provider i;
     _provider_task := _provider_task i; _input := v; _output := _output i;
     nvidia := nvidia i |}.
Definition with_output (v : option texture) (i : video_denoising_instance) : video_denoising_instance :=
  {| _size := _size i; _provider_ready := _provider_ready i; _provider := _provider i;
     _provider_task := _provider_task i; _input := _input i; _output := v;
     nvidia := nvidia i |}.
Definition with_nvidia (f : nvidia_members -> nvidia_members) (i : video_denoising_instance)
  : video_denoising_instance :=
  {| _size := _size i; _provider_ready := _provider_ready i; _provider := _provider i;
     _provider_task := _provider_task i; _input := _input i; _output := _output i;
     nvidia := f (nvidia i) |}.

Definition with_nvcuda (v : bool) (n : nvidia_members) : nvidia_members :=
  {| _nvcuda := v; _nvcvi := _nvcvi n; _nvvfx := _nvvfx n;
     _nvidia_input := _nvidia_input n; _nvidia_output := _nvidia_output n;
     _nvidia_cvi_input := _nvidia_cvi_input n; _nvidia_cvi_output := _nvidia_cvi_output n |}.
Definition with_nvcvi (v : bool) (n : nvidia_members) : nvidia_members :=
  {| _nvcuda := _nvcuda n; _nvcvi := v; _nvvfx := _nvvfx n;
     _nvidia_input := _nvidia_input n; _nvidia_output := _nvidia_output n;
     _nvidia_cvi_input := _nvidia_cvi_input n; _nvidia_cvi_output := _nvidia_cvi_output n |}.
Definition with_nvvfx (v : bool) (n : nvidia_members) : nvidia_members :=
  {| _nvcuda := _nvcuda n; _nvcvi := _nvcvi n; _nvvfx := v;
     _nvidia_input := _nvidia_input n; _nvidia_output := _nvidia_output n;
     _nvidia_cvi_input := _nvidia_cvi_input n; _nvidia_cvi_output := _nvidia_cvi_output n |}.

(** The texture pointer and the image descriptor of a surface. *)
Definition nvidia_texture (s : surface) (n : nvidia_members) : option texture :=
  match s with input_surface => _nvidia_input n | output_surface => _nvidia_output n end.
Definition nvidia_cvi (s : surface) (n : nvidia_members) : NvCVImage :=
  match s with input_surface => _nvidia_cvi_input n | output_surface => _nvidia_cvi_output n end.
Definition with_nvidia_texture (s : surface) (v : option texture) (n : nvidia_members)
  : nvidia_members :=
  match s with
  | input_surface =>
      {| _nvcuda := _nvcuda n; _nvcvi := _nvcvi n; _nvvfx := _nvvfx n;
         _nvidia_input := v; _nvidia_output := _nvidia_output n;
         _nvidia_cvi_input := _nvidia_cvi_input n; _nvidia_cvi_output := _nvidia_cvi_output n |}
  | output_surface =>
      {| _nvcuda := _nvcuda n; _nvcvi := _nvcvi n; _nvvfx := _nvvfx n;
         _nvidia_input := _nvidia_input n; _nvidia_output := v;
         _nvidia_cvi_input := _nvidia_cvi_input n; _nvidia_cvi_output := _nvidia_cvi_output n |}
  end.
Definition with_nvidia_cvi (s : surface) (v : NvCVImage) (n : nvidia_members) : nvidia_members :=
  match s with
  | input_surface =>
      {| _nvcuda := _nvcuda n; _nvcvi := _nvcvi n; _nvvfx := _nvvfx n;
         _nvidia_input := _nvidia_input n; _nvidia_output := _nvidia_output n;
         _nvidia_cvi_input := v; _nvidia_cvi_output := _nvidia_cvi_output n |}
  | output_surface =>
      {| _nvcuda := _nvcuda n; _nvcvi := _nvcvi n; _nvvfx := _nvvfx n;
         _nvidia_input := _nvidia_input n; _nvidia_output := _nvidia_output n;
         _nvidia_cvi_input := _nvidia_cvi_input n; _nvidia_cvi_output := v |}
  end.

(** ** Member functions as state transformers *)

(** A member function: from the world before the call to how the call
    ends and the world it leaves. *)
Definition M (A : Type) : Type := world -> outcome A * world.

Definition ret {A : Type} (a : A) : M A := fun w => (Ok a, w).
Definition throw {A : Type} (what : string) : M A := fun w => (Throw what, w).
Definition fault {A : Type} : M A := fun w => (Fault, w).
Definition bind {A B : Type} (m : M A) (k : A -> M B) : M B :=
  fun w =>
    match m w with
    | (Ok a, w') => k a w'
    | (Throw what, w') => (Throw what, w')
    | (Fault, w') => (Fault, w')
    end.
Definition get {A : Type} (f : world -> A) : M A := fun w => (Ok (f w), w).
Definition modify (f : world -> world) : M unit := fun w => (Ok tt, f w).
Definition lift {A : Type} (o : outcome A) : M A := fun w => (o, w).

Notation "x <- m ;; k" := (bind m (fun x => k))
  (at level 61, m at next level, right associativity).
Notation "m ;; k" := (bind m (fun _ => k))
  (at level 61, right associativity).

(** Assignment to a member of the instance, respectively of its NVIDIA
    part. *)
Definition assign (f : video_denoising_instance -> video_denoising_instance) : M unit :=
  modify (set_this f).
Definition assign_nvidia (f : nvidia_members -> nvidia_members) : M unit :=
  modify (set_this (with_nvidia f)).
Definition call (e : event) : M unit := modify (emit e).

(** [p->...] on a [shared_ptr] member [p]: undefined when [p] is null. *)
Definition deref (p : nvidia_members -> bool) : M unit :=
  fun w => if p (nvidia (this w)) then (Ok tt, w) else (Fault, w).

Definition surface_name (s : surface) : string :=
  match s with input_surface => "input" | output_surface => "output" end.

Definition is_none {A : Type} (o : option A) : bool :=
  match o with None => true | Some _ => false end.

(** [video_denoising_instance::load_nvidia_noise_removal]. *)
Definition load_nvidia_noise_removal (v : vendor) : M unit :=
  (if v cuda_obs_get then assign_nvidia (with_nvcuda true)
   else throw "nvidia::cuda::obs::get") ;;
  (if v cv_get then assign_nvidia (with_nvcvi true)
   else throw "nvidia::cv::cv::get") ;;
  (if v vfx_get then assign_nvidia (with_nvvfx true)
   else throw "nvidia::vfx::vfx::get").

(** The block "unmap and deallocate previous resource", which the source
    writes out for each surface in [unload_nvidia_noise_removal] and in
    [process_nvidia_noise_removal]. *)
Definition unmap_and_dealloc (v : vendor) (s : surface) : M unit :=
  cvi <- get (fun w => nvidia_cvi s (nvidia (this w))) ;;
  if negb (cvi_width cvi =? 0) then
    deref _nvcvi ;; deref _nvcuda ;;
    call (NvCVImage_UnmapResource s) ;;
    (if v (UnmapResource s) then ret tt
     else
       deref _nvcvi ;;
       call (D_LOG_ERROR ("Failed to NvCVImage_UnmapResource " ++ surface_name s
                          ++ " with error: %s")) ;;
       throw "Error") ;;
    deref _nvcvi ;;
    call (NvCVImage_Dealloc s) ;;
    assign_nvidia (with_nvidia_cvi s cvi_empty)
  else ret tt.

(** [video_denoising_instance::unload_nvidia_noise_removal]. *)
Definition unload_nvidia_noise_removal (v : vendor) : M unit :=
  deref _nvcuda ;;
  (* Clean up any CUDA resources in use. *)
  unmap_and_dealloc v input_surface ;;
  unmap_and_dealloc v output_surface ;;
  assign_nvidia (with_nvidia_texture input_surface None) ;;
  assign_nvidia (with_nvidia_texture output_surface None) ;;
  assign_nvidia (with_nvvfx false) ;;
  assign_nvidia (with_nvcvi false) ;;
  assign_nvidia (with_nvcuda false).

(** Whether a buffer has to be re-created: it is absent or its size
    differs from [_size]. *)
Definition stale (t : option texture) (size : Z * Z) : bool :=
  match t with
  | None => true
  | Some t => negb (tex_width t =? fst size) || negb (tex_height t =? snd size)
  end.

(** The block "re-create the buffer if necessary", which
    [process_nvidia_noise_removal] writes out for each surface. *)
Definition recreate_buffer (v : vendor) (s : surface) : M unit :=
  t <- get (fun w => nvidia_texture s (nvidia (this w))) ;;
  size <- get (fun w => _size (this w)) ;;
  if stale t size then
    (* Unmap and deallocate previous resource. *)
    unmap_and_dealloc v s ;;
    (* Replace buffer texture *)
    id <- get next_texture ;;
    let t := {| tex_id := id; tex_width := fst size; tex_height := snd size |} in
    modify (set_next_texture (S id)) ;;
    call (texture_create t) ;;
    assign_nvidia (with_nvidia_texture s (Some t)) ;;
    (* Allocate and map new resource. *)
    deref _nvcvi ;;
    call (NvCVImage_InitFromD3D11Texture s t) ;;
    (if v (InitFromD3D11Texture s) then assign_nvidia (with_nvidia_cvi s (cvi_of_texture t))
     else
       deref _nvcvi ;;
       call (D_LOG_ERROR ("Failed to NvCVImage_InitFromD3D11Texture " ++ surface_name s
                          ++ " with error: %s")) ;;
       throw "Error") ;;
    deref _nvcvi ;; deref _nvcuda ;;
    call (NvCVImage_MapResource s) ;;
    (if v (MapResource s) then ret tt
     else
       deref _nvcvi ;;
       call (D_LOG_ERROR ("Failed to NvCVImage_MapResource " ++ surface_name s
                          ++ " with error: %s")) ;;
       throw "Error")
  else ret tt.

(** [video_denoising_instance::process_nvidia_noise_removal]. *)
Definition process_nvidia_noise_removal (v : vendor) : M (option texture) :=
  deref _nvcuda ;;
  texture <- get (fun w => get_texture (_input (this w))) ;;
  recreate_buffer v input_surface ;;
  recreate_buffer v output_surface ;;
  (* Copy the input capture to the CVImage buffer. *)
  input <- get (fun w => _nvidia_input (nvidia (this w))) ;;
  match input with
  | Some dst => call (gs_copy_texture dst texture)
  | None => fault
  end ;;
  get (fun w => _nvidia_output (nvidia (this w))).

(** [video_denoising_instance::switch_provider]. *)
Definition switch_provider (provider : denoise_provider) : M unit :=
  (* 1. If there is an existing task, attempt to cancel it. *)
  pending <- get (fun w => _provider_task (this w)) ;;
  match pending with
  | Some h => modify (set_pool (threadpool_pop h))
  | None => ret tt
  end ;;
  (* 2. Then spawn a new task to switch provider. *)
  h <- get next_handle ;;
  modify (set_next_handle (S h)) ;;
  modify (set_pool (threadpool_push h provider)) ;;
  assign (with_provider_task (Some h)).

(** The loop of [update] over [provider_priority]. *)
Fixpoint first_available (priority : list denoise_provider) (provider : denoise_provider)
  : M denoise_provider :=
  match priority with
  | [] => ret provider
  | p :: rest =>
      g <- get (fun w => factory_get (factory w)) ;;
      match g with
      | None => fault
      | Some f => if is_provider_available f p then ret p else first_available rest provider
      end
  end.

(** The first statements of [update]: the provider the settings ask for,
    [AUTOMATIC] resolved against the priority list. *)
Definition requested_provider (data : obs_data) : M denoise_provider :=
  let provider := obs_data_get_int data ST_PROVIDER in
  if provider =? AUTOMATIC then first_available provider_priority provider
  else ret provider.

(** [video_denoising_instance::update]. *)
Definition update (data : obs_data) : M unit :=
  (* Check if the user changed which Denoising provider we use. *)
  provider <- requested_provider data ;;
  current <- get (fun w => _provider (this w)) ;;
  if negb (provider =? current) then
    (* The provider is different from the original, recreate the provider. *)
    switch_provider provider
  else ret tt.

(** [video_denoising_instance::load], [migrate] and [video_tick]. *)
Definition load (data : obs_data) : M unit := update data.
Definition migrate (data : obs_data) (version : Z) : M unit := ret tt.
Definition video_tick (time : Z) : M unit := ret tt.

(** [video_denoising_instance::get_width] and [get_height]. *)
Definition get_width (w : world) : Z := fst (_size (this w)).
Definition get_height (w : world) : Z := snd (_size (this w)).

(** [video_denoising_instance::task_switch_provider]. *)
Definition task_switch_provider (v : vendor) (spd : denoise_provider) : M unit :=
  (* 1. Mark the provider as no longer ready. *)
  assign (with_provider_ready false) ;;
  (* 3. Load the new provider. *)
  (if spd =? NVIDIA_VIDEO_NOISE_REMOVAL then load_nvidia_noise_removal v else ret tt) ;;
  (* 4. Unload the previous provider. *)
  previous <- get (fun w => _provider (this w)) ;;
  (if previous =? NVIDIA_VIDEO_NOISE_REMOVAL then unload_nvidia_noise_removal v else ret tt) ;;
  (* 5. Set the new provider as valid. *)
  assign (with_provider spd) ;;
  assign (with_provider_ready true).

(** Modelled from the spec: a worker of the pool takes the oldest pending
    task and runs its body; the result is how the body ended. *)
Definition threadpool_work (v : vendor) : M unit :=
  pending <- get pool ;;
  match pending with
  | [] => ret tt
  | t :: rest =>
      modify (set_pool (fun _ => rest)) ;;
      task_switch_provider v (task_provider t)
  end.

(** The GPU state set up around the capture of the input in
    [video_render], from the clear to [gs_blend_state_pop]. *)
Definition capture_calls (h : host) (width height : Z) : list event :=
  [ rendertarget_render width height;
    (* Clear the buffer *)
    gs_clear;
    (* Set GPU state *)
    gs_blend_state_push;
    gs_enable_color;
    gs_enable_blending false;
    gs_enable_depth_test false;
    gs_enable_stencil_test false;
    gs_set_cull_mode;
    (* Render *)
    gs_enable_framebuffer_srgb (gs_get_linear_srgb h);
    obs_source_process_filter_end width height;
    gs_enable_framebuffer_srgb (gs_framebuffer_srgb_enabled h);
    (* Reset GPU state *)
    gs_blend_state_pop ].

Fixpoint calls (es : list event) : M unit :=
  match es with
  | [] => ret tt
  | e :: rest => call e ;; calls rest
  end.

(** The statements of [video_render] between the skip checks and the
    call of the provider, for a frame the host lets the filter process:
    the size is negotiated and the input is captured. *)
Definition capture_input (h : host) (size : Z * Z) : M unit :=
  let width := obs_source_get_base_width (obs_filter_get_target h) in
  let height := obs_source_get_base_height (obs_filter_get_target h) in
  assign (with_size size) ;;
  call obs_source_process_filter_begin_call ;;
  assign (with_input {| rt_width := width; rt_height := height |}) ;;
  calls (capture_calls h width height).

(** [video_denoising_instance::video_render]. *)
Definition video_render (v : vendor) (h : host) (effect : option nat) : M unit :=
  let target := obs_filter_get_target h in
  let width := obs_source_get_base_width target in
  let height := obs_source_get_base_height target in
  (* Ensure we have the bare minimum of valid information. *)
  let target := match target with Some t => Some t | None => obs_filter_get_parent h end in
  let effect := match effect with Some e => e | None => OBS_EFFECT_DEFAULT end in
  ready <- get (fun w => _provider_ready (this w)) ;;
  if negb ready || is_none target || (width =? 0) || (height =? 0) then
    call obs_source_skip_video_filter
  else
    (* Lock the provider from being changed. *)
    provider <- get (fun w => _provider (this w)) ;;
    (* Allow the provider to restrict the size. *)
    match size_policy provider width height with
    | Some size => assign (with_size size)
    | None => fault
    end ;;
    (* Capture the input. *)
    call obs_source_process_filter_begin_call ;;
    if obs_source_process_filter_begin h then
      assign (with_input {| rt_width := width; rt_height := height |}) ;;
      calls (capture_calls h width height) ;;
      (* Process the captured input with the provider. *)
      output <- (if provider =? NVIDIA_VIDEO_NOISE_REMOVAL
                 then process_nvidia_noise_removal v else ret None) ;;
      assign (with_output output) ;;
      match output with
      | None =>
          name <- lift (denoise_provider_to_string provider) ;;
          call (D_LOG_ERROR ("Provider '" ++ name ++ "' did not return a result.")) ;;
          call obs_source_skip_video_filter
      | Some out =>
          (* Throw away the input buffer (no longer needed). *)
          assign (with_input {| rt_width := 1; rt_height := 1 |}) ;;
          call (rendertarget_render 1 1) ;;
          (* Draw the result for the next filter to use. *)
          call (gs_effect_set_texture effect (gs_get_linear_srgb h) out) ;;
          size <- get (fun w => _size (this w)) ;;
          calls (repeat (gs_draw_sprite (fst size) (snd size)) (gs_effect_loop h))
      end
    else
      call obs_source_skip_video_filter.

(** The members as the constructor's initialiser list leaves them. *)
Definition nvidia_null : nvidia_members :=
  {| _nvcuda := false; _nvcvi := false; _nvvfx := false;
     _nvidia_input := None; _nvidia_output := None;
     _nvidia_cvi_input := cvi_empty; _nvidia_cvi_output := cvi_empty |}.
Definition new_instance : video_denoising_instance :=
  {| _size := (1, 1); _provider_ready := false; _provider := AUTOMATIC;
     _provider_task := None; _input := {| rt_width := 1; rt_height := 1 |};
     _output := None; nvidia := nvidia_null |}.

(** [video_denoising_instance::video_denoising_instance(data, self)]. *)
Definition video_denoising_instance_new (data : option obs_data) : M unit :=
  modify (set_this (fun _ => new_instance)) ;;
  (* Preallocate the RT on the driver and GPU. *)
  call (rendertarget_render 1 1) ;;
  match data with
  | Some d => load d
  | None => ret tt
  end.

(** [video_denoising_instance::~video_denoising_instance]. *)
Definition video_denoising_instance_delete (v : vendor) : M unit :=
  provider <- get (fun w => _provider (this w)) ;;
  if provider =? NVIDIA_VIDEO_NOISE_REMOVAL then unload_nvidia_noise_removal v else ret tt.

(** ** Histories of an instance *)

(** What happens to an instance after its creation: the host updates its
    settings, a worker runs the pending switch task, the host renders a
    frame. *)
Inductive operation : Type :=
| op_update (data : obs_data)
| op_task (v : vendor)
| op_render (v : vendor) (h : host) (effect : option nat).

Definition step (o : operation) : M unit :=
  match o with
  | op_update data => update data
  | op_task v => threadpool_work v
  | op_render v h effect => video_render v h effect
  end.

Definition is_task (o : operation) : bool :=
  match o with op_task _ => true | _ => false end.

(** The world after a list of operations. *)
Fixpoint run (ops : list operation) (w : world) : world :=
  match ops with
  | [] => w
  | o :: rest => run rest (snd (step o w))
  end.

(** The world in which the factory [f] creates an instance. *)
Definition initial_world (f : video_denoising_factory) : world :=
  {| this := new_instance; factory := Some f; pool := [];
     next_handle := 0%nat; next_texture := 1%nat; trace := [] |}.

(** The world right after the host created an instance with settings
    [data]. *)
Definition create (f : video_denoising_factory) (data : option obs_data) : world :=
  snd (video_denoising_instance_new data (initial_world f)).

(** The worlds an instance is in after a sequential history, in which
    every update and every switch task runs to its end before the next
    operation starts.  Histories in which they overlap are those of
    [interleaved] below. *)
Definition reachable (w : world) : Prop :=
  exists f data ops, w = run ops (create f data).

(** ** Vocabulary of the properties *)

(** The NVIDIA backend holds its three SDK references. *)
Definition loaded (n : nvidia_members) : Prop :=
  _nvcuda n = true /\ _nvcvi n = true /\ _nvvfx n = true.

(** The vendor answers every call with success. *)
Definition succeeds (v : vendor) : Prop := forall c, v c = true.

(** A member function leaves a component of the world as it was, however
    it ends. *)
Definition keeps {A B : Type} (f : world -> B) (m : M A) : Prop :=
  forall w, f (snd (m w)) = f w.

(** The frame gets past the checks at the head of [video_render]. *)
Definition passes_checks (h : host) (w : world) : bool :=
  _provider_ready (this w)
  && negb (is_none (match obs_filter_get_target h with
                    | Some t => Some t
                    | None => obs_filter_get_parent h
                    end))
  && negb (obs_source_get_base_width (obs_filter_get_target h) =? 0)
  && negb (obs_source_get_base_height (obs_filter_get_target h) =? 0).

(** A worker runs a pending switch task and the task body returns. *)
Definition switch_succeeds (o : operation) (w : world) : Prop :=
  is_task o = true /\ pool w <> [] /\ fst (step o w) = Ok tt.

(** No switch task succeeds in the course of the operations. *)
Fixpoint no_switch_succeeds (ops : list operation) (w : world) : Prop :=
  match ops with
  | [] => True
  | o :: rest => ~ switch_succeeds o w /\ no_switch_succeeds rest (snd (step o w))
  end.

(** Every render among the operations returns after a sole call of
    [obs_source_skip_video_filter]. *)
Fixpoint renders_skip (ops : list operation) (w : world) : Prop :=
  match ops with
  | [] => True
  | o :: rest =>
      match o with
      | op_render v h effect =>
          video_render v h effect w = (Ok tt, emit obs_source_skip_video_filter w)
      | _ => True
      end
      /\ renders_skip rest (snd (step o w))
  end.

(** The pool holds no task, or the one task whose handle the instance
    keeps, and that task asks for another provider than the current one. *)
Definition one_pending (w : world) : Prop :=
  pool w = [] \/
  exists t, pool w = [t] /\ _provider_task (this w) = Some (task_handle t)
            /\ task_provider t <> _provider (this w).

(** What the instance keeps of its provider: the members the render tick
    never writes. *)
Definition provider_state (w : world) :=
  (_provider_ready (this w), _provider (this w), _provider_task (this w), pool w,
   (_nvcuda (nvidia (this w)), _nvcvi (nvidia (this w)), _nvvfx (nvidia (this w))),
   (factory w, next_handle w)).


(** The invariant of the instance: a current NVIDIA provider has its SDK
    references, and at most the one task the instance knows is pending. *)
Definition invariant (w : world) : Prop :=
  (_provider (this w) = NVIDIA_VIDEO_NOISE_REMOVAL -> loaded (nvidia (this w))) /\
  one_pending w.


(** ** Vocabulary of the further properties *)

(** The value fits [uint32_t]. *)
Definition uint32 (x : Z) : Prop := 0 <= x < 2 ^ 32.

(** The base size the host reports for the target is a pair of
    [uint32_t]. *)
Definition host_ok (h : host) : Prop :=
  forall s, obs_filter_get_target h = Some s -> uint32 (base_width s) /\ uint32 (base_height s).

Definition operation_ok (o : operation) : Prop :=
  match o with
  | op_render _ h _ => host_ok h
  | _ => True
  end.

(** ** Vocabulary of the properties of process *)

(** The buffer of a surface has to be re-created, and its image is
    mapped, in a world. *)
Definition is_stale (s : surface) (w : world) : bool :=
  stale (nvidia_texture s (nvidia (this w))) (_size (this w)).
Definition is_mapped (s : surface) (w : world) : bool :=
  negb (cvi_width (nvidia_cvi s (nvidia (this w))) =? 0).

(** The vendor answers with success every call that re-creating the
    buffer of a surface makes: the unmap when its image is mapped, the
    init and the map. *)
Definition vendor_ok (v : vendor) (s : surface) (mapped : bool) : bool :=
  (negb mapped || v (UnmapResource s))
  && v (InitFromD3D11Texture s) && v (MapResource s).

(** The calls that replace the buffer of a surface by the texture [t]. *)
Definition replacement_calls (s : surface) (mapped : bool) (t : texture) : list event :=
  (if mapped then [NvCVImage_UnmapResource s; NvCVImage_Dealloc s] else [])
  ++ [texture_create t; NvCVImage_InitFromD3D11Texture s t; NvCVImage_MapResource s].

(** The world after the old image of a surface, if mapped, was unmapped
    and deallocated. *)
Definition unmapped (s : surface) (w : world) : world :=
  if is_mapped s w
  then set_this (with_nvidia (with_nvidia_cvi s cvi_empty))
         (emit (NvCVImage_Dealloc s) (emit (NvCVImage_UnmapResource s) w))
  else w.

(** The world after the buffer of a surface was replaced by the texture
    [t]. *)
Definition replaced (s : surface) (t : texture) (w : world) : world :=
  emit (NvCVImage_MapResource s)
    (set_this (with_nvidia (with_nvidia_cvi s (cvi_of_texture t)))
       (emit (NvCVImage_InitFromD3D11Texture s t)
          (set_this (with_nvidia (with_nvidia_texture s (Some t)))
             (emit (texture_create t)
                (set_next_texture (S (next_texture w)) (unmapped s w)))))).

(** ** Overlapping updates and switch tasks *)

(** The steps of an instance when updates and switch tasks overlap.
    [update] compares the requested provider with [_provider] before
    [switch_provider] takes [_provider_lock], so a switch task can run
    between the comparison and the call: [act_switch p] is the call
    [switch_provider(p)] of an update whose comparison was made earlier.
    A worker takes a task off the queue ([act_dequeue]) before the task
    marks the provider as not ready ([act_unready], made without the lock)
    and runs its body under the lock ([act_run]); [act_task] is the three
    in one go.  The bodies of [switch_provider], of a switch task and of a
    render exclude one another through [_provider_lock]. *)
Inductive action : Type :=
| act_update (data : obs_data)
| act_switch (p : denoise_provider)
| act_dequeue
| act_unready
| act_run (v : vendor) (p : denoise_provider)
| act_task (v : vendor)
| act_render (v : vendor) (h : host) (effect : option nat).

Definition perform (a : action) : M unit :=
  match a with
  | act_update data => update data
  | act_switch p => switch_provider p
  | act_dequeue => modify (set_pool (@tl task))
  | act_unready => assign (with_provider_ready false)
  | act_run v p => task_switch_provider v p
  | act_task v => threadpool_work v
  | act_render v h effect => video_render v h effect
  end.

Fixpoint perform_all (acts : list action) (w : world) : world :=
  match acts with
  | [] => w
  | a :: rest => perform_all rest (snd (perform a w))
  end.

(** The worlds an instance can be in when updates and switch tasks
    overlap. *)
Definition interleaved (w : world) : Prop :=
  exists f data acts, w = perform_all acts (create f data).

(** The pool holds no task, or the one task whose handle the instance
    keeps. *)
Definition tracked (w : world) : Prop :=
  pool w = [] \/
  exists t, pool w = [t] /\ _provider_task (this w) = Some (task_handle t).

(** * Properties *)

(** ** Double precision arithmetic *)

Module DoubleFacts.
Import Double.

Lemma nearest_even_bound (N D : Z) :
  0 <= N -> 0 < D ->
  2 * nearest_even N D * D - D <= 2 * N <= 2 * nearest_even N D * D + D.
Proof.
  intros HN HD. unfold nearest_even.
  pose proof (Z.div_mod N D ltac:(lia)) as E.
  pose proof (Z.mod_pos_bound N D HD) as B.
  set (q := N / D) in *. set (r := N mod D) in *.
  destruct (Z.compare_spec (2 * r) D); [destruct (Z.even q) | | ]; nia.
Qed.

Lemma scale_step_num (e n : Z) : e < 0 -> scale_num e n = 2 * scale_num (e + 1) n.
Proof.
  intros He. unfold scale_num.
  replace (Z.max 0 (- e)) with (Z.max 0 (- (e + 1)) + 1) by lia.
  rewrite Z.pow_add_r by lia. change (2 ^ 1) with 2. ring.
Qed.

Lemma scale_step_num_pos (e n : Z) : 0 <= e -> scale_num (e + 1) n = scale_num e n.
Proof.
  intros He. unfold scale_num.
  replace (Z.max 0 (- (e + 1))) with 0 by lia.
  replace (Z.max 0 (- e)) with 0 by lia. reflexivity.
Qed.

Lemma scale_step_den (e d : Z) : 0 <= e -> scale_den (e + 1) d = 2 * scale_den e d.
Proof.
  intros He. unfold scale_den.
  replace (Z.max 0 (e + 1)) with (Z.max 0 e + 1) by lia.
  rewrite Z.pow_add_r by lia. change (2 ^ 1) with 2. ring.
Qed.

Lemma scale_step_den_neg (e d : Z) : e < 0 -> scale_den (e + 1) d = scale_den e d.
Proof.
  intros He. unfold scale_den.
  replace (Z.max 0 (e + 1)) with 0 by lia.
  replace (Z.max 0 e) with 0 by lia. reflexivity.
Qed.

Lemma scale_num_pos (e n : Z) : 0 < n -> 0 < scale_num e n.
Proof. intros. unfold scale_num. apply Z.mul_pos_pos; [lia|]. apply Z.pow_pos_nonneg; lia. Qed.

Lemma scale_den_pos (e d : Z) : 0 < d -> 0 < scale_den e d.
Proof. intros. unfold scale_den. apply Z.mul_pos_pos; [lia|]. apply Z.pow_pos_nonneg; lia. Qed.

Lemma exponent_first_guess (n d : Z) :
  0 < n -> 0 < d ->
  let e0 := Z.log2 n - Z.log2 d - 53 in
  2 ^ 52 * scale_den e0 d < scale_num e0 n /\ scale_num e0 n < 2 ^ 54 * scale_den e0 d.
Proof.
  intros Hn Hd e0.
  pose proof (Z.log2_spec n Hn) as [Ln Un].
  pose proof (Z.log2_spec d Hd) as [Ld Ud].
  pose proof (Z.log2_nonneg n) as An. pose proof (Z.log2_nonneg d) as Ad.
  set (a := Z.log2 n) in *. set (b := Z.log2 d) in *.
  unfold scale_num, scale_den.
  destruct (Z.le_gt_cases 0 e0) as [He|He].
  - replace (Z.max 0 (- e0)) with 0 by lia. replace (Z.max 0 e0) with e0 by lia.
    rewrite Z.pow_0_r, Z.mul_1_r.
    assert (Ea : 2 ^ a = 2 ^ 53 * (2 ^ b * 2 ^ e0)).
    { rewrite <- !Z.pow_add_r by lia. f_equal. lia. }
    assert (P : 0 < 2 ^ e0) by (apply Z.pow_pos_nonneg; lia).
    replace (Z.succ a) with (a + 1) in Un by lia.
    replace (Z.succ b) with (b + 1) in Ud by lia.
    rewrite Z.pow_add_r in Un, Ud by lia. change (2 ^ 1) with 2 in *.
    change (2^52) with 4503599627370496. change (2^53) with 9007199254740992 in *.
    change (2^54) with 18014398509481984.
    split; nia.
  - replace (Z.max 0 (- e0)) with (- e0) by lia. replace (Z.max 0 e0) with 0 by lia.
    rewrite Z.pow_0_r, Z.mul_1_r.
    assert (Ea : 2 ^ a * 2 ^ (- e0) = 2 ^ 53 * 2 ^ b).
    { rewrite <- !Z.pow_add_r by lia. f_equal. lia. }
    assert (P : 0 < 2 ^ (- e0)) by (apply Z.pow_pos_nonneg; lia).
    replace (Z.succ a) with (a + 1) in Un by lia.
    replace (Z.succ b) with (b + 1) in Ud by lia.
    rewrite Z.pow_add_r in Un, Ud by lia. change (2 ^ 1) with 2 in *.
    change (2^52) with 4503599627370496. change (2^53) with 9007199254740992 in *.
    change (2^54) with 18014398509481984.
    split; nia.
Qed.

Lemma exponent_spec (n d : Z) :
  0 < n -> 0 < d ->
  let e := exponent n d in
  2 ^ 52 * scale_den e d <= scale_num e n /\ scale_num e n < 2 ^ 53 * scale_den e d.
Proof.
  intros Hn Hd. cbv zeta. unfold exponent.
  pose proof (exponent_first_guess n d Hn Hd) as [L U]. cbv zeta in L, U.
  set (e0 := Z.log2 n - Z.log2 d - 53) in *.
  destruct (Z.leb_spec (2 ^ 53 * scale_den e0 d) (scale_num e0 n)) as [G|G].
  - destruct (Z.le_gt_cases 0 e0) as [He|He].
    + rewrite scale_step_num_pos, scale_step_den by lia.
      change (2^52) with 4503599627370496. change (2^53) with 9007199254740992 in *.
      change (2^54) with 18014398509481984 in *. lia.
    + rewrite scale_step_den_neg by lia. rewrite (scale_step_num e0) in * by lia.
      change (2^52) with 4503599627370496 in *. change (2^53) with 9007199254740992 in *.
      change (2^54) with 18014398509481984 in *. lia.
  - lia.
Qed.

Lemma rounding_core (c x y ma mp E F r : Z) :
  1 <= c <= 2048 -> 0 < y <= x -> x < 2 ^ 32 ->
  2 ^ 52 <= E -> 2 ^ 40 <= F ->
  2 * ma * x - x <= 2 * (y * E) <= 2 * ma * x + x ->
  2 * mp * E - E <= 2 * (c * ma * F) <= 2 * mp * E + E ->
  2 * F * r <= 2 * mp + F < 2 * F * r + 2 * F ->
  (2 * r - 1) * x <= 2 * (c * y) <= (2 * r + 1) * x.
Proof.
  change (2 ^ 32) with 4294967296. change (2 ^ 52) with 4503599627370496.
  change (2 ^ 40) with 1099511627776.
  intros Hc Hy Hx HE HF Ha Hp Hr.
  assert (PcF : 0 <= c * F) by (apply Z.mul_nonneg_nonneg; lia).
  assert (PxE : 0 < x * E) by (apply Z.mul_pos_pos; lia).
  assert (PEF : 0 < E * F) by (apply Z.mul_pos_pos; lia).
  assert (S : x * E + c * F * x < E * F).
  { assert (S1 : x * 256 * E <= F * E) by (apply Z.mul_le_mono_nonneg_r; lia).
    assert (S2 : c * x <= 2048 * x) by (apply Z.mul_le_mono_nonneg_r; lia).
    assert (S3 : c * x * 512 * F <= E * F) by (apply Z.mul_le_mono_nonneg_r; lia).
    lia. }
  assert (A1 : (c * F) * (2 * (y * E)) <= (c * F) * (2 * ma * x + x))
    by (apply Z.mul_le_mono_nonneg_l; lia).
  assert (A2 : (c * F) * (2 * ma * x - x) <= (c * F) * (2 * (y * E)))
    by (apply Z.mul_le_mono_nonneg_l; lia).
  assert (B1 : x * (2 * (c * ma * F)) <= x * (2 * mp * E + E))
    by (apply Z.mul_le_mono_nonneg_l; lia).
  assert (B2 : x * (2 * mp * E - E) <= x * (2 * (c * ma * F)))
    by (apply Z.mul_le_mono_nonneg_l; lia).
  assert (C1 : (x * E) * (2 * mp + F) < (x * E) * (2 * F * r + 2 * F))
    by (apply Z.mul_lt_mono_pos_l; lia).
  assert (C2 : (x * E) * (2 * F * r) <= (x * E) * (2 * mp + F))
    by (apply Z.mul_le_mono_nonneg_l; lia).
  split.
  - destruct (Z.le_gt_cases ((2 * r - 1) * x) (2 * (c * y))) as [|G]; [assumption|exfalso].
    assert (D : (E * F) * (2 * (c * y)) <= (E * F) * ((2 * r - 1) * x - 1))
      by (apply Z.mul_le_mono_nonneg_l; lia).
    lia.
  - destruct (Z.le_gt_cases (2 * (c * y)) ((2 * r + 1) * x)) as [|G]; [assumption|exfalso].
    assert (D : (E * F) * ((2 * r + 1) * x + 1) <= (E * F) * (2 * (c * y)))
      by (apply Z.mul_le_mono_nonneg_l; lia).
    lia.
Qed.

(** What [round_ratio] returns for a positive ratio. *)
Lemma round_ratio_spec (n d : Z) :
  0 < n -> 0 < d ->
  exists m e,
    round_ratio n d = Finite m e /\
    2 ^ 52 * scale_den e d <= scale_num e n < 2 ^ 53 * scale_den e d /\
    2 * m * scale_den e d - scale_den e d <= 2 * scale_num e n
      <= 2 * m * scale_den e d + scale_den e d.
Proof.
  intros Hn Hd. unfold round_ratio.
  destruct (Z.eqb_spec n 0) as [->|_]; [lia|].
  eexists _, _. split; [reflexivity|]. split.
  - apply exponent_spec; assumption.
  - apply nearest_even_bound.
    + pose proof (scale_num_pos (exponent n d) n Hn). lia.
    + apply scale_den_pos; assumption.
Qed.

(** A ratio below 2^52 has a negative exponent. *)
Lemma small_ratio_exponent (n d e : Z) :
  0 < d -> n < 2 ^ 52 * d ->
  2 ^ 52 * scale_den e d <= scale_num e n ->
  e < 0 /\ scale_den e d = d /\ scale_num e n = n * 2 ^ (- e).
Proof.
  intros Hd Hlt H.
  destruct (Z.le_gt_cases 0 e) as [He|He].
  - exfalso. unfold scale_den, scale_num in H.
    replace (Z.max 0 (- e)) with 0 in H by lia. replace (Z.max 0 e) with e in H by lia.
    rewrite Z.pow_0_r, Z.mul_1_r in H.
    assert (1 <= 2 ^ e) by (pose proof (Z.pow_pos_nonneg 2 e); lia).
    assert (d * 1 <= d * 2 ^ e) by (apply Z.mul_le_mono_nonneg_l; lia).
    change (2 ^ 52) with 4503599627370496 in *. lia.
  - unfold scale_den, scale_num.
    replace (Z.max 0 (- e)) with (- e) by lia. replace (Z.max 0 e) with 0 by lia.
    rewrite Z.pow_0_r, Z.mul_1_r. auto.
Qed.

(** The scaled and rounded side computed by the size policy:
    [static_cast<uint32_t>(round(double(c) * (double(y) / double(x))))]
    is an integer nearest to [c * y / x]. *)
Lemma scaled_round (c x y : Z) :
  1 <= c <= 2048 -> 0 <= y <= x -> 0 < x < 2 ^ 32 ->
  exists r,
    to_uint32 (round (mul (of_uint32 c) (div (of_uint32 y) (of_uint32 x)))) = Some r /\
    (2 * r - 1) * x <= 2 * (c * y) <= (2 * r + 1) * x.
Proof.
  intros Hc Hy Hx. unfold of_uint32, div.
  destruct (Z.eqb_spec x 0) as [->|_]; [lia|].
  replace (scale_num (0 - 0) y) with y by (unfold scale_num; simpl; lia).
  replace (scale_den (0 - 0) x) with x by (unfold scale_den; simpl; lia).
  destruct (Z.eq_dec y 0) as [->|Hy0].
  - exists 0. split; [|lia].
    change (round_ratio 0 x) with (Finite 0 0). unfold mul.
    rewrite Z.mul_0_r. reflexivity.
  - destruct (round_ratio_spec y x ltac:(lia) ltac:(lia)) as (ma & ea & -> & Ra & Na).
    assert (Hsm : y < 2 ^ 52 * x) by (change (2 ^ 52) with 4503599627370496; lia).
    destruct (small_ratio_exponent y x ea ltac:(lia) Hsm (proj1 Ra)) as (Hea & Dx & Ny).
    rewrite Dx, Ny in Ra, Na. set (E := 2 ^ (- ea)) in *.
    assert (PE : 0 < E) by (apply Z.pow_pos_nonneg; lia).
    assert (HE : 2 ^ 52 <= E).
    { destruct Ra as [Ra _]. change (2 ^ 52) with 4503599627370496 in *.
      assert (y * E <= x * E) by (apply Z.mul_le_mono_nonneg_r; lia).
      destruct (Z.le_gt_cases 4503599627370496 E) as [|G]; [assumption|exfalso].
      assert (x * E < x * 4503599627370496) by (apply Z.mul_lt_mono_pos_l; lia). lia. }
    assert (Hma : 2 ^ 52 <= ma <= 2 ^ 53).
    { change (2 ^ 52) with 4503599627370496 in *. change (2 ^ 53) with 9007199254740992 in *.
      split.
      - destruct (Z.le_gt_cases 4503599627370496 ma) as [|G]; [assumption|exfalso].
        assert (ma * x <= 4503599627370495 * x) by (apply Z.mul_le_mono_nonneg_r; lia). lia.
      - destruct (Z.le_gt_cases ma 9007199254740992) as [|G]; [assumption|exfalso].
        assert (9007199254740993 * x <= ma * x) by (apply Z.mul_le_mono_nonneg_r; lia). lia. }
    unfold mul. replace (- (0 + ea)) with (- ea) by lia.
    replace (scale_num (- ea) (c * ma)) with (c * ma)
      by (unfold scale_num; replace (Z.max 0 (- - ea)) with 0 by lia; simpl; lia).
    replace (scale_den (- ea) 1) with E
      by (unfold scale_den; replace (Z.max 0 (- ea)) with (- ea) by lia; subst E; lia).
    assert (Pcm : 0 < c * ma).
    { apply Z.mul_pos_pos; [lia|]. change (2 ^ 52) with 4503599627370496 in *. lia. }
    assert (Ucm : c * ma <= 2048 * 2 ^ 53).
    { change (2 ^ 53) with 9007199254740992 in *. change (2 ^ 52) with 4503599627370496 in *.
      assert (c * ma <= 2048 * ma) by (apply Z.mul_le_mono_nonneg_r; lia). lia. }
    destruct (round_ratio_spec (c * ma) E Pcm PE) as (mp & ep & -> & Rp & Np).
    assert (Hsm' : c * ma < 2 ^ 52 * E).
    { change (2 ^ 53) with 9007199254740992 in *. change (2 ^ 52) with 4503599627370496 in *.
      assert (4503599627370496 * 4503599627370496 <= 4503599627370496 * E)
        by (apply Z.mul_le_mono_nonneg_l; lia). lia. }
    destruct (small_ratio_exponent (c * ma) E ep PE Hsm' (proj1 Rp)) as (Hep & DE & NF).
    rewrite DE, NF in Rp, Np. set (F := 2 ^ (- ep)) in *.
    assert (PF : 0 < F) by (apply Z.pow_pos_nonneg; lia).
    assert (HF : 2 ^ 40 <= F).
    { destruct Rp as [Rp _].
      change (2 ^ 53) with 9007199254740992 in *. change (2 ^ 52) with 4503599627370496 in *.
      change (2 ^ 40) with 1099511627776.
      destruct (Z.le_gt_cases 1099511627776 F) as [|G]; [assumption|exfalso].
      assert (c * ma * F <= (2048 * 9007199254740992) * F)
        by (apply Z.mul_le_mono_nonneg_r; lia).
      assert (4503599627370496 * 4503599627370496 <= 4503599627370496 * E)
        by (apply Z.mul_le_mono_nonneg_l; lia).
      lia. }
    unfold round. destruct (Z.leb_spec 0 ep) as [|_]; [lia|]. fold F.
    set (r := (2 * mp + F) / (2 * F)).
    assert (Hr : 2 * F * r <= 2 * mp + F < 2 * F * r + 2 * F).
    { pose proof (Z.div_mod (2 * mp + F) (2 * F) ltac:(lia)) as Dm.
      pose proof (Z.mod_pos_bound (2 * mp + F) (2 * F) ltac:(lia)) as Bm.
      fold r in Dm. lia. }
    assert (Hfin : (2 * r - 1) * x <= 2 * (c * y) <= (2 * r + 1) * x).
    { apply (rounding_core c x y ma mp E F r); try assumption; lia. }
    exists r. split; [|exact Hfin].
    unfold to_uint32. change (0 <=? 0) with true. cbv iota.
    rewrite Z.pow_0_r, Z.mul_1_r.
    assert (Hrc : r <= c).
    { destruct (Z.le_gt_cases r c) as [|G]; [assumption|exfalso].
      assert (c * y <= c * x) by (apply Z.mul_le_mono_nonneg_l; lia).
      assert ((2 * c + 1) * x <= (2 * r - 1) * x) by (apply Z.mul_le_mono_nonneg_r; lia).
      lia. }
    destruct (Z.ltb_spec r (2 ^ 32)) as [|G]; [reflexivity|].
    change (2 ^ 32) with 4294967296 in G. lia.
Qed.
End DoubleFacts.

(** The operations of [Double] agree with the Standard Library's
    specification of binary64 on the values the scenarios go through. *)
Example div_agrees_with_SFdiv :
  forall y x, In (y, x) [(147, 2304); (2160, 3840); (40, 80); (1, 4000); (1000, 5760);
                         (3999, 4000); (1, 49); (4294967294, 4294967295)] ->
  Double.to_spec (Double.div (Double.of_uint32 y) (Double.of_uint32 x))
  = SFdiv 53 1024 (Double.to_spec (Double.of_uint32 y)) (Double.to_spec (Double.of_uint32 x)).
Proof.
  intros y x H. repeat (destruct H as [H|H]; [inversion H; subst; vm_compute; reflexivity|]).
  destruct H.
Qed.

Example mul_agrees_with_SFmul :
  forall c y x, In (c, y, x) [(1920, 147, 2304); (1920, 2160, 3840); (142, 40, 80);
                              (1920, 1, 4000); (1920, 1000, 5760); (1920, 3999, 4000);
                              (49, 1, 49); (1080, 1, 4294967295)] ->
  let ar := Double.div (Double.of_uint32 y) (Double.of_uint32 x) in
  Double.to_spec (Double.mul (Double.of_uint32 c) ar)
  = SFmul 53 1024 (Double.to_spec (Double.of_uint32 c)) (Double.to_spec ar).
Proof.
  intros c y x H. repeat (destruct H as [H|H]; [inversion H; subst; vm_compute; reflexivity|]).
  destruct H.
Qed.

(** ** The size policy *)

Lemma clamp_range (v lo hi : Z) : lo <= hi -> lo <= clamp v lo hi <= hi.
Proof.
  intros. unfold clamp.
  destruct (Z.ltb_spec v lo); [lia|]. destruct (Z.ltb_spec hi v); lia.
Qed.

Lemma clamp_fixed (v lo hi : Z) : lo <= v <= hi -> clamp v lo hi = v.
Proof.
  intros. unfold clamp.
  destruct (Z.ltb_spec v lo); [lia|]. destruct (Z.ltb_spec hi v); lia.
Qed.

Lemma nearest_le (r c n d : Z) : 0 < d -> 0 <= n <= d -> 0 < c -> nearest r (c * n) d -> 0 <= r <= c.
Proof.
  unfold nearest. intros Hd Hn Hc [L U]. split.
  - destruct (Z.le_gt_cases 0 r) as [|G]; [assumption|exfalso].
    assert ((2 * r + 1) * d <= (-1) * d) by (apply Z.mul_le_mono_nonneg_r; lia).
    assert (0 <= c * n) by (apply Z.mul_nonneg_nonneg; lia). lia.
  - destruct (Z.le_gt_cases r c) as [|G]; [assumption|exfalso].
    assert (c * n <= c * d) by (apply Z.mul_le_mono_nonneg_l; lia).
    assert ((2 * c + 1) * d <= (2 * r - 1) * d) by (apply Z.mul_le_mono_nonneg_r; lia).
    lia.
Qed.

Lemma nearest_unique (r r' n d : Z) :
  0 < d -> nearest r n d -> nearest r' n d -> ~ halfway n d -> r = r'.
Proof.
  unfold nearest, halfway. intros Hd [L U] [L' U'] T.
  assert (K : forall k, 2 * n <> (2 * k + 1) * d).
  { intros k E. apply T. rewrite E.
    replace ((2 * k + 1) * d) with (d + k * (2 * d)) by ring.
    rewrite Z.mod_add by lia. apply Z.mod_small. lia. }
  pose proof (K r). pose proof (K r'). pose proof (K (r - 1)). pose proof (K (r' - 1)).
  destruct (Z.lt_trichotomy r r') as [G|[G|G]]; [exfalso|assumption|exfalso].
  - assert ((2 * r + 1) * d <= (2 * r' - 1) * d) by (apply Z.mul_le_mono_nonneg_r; lia). lia.
  - assert ((2 * r' + 1) * d <= (2 * r - 1) * d) by (apply Z.mul_le_mono_nonneg_r; lia). lia.
Qed.

Lemma round_div_nearest (n d : Z) : 0 < d -> nearest (round_div n d) n d.
Proof.
  intros Hd. unfold nearest, round_div.
  pose proof (Z.div_mod (2 * n + d) (2 * d) ltac:(lia)) as E.
  pose proof (Z.mod_pos_bound (2 * n + d) (2 * d) ltac:(lia)) as B.
  set (q := (2 * n + d) / (2 * d)) in *. lia.
Qed.

(** The same side scaled back by itself comes out unchanged. *)
Lemma nearest_self (r r' c : Z) : 0 < c -> nearest r' (c * r) c -> r' = r.
Proof.
  unfold nearest. intros Hc [L U].
  destruct (Z.lt_trichotomy r r') as [G|[G|G]]; [exfalso|auto|exfalso].
  - assert ((2 * r + 1) * c <= (2 * r' - 1) * c) by (apply Z.mul_le_mono_nonneg_r; lia). lia.
  - assert ((2 * r' + 1) * c <= (2 * r - 1) * c) by (apply Z.mul_le_mono_nonneg_r; lia). lia.
Qed.

(** [resize_nvidia_noise_removal] when the width dominates. *)
Lemma resize_dominant_width (x y : Z) :
  0 <= y < x -> x < 2 ^ 32 ->
  exists ry,
    resize_nvidia_noise_removal x y = Some (clamp x 142 1920, ry) /\
    nearest ry (clamp x 142 1920 * y) x.
Proof.
  intros Hy Hx. unfold resize_nvidia_noise_removal.
  destruct (Z.ltb_spec y x) as [_|]; [|lia].
  pose proof (clamp_range x 142 1920 ltac:(lia)) as Hc.
  destruct (DoubleFacts.scaled_round (clamp x 142 1920) x y) as (r & -> & Hr); try lia.
  exists r. split; [reflexivity|exact Hr].
Qed.

(** [resize_nvidia_noise_removal] when the height dominates. *)
Lemma resize_dominant_height (x y : Z) :
  0 <= x <= y -> 0 < y < 2 ^ 32 ->
  exists rx,
    resize_nvidia_noise_removal x y = Some (rx, clamp y 80 1080) /\
    nearest rx (clamp y 80 1080 * x) y.
Proof.
  intros Hx Hy. unfold resize_nvidia_noise_removal.
  destruct (Z.ltb_spec y x) as [|_]; [lia|].
  pose proof (clamp_range y 80 1080 ltac:(lia)) as Hc.
  destruct (DoubleFacts.scaled_round (clamp y 80 1080) y x) as (r & -> & Hr); try lia.
  exists r. split; [reflexivity|exact Hr].
Qed.

Lemma size_policy_other (p : denoise_provider) (w h : Z) :
  p <> NVIDIA_VIDEO_NOISE_REMOVAL -> size_policy p w h = Some (w, h).
Proof.
  intros Hp. unfold size_policy. destruct (Z.eqb_spec p NVIDIA_VIDEO_NOISE_REMOVAL); congruence.
Qed.

(** C3 (as amended).  For every upstream size with both sides in
    [1, 2^32), the NVIDIA size policy returns the dominant side clamped
    (the width to [142, 1920] if it exceeds the height, else the height to
    [80, 1080]) and, for the other side, an integer nearest to
    clamped * other / dominant, which is the rounding of the
    specification unless that quotient lies exactly halfway between two
    integers; [size_policy(1, 3840, 2160) = (1920, 1080)],
    [size_policy(1, 80, 40) = (142, 71)]; every other provider returns the
    size unchanged. *)
Theorem size_policy_formula :
  (forall w h, 1 <= w < 2 ^ 32 -> 1 <= h < 2 ^ 32 ->
     exists w' h',
       size_policy NVIDIA_VIDEO_NOISE_REMOVAL w h = Some (w', h') /\
       (h < w -> w' = clamp w 142 1920 /\ nearest h' (w' * h) w /\
                 (~ halfway (w' * h) w -> h' = round_div (w' * h) w)) /\
       (w <= h -> h' = clamp h 80 1080 /\ nearest w' (h' * w) h /\
                  (~ halfway (h' * w) h -> w' = round_div (h' * w) h))) /\
  size_policy NVIDIA_VIDEO_NOISE_REMOVAL 3840 2160 = Some (1920, 1080) /\
  size_policy NVIDIA_VIDEO_NOISE_REMOVAL 80 40 = Some (142, 71) /\
  (forall p w h, p <> NVIDIA_VIDEO_NOISE_REMOVAL -> size_policy p w h = Some (w, h)).
Proof.
  split; [|split; [vm_compute; reflexivity|split; [vm_compute; reflexivity|]]].
  - intros w h Hw Hh. change (size_policy NVIDIA_VIDEO_NOISE_REMOVAL w h)
      with (resize_nvidia_noise_removal w h).
    destruct (Z.lt_ge_cases h w) as [G|G].
    + destruct (resize_dominant_width w h) as (r & E & N); try lia.
      exists (clamp w 142 1920), r. split; [exact E|]. split; [|lia].
      intros _. split; [reflexivity|]. split; [exact N|].
      intros T. apply (nearest_unique r _ (clamp w 142 1920 * h) w); try assumption; try lia.
      apply round_div_nearest; lia.
    + destruct (resize_dominant_height w h) as (r & E & N); try lia.
      exists r, (clamp h 80 1080). split; [exact E|]. split; [lia|].
      intros _. split; [reflexivity|]. split; [exact N|].
      intros T. apply (nearest_unique r _ (clamp h 80 1080 * w) h); try assumption; try lia.
      apply round_div_nearest; lia.
  - exact size_policy_other.
Qed.

Lemma size_policy_formula_witness :
  exists w' h',
    size_policy NVIDIA_VIDEO_NOISE_REMOVAL 1280 720 = Some (w', h') /\
    (720 < 1280 -> w' = clamp 1280 142 1920 /\ nearest h' (w' * 720) 1280 /\
       (~ halfway (w' * 720) 1280 -> h' = round_div (w' * 720) 1280)) /\
    (1280 <= 720 -> h' = clamp 720 80 1080 /\ nearest w' (h' * 1280) 720 /\
       (~ halfway (h' * 1280) 720 -> w' = round_div (h' * 1280) 720)).
Proof.
  apply (proj1 size_policy_formula 1280 720); change (2 ^ 32) with 4294967296; lia.
Defined.

(** C3 fails as stated: at 2304 x 147 the exact quotient 1920 * 147 / 2304
    is 122.5, which the specification rounds to 123; the double product
    [1920.0 * (147.0 / 2304.0)] is just below 122.5 and the code returns
    122. *)
Lemma size_policy_formula_counterexample :
  size_policy NVIDIA_VIDEO_NOISE_REMOVAL 2304 147 = Some (1920, 122) /\
  size_policy_spec NVIDIA_VIDEO_NOISE_REMOVAL 2304 147 = (1920, 123).
Proof. split; vm_compute; reflexivity. Qed.

(** C4 (as amended).  For every provider and every upstream size with
    both sides in [1, 2^32): a provider other than the NVIDIA one returns
    the size unchanged (both sides at least 1); the NVIDIA policy returns
    the dominant side inside its clamp range ([142, 1920] for a dominant
    width, [80, 1080] for a dominant height) and the other side between 0
    and the dominant one, an integer nearest to
    clamped * other / dominant. *)
Theorem size_policy_range (p : denoise_provider) (w h : Z) :
  1 <= w < 2 ^ 32 -> 1 <= h < 2 ^ 32 ->
  exists w' h',
    size_policy p w h = Some (w', h') /\
    (p <> NVIDIA_VIDEO_NOISE_REMOVAL -> w' = w /\ h' = h) /\
    (p = NVIDIA_VIDEO_NOISE_REMOVAL -> h < w ->
       142 <= w' <= 1920 /\ 0 <= h' <= w' /\ nearest h' (w' * h) w) /\
    (p = NVIDIA_VIDEO_NOISE_REMOVAL -> w <= h ->
       80 <= h' <= 1080 /\ 0 <= w' <= h' /\ nearest w' (h' * w) h).
Proof.
  intros Hw Hh.
  destruct (Z.eq_dec p NVIDIA_VIDEO_NOISE_REMOVAL) as [->|Hp].
  - change (size_policy NVIDIA_VIDEO_NOISE_REMOVAL w h) with (resize_nvidia_noise_removal w h).
    destruct (Z.lt_ge_cases h w) as [G|G].
    + destruct (resize_dominant_width w h) as (r & E & N); try lia.
      pose proof (clamp_range w 142 1920 ltac:(lia)) as Hc.
      exists (clamp w 142 1920), r. split; [exact E|]. split; [congruence|]. split; [|lia].
      intros _ _. split; [exact Hc|]. split; [|exact N].
      apply (nearest_le r _ h w); try lia. exact N.
    + destruct (resize_dominant_height w h) as (r & E & N); try lia.
      pose proof (clamp_range h 80 1080 ltac:(lia)) as Hc.
      exists r, (clamp h 80 1080). split; [exact E|]. split; [congruence|]. split; [lia|].
      intros _ _. split; [exact Hc|]. split; [|exact N].
      apply (nearest_le r _ w h); try lia. exact N.
  - exists w, h. rewrite size_policy_other by assumption.
    split; [reflexivity|]. split; [auto|]. split; congruence.
Qed.

Lemma size_policy_range_witness :
  exists w' h',
    size_policy NVIDIA_VIDEO_NOISE_REMOVAL 3840 2160 = Some (w', h') /\
    (NVIDIA_VIDEO_NOISE_REMOVAL <> NVIDIA_VIDEO_NOISE_REMOVAL -> w' = 3840 /\ h' = 2160) /\
    (NVIDIA_VIDEO_NOISE_REMOVAL = NVIDIA_VIDEO_NOISE_REMOVAL -> 2160 < 3840 ->
       142 <= w' <= 1920 /\ 0 <= h' <= w' /\ nearest h' (w' * 2160) 3840) /\
    (NVIDIA_VIDEO_NOISE_REMOVAL = NVIDIA_VIDEO_NOISE_REMOVAL -> 3840 <= 2160 ->
       80 <= h' <= 1080 /\ 0 <= w' <= h' /\ nearest w' (h' * 3840) 2160).
Proof.
  apply (size_policy_range NVIDIA_VIDEO_NOISE_REMOVAL 3840 2160);
    change (2 ^ 32) with 4294967296; lia.
Defined.

(** C4 fails as stated: 4000 x 1 yields a height of 0; 80 x 40 yields the
    height 71, below the range [80, 1080]; 5760 x 1000 yields 1920 x 333,
    whose aspect ratio differs from the upstream one by more than
    1 / min(1920, 333) (cross-multiplied:
    |w' * h - w * h'| * min(w', h') > h' * h). *)
Lemma size_policy_range_counterexample :
  (exists w' h', size_policy NVIDIA_VIDEO_NOISE_REMOVAL 4000 1 = Some (w', h') /\ h' < 1) /\
  (exists w' h', size_policy NVIDIA_VIDEO_NOISE_REMOVAL 80 40 = Some (w', h') /\ h' < 80) /\
  (exists w' h', size_policy NVIDIA_VIDEO_NOISE_REMOVAL 5760 1000 = Some (w', h') /\
     Z.abs (w' * 1000 - 5760 * h') * Z.min w' h' > h' * 1000).
Proof.
  split; [|split].
  - exists 1920, 0. split; [vm_compute; reflexivity|lia].
  - exists 142, 71. split; [vm_compute; reflexivity|lia].
  - exists 1920, 333. split; vm_compute; reflexivity.
Qed.

(** C5 (as amended).  Applying the size policy to its own result returns
    that result again, for every provider and every upstream size with
    both sides in [1, 2^32), except when the NVIDIA policy turned a
    dominant width into a square wider than 1080: idempotence holds when
    the provider is another one, or the height dominates, or the result
    is not square, or its width is at most 1080. *)
Theorem size_policy_idempotent (p : denoise_provider) (w h w' h' : Z) :
  1 <= w < 2 ^ 32 -> 1 <= h < 2 ^ 32 ->
  size_policy p w h = Some (w', h') ->
  p <> NVIDIA_VIDEO_NOISE_REMOVAL \/ w <= h \/ h' < w' \/ w' <= 1080 ->
  size_policy p w' h' = Some (w', h').
Proof.
  intros Hw Hh E C.
  destruct (Z.eq_dec p NVIDIA_VIDEO_NOISE_REMOVAL) as [->|Hp].
  2:{ rewrite size_policy_other in * by assumption. congruence. }
  change (size_policy NVIDIA_VIDEO_NOISE_REMOVAL) with resize_nvidia_noise_removal in *.
  destruct C as [C|C]; [congruence|].
  destruct (Z.lt_ge_cases h w) as [G|G].
  - (* dominant width *)
    destruct (resize_dominant_width w h) as (r & E' & N); try lia.
    rewrite E' in E. injection E as <- <-.
    pose proof (clamp_range w 142 1920 ltac:(lia)) as Hc.
    pose proof (nearest_le r (clamp w 142 1920) h w ltac:(lia) ltac:(lia) ltac:(lia) N) as Hr.
    set (c := clamp w 142 1920) in *.
    destruct (Z.lt_ge_cases r c) as [L|L].
    + destruct (resize_dominant_width c r) as (r' & E2 & N2);
        [lia|change (2 ^ 32) with 4294967296; lia|].
      rewrite (clamp_fixed c) in E2, N2 by lia.
      rewrite (nearest_self r r' c ltac:(lia) N2) in E2. exact E2.
    + assert (r = c) by lia. subst r.
      assert (Hc' : c <= 1080) by lia.
      destruct (resize_dominant_height c c) as (r' & E2 & N2);
        [lia|change (2 ^ 32) with 4294967296; lia|].
      rewrite (clamp_fixed c) in E2, N2 by lia.
      rewrite (nearest_self c r' c ltac:(lia) N2) in E2. exact E2.
  - (* dominant height *)
    destruct (resize_dominant_height w h) as (r & E' & N); try lia.
    rewrite E' in E. injection E as <- <-.
    pose proof (clamp_range h 80 1080 ltac:(lia)) as Hc.
    pose proof (nearest_le r (clamp h 80 1080) w h ltac:(lia) ltac:(lia) ltac:(lia) N) as Hr.
    set (c := clamp h 80 1080) in *.
    destruct (resize_dominant_height r c) as (r' & E2 & N2);
      [lia|change (2 ^ 32) with 4294967296; lia|].
    rewrite (clamp_fixed c) in E2, N2 by lia.
    rewrite (nearest_self r r' c ltac:(lia) N2) in E2. exact E2.
Qed.

Lemma size_policy_idempotent_witness :
  size_policy NVIDIA_VIDEO_NOISE_REMOVAL 142 71 = Some (142, 71).
Proof.
  apply (size_policy_idempotent NVIDIA_VIDEO_NOISE_REMOVAL 80 40 142 71).
  - change (2 ^ 32) with 4294967296; lia.
  - change (2 ^ 32) with 4294967296; lia.
  - vm_compute; reflexivity.
  - right; right; left; lia.
Defined.

(** C5 fails as stated: 4000 x 3999 is turned into 1920 x 1920, which
    the policy turns into 1080 x 1080. *)
Lemma size_policy_idempotent_counterexample :
  size_policy NVIDIA_VIDEO_NOISE_REMOVAL 4000 3999 = Some (1920, 1920) /\
  size_policy NVIDIA_VIDEO_NOISE_REMOVAL 1920 1920 = Some (1080, 1080).
Proof. split; vm_compute; reflexivity. Qed.

(** ** The monad *)

Lemma bind_ok {A B : Type} (m : M A) (k : A -> M B) (w w' : world) (a : A) :
  m w = (Ok a, w') -> bind m k w = k a w'.
Proof. intros E. unfold bind. rewrite E. reflexivity. Qed.

Lemma bind_throw {A B : Type} (m : M A) (k : A -> M B) (w w' : world) (what : string) :
  m w = (Throw what, w') -> bind m k w = (Throw what, w').
Proof. intros E. unfold bind. rewrite E. reflexivity. Qed.

Lemma bind_fault {A B : Type} (m : M A) (k : A -> M B) (w w' : world) :
  m w = (Fault, w') -> bind m k w = (Fault, w').
Proof. intros E. unfold bind. rewrite E. reflexivity. Qed.

Lemma keeps_bind {A B C : Type} (f : world -> C) (m : M A) (k : A -> M B) :
  keeps f m -> (forall a, keeps f (k a)) -> keeps f (bind m k).
Proof.
  intros Hm Hk w. unfold bind. specialize (Hm w).
  destruct (m w) as [[a| |] w']; simpl in *; try assumption.
  rewrite Hk. assumption.
Qed.

Lemma keeps_ret {A C : Type} (f : world -> C) (a : A) : keeps f (ret a).
Proof. intros w. reflexivity. Qed.

Lemma keeps_throw {A C : Type} (f : world -> C) (what : string) : keeps f (@throw A what).
Proof. intros w. reflexivity. Qed.

Lemma keeps_fault {A C : Type} (f : world -> C) : keeps f (@fault A).
Proof. intros w. reflexivity. Qed.

Lemma keeps_lift {A C : Type} (f : world -> C) (o : outcome A) : keeps f (lift o).
Proof. intros w. reflexivity. Qed.

Lemma keeps_get {A C : Type} (f : world -> C) (g : world -> A) : keeps f (get g).
Proof. intros w. reflexivity. Qed.

Lemma keeps_deref {C : Type} (f : world -> C) (p : nvidia_members -> bool) : keeps f (deref p).
Proof. intros w. unfold deref. destruct (p _); reflexivity. Qed.

Lemma keeps_modify {C : Type} (f : world -> C) (g : world -> world) :
  (forall w, f (g w) = f w) -> keeps f (modify g).
Proof. intros H w. apply H. Qed.

(** Splits a goal [keeps f m] along the structure of [m]; what is left
    are the assignments, to be checked against [f]. *)
Ltac keeps_step :=
  lazymatch goal with
  | |- keeps _ (bind _ _) => apply keeps_bind; [|intros ?]
  | |- keeps _ (ret _) => apply keeps_ret
  | |- keeps _ (throw _) => apply keeps_throw
  | |- keeps _ fault => apply keeps_fault
  | |- keeps _ (lift _) => apply keeps_lift
  | |- keeps _ (get _) => apply keeps_get
  | |- keeps _ (deref _) => apply keeps_deref
  | |- keeps _ (if ?b then _ else _) => destruct b
  | |- keeps _ (match ?x with _ => _ end) => destruct x
  | |- keeps _ (call _) => apply keeps_modify; intros ?; try reflexivity
  | |- keeps _ (assign _) => apply keeps_modify; intros ?; try reflexivity
  | |- keeps _ (assign_nvidia _) => apply keeps_modify; intros ?; try reflexivity
  | |- keeps _ (modify _) => apply keeps_modify; intros ?; try reflexivity
  end.
Ltac keeps_all := repeat keeps_step.

Lemma keeps_calls {C : Type} (f : world -> C) (es : list event) :
  (forall e w, f (emit e w) = f w) -> keeps f (calls es).
Proof.
  intros H. induction es as [|e es IH]; simpl.
  - apply keeps_ret.
  - apply keeps_bind; [apply keeps_modify; apply H|intros _; exact IH].
Qed.

(** What [calls] does: it appends the events. *)
Lemma calls_spec (es : list event) (w : world) :
  calls es w = (Ok tt, {| this := this w; factory := factory w; pool := pool w;
                          next_handle := next_handle w; next_texture := next_texture w;
                          trace := trace w ++ es |}).
Proof.
  revert w. induction es as [|e es IH]; intros w; simpl.
  - unfold ret. rewrite app_nil_r. destruct w; reflexivity.
  - unfold bind, call, modify. rewrite IH. simpl. rewrite <- app_assoc. reflexivity.
Qed.

(** ** The render tick: skipped frames *)

(** A frame that fails one of the checks at the head of [video_render]. *)
Lemma video_render_skip_eq (v : vendor) (h : host) (effect : option nat) (w : world) :
  _provider_ready (this w) = false \/
  obs_filter_get_target h = None \/
  obs_source_get_base_width (obs_filter_get_target h) = 0 \/
  obs_source_get_base_height (obs_filter_get_target h) = 0 ->
  video_render v h effect w = (Ok tt, emit obs_source_skip_video_filter w).
Proof.
  intros H. unfold video_render, bind, get.
  assert (E : negb (_provider_ready (this w))
              || is_none (match obs_filter_get_target h with
                          | Some t => Some t
                          | None => obs_filter_get_parent h
                          end)
              || (obs_source_get_base_width (obs_filter_get_target h) =? 0)
              || (obs_source_get_base_height (obs_filter_get_target h) =? 0) = true).
  { destruct H as [H|[H|[H|H]]].
    - rewrite H. reflexivity.
    - rewrite H. simpl. rewrite !orb_true_r. reflexivity.
    - rewrite H. simpl. rewrite !orb_true_r. reflexivity.
    - rewrite H. simpl. rewrite !orb_true_r. reflexivity. }
  rewrite E. reflexivity.
Qed.

(** C9.  On a render tick where the provider is not ready, or the host
    has no upstream target, or the upstream base width or height is zero,
    [video_render] returns normally, its only call is
    [obs_source_skip_video_filter], and the world is otherwise as before:
    neither the size negotiation nor the backend ran. *)
Theorem video_render_skips (v : vendor) (h : host) (effect : option nat) (w : world) :
  _provider_ready (this w) = false \/
  obs_filter_get_target h = None \/
  obs_source_get_base_width (obs_filter_get_target h) = 0 \/
  obs_source_get_base_height (obs_filter_get_target h) = 0 ->
  video_render v h effect w = (Ok tt, emit obs_source_skip_video_filter w).
Proof.
  intros H. unfold video_render, bind, get.
  assert (E : negb (_provider_ready (this w))
              || is_none (match obs_filter_get_target h with
                          | Some t => Some t
                          | None => obs_filter_get_parent h
                          end)
              || (obs_source_get_base_width (obs_filter_get_target h) =? 0)
              || (obs_source_get_base_height (obs_filter_get_target h) =? 0) = true).
  { destruct H as [H|[H|[H|H]]].
    - rewrite H. reflexivity.
    - rewrite H. simpl. rewrite !orb_true_r. reflexivity.
    - rewrite H. simpl. rewrite !orb_true_r. reflexivity.
    - rewrite H. simpl. rewrite !orb_true_r. reflexivity. }
  rewrite E. reflexivity.
Qed.

Lemma video_render_skips_witness :
  video_render (fun _ => true)
    {| obs_filter_get_target := Some {| base_width := 0; base_height := 1080 |};
       obs_filter_get_parent := None; obs_source_process_filter_begin := true;
       gs_framebuffer_srgb_enabled := false; gs_get_linear_srgb := false;
       gs_effect_loop := 1 |}
    None (initial_world (fst (video_denoising_factory_new (fun _ => true))))
  = (Ok tt, emit obs_source_skip_video_filter
              (initial_world (fst (video_denoising_factory_new (fun _ => true))))).
Proof.
  apply video_render_skips. right; right; left. reflexivity.
Defined.

(** ** Settings updates *)

Lemma first_available_world (priority : list denoise_provider) (p : denoise_provider) (w : world) :
  snd (first_available priority p w) = w.
Proof.
  induction priority as [|q rest IH]; simpl; [reflexivity|].
  unfold bind, get, factory_get. simpl.
  destruct (factory w) as [f|]; [|reflexivity].
  destruct (is_provider_available f q); [reflexivity|exact IH].
Qed.

Lemma requested_provider_world (data : obs_data) (w : world) :
  snd (requested_provider data w) = w.
Proof.
  unfold requested_provider.
  destruct (obs_data_get_int data ST_PROVIDER =? AUTOMATIC);
    [apply first_available_world|reflexivity].
Qed.

Lemma update_same (data : obs_data) (w : world) :
  fst (requested_provider data w) = Ok (_provider (this w)) ->
  update data w = (Ok tt, w).
Proof.
  intros H. unfold update.
  pose proof (requested_provider_world data w) as Hw.
  destruct (requested_provider data w) as [o w'] eqn:E. simpl in *. subst o w'.
  rewrite (bind_ok _ _ _ _ _ E). unfold bind, get. simpl.
  rewrite Z.eqb_refl. reflexivity.
Qed.

(** C10.  An update whose requested provider, [AUTOMATIC] resolved
    against the priority list, equals the current provider changes
    nothing: no task is queued and the instance (backend, ready flag, task
    handle) is as before; so does every sequence of such updates. *)
Theorem update_same_provider (datas : list obs_data) (w : world) :
  (forall data, In data datas ->
     fst (requested_provider data w) = Ok (_provider (this w))) ->
  (forall data, In data datas -> update data w = (Ok tt, w)) /\
  run (map op_update datas) w = w.
Proof.
  intros H. split.
  - intros data Hin. apply update_same, H, Hin.
  - induction datas as [|d ds IH]; simpl; [reflexivity|].
    rewrite update_same by (apply H; left; reflexivity). simpl.
    apply IH. intros data Hin. apply H. right. exact Hin.
Qed.

Lemma update_same_provider_witness :
  let w := run [op_task (fun _ => true)]
             (create (fst (video_denoising_factory_new (fun _ => true)))
                     (Some [(ST_PROVIDER, 1)])) in
  (forall data, In data [[(ST_PROVIDER, 1)]; []; [(ST_PROVIDER, 0)]] ->
     update data w = (Ok tt, w)) /\
  run (map op_update [[(ST_PROVIDER, 1)]; []; [(ST_PROVIDER, 0)]]) w = w.
Proof.
  apply update_same_provider.
  intros data [<-|[<-|[<-|[]]]]; vm_compute; reflexivity.
Defined.


(** ** The NVIDIA backend: unload *)

(** Unfolds the monad. *)
Ltac monad :=
  unfold bind, ret, throw, fault, get, modify, lift, assign, assign_nvidia, call, deref in *;
  simpl in *.

(** How the block "unmap and deallocate" ends. *)
Lemma unmap_and_dealloc_cases (v : vendor) (s : surface) (w : world) :
  _nvcuda (nvidia (this w)) = true -> _nvcvi (nvidia (this w)) = true ->
  (cvi_width (nvidia_cvi s (nvidia (this w))) = 0 /\
   unmap_and_dealloc v s w = (Ok tt, w)) \/
  (cvi_width (nvidia_cvi s (nvidia (this w))) <> 0 /\ v (UnmapResource s) = true /\
   unmap_and_dealloc v s w
   = (Ok tt, set_this (with_nvidia (with_nvidia_cvi s cvi_empty))
               (emit (NvCVImage_Dealloc s) (emit (NvCVImage_UnmapResource s) w)))) \/
  (cvi_width (nvidia_cvi s (nvidia (this w))) <> 0 /\ v (UnmapResource s) = false /\
   unmap_and_dealloc v s w
   = (Throw "Error",
      emit (D_LOG_ERROR ("Failed to NvCVImage_UnmapResource " ++ surface_name s
                         ++ " with error: %s"))
        (emit (NvCVImage_UnmapResource s) w))).
Proof.
  intros Hcuda Hcvi. unfold unmap_and_dealloc. monad.
  destruct (Z.eqb_spec (cvi_width (nvidia_cvi s (nvidia (this w)))) 0) as [E|E]; simpl.
  - left. auto.
  - right. rewrite Hcvi, Hcuda. simpl.
    destruct (v (UnmapResource s)) eqn:Ev; simpl; rewrite Hcvi; simpl.
    + left. destruct s; auto.
    + right. auto.
Qed.


(** Case analysis on the tests a member function makes. *)
Ltac branches :=
  repeat match goal with
         | |- context [if ?b then _ else _] => destruct b eqn:?; simpl in *
         | H : context [if ?b then _ else _] |- _ => destruct b eqn:?; simpl in *
         end.

(** A successful unload leaves every pointer of the backend null. *)
Lemma unload_ok_null (v : vendor) (w w' : world) :
  unload_nvidia_noise_removal v w = (Ok tt, w') ->
  _nvcuda (nvidia (this w')) = false /\ _nvcvi (nvidia (this w')) = false /\
  _nvvfx (nvidia (this w')) = false /\
  _nvidia_input (nvidia (this w')) = None /\ _nvidia_output (nvidia (this w')) = None.
Proof.
  unfold unload_nvidia_noise_removal, unmap_and_dealloc. monad. intros H.
  branches; try discriminate; injection H as <-; simpl; auto.
Qed.

(** C8 (as amended).  [unload_nvidia_noise_removal] tests each cross-API
    image (width not 0) before it unmaps and deallocates it: on a backend
    whose CUDA reference is held and whose two images are not mapped it
    makes no vendor call, cannot fail, and leaves the textures and the
    SDK references null.  It does not test the SDK references: after any
    successful unload a further unload dereferences the null CUDA
    reference and does not return. *)
Theorem unload_checks_images (v v' : vendor) (w : world) :
  _nvcuda (nvidia (this w)) = true ->
  cvi_width (_nvidia_cvi_input (nvidia (this w))) = 0 ->
  cvi_width (_nvidia_cvi_output (nvidia (this w))) = 0 ->
  exists w',
    unload_nvidia_noise_removal v w = (Ok tt, w') /\
    trace w' = trace w /\
    _nvidia_input (nvidia (this w')) = None /\ _nvidia_output (nvidia (this w')) = None /\
    _nvcuda (nvidia (this w')) = false /\ _nvcvi (nvidia (this w')) = false /\
    _nvvfx (nvidia (this w')) = false /\
    unload_nvidia_noise_removal v' w' = (Fault, w').
Proof.
  intros Hc Hi Ho.
  unfold unload_nvidia_noise_removal, unmap_and_dealloc. monad.
  rewrite Hc. simpl. rewrite Hi. simpl. rewrite Ho. simpl. eexists. split; [reflexivity|]. simpl. repeat split.
Qed.

Lemma unload_checks_images_witness :
  exists w',
    unload_nvidia_noise_removal (fun _ => false)
      (set_this (with_nvidia (with_nvcuda true))
         (initial_world (fst (video_denoising_factory_new (fun _ => true)))))
    = (Ok tt, w') /\
    trace w' = trace (set_this (with_nvidia (with_nvcuda true))
                        (initial_world (fst (video_denoising_factory_new (fun _ => true))))) /\
    _nvidia_input (nvidia (this w')) = None /\ _nvidia_output (nvidia (this w')) = None /\
    _nvcuda (nvidia (this w')) = false /\ _nvcvi (nvidia (this w')) = false /\
    _nvvfx (nvidia (this w')) = false /\
    unload_nvidia_noise_removal (fun _ => true) w' = (Fault, w').
Proof.
  apply (unload_checks_images (fun _ => false) (fun _ => true)); reflexivity.
Defined.

(** C8 fails as stated: the instance created with the NVIDIA provider
    requested, after its switch task ran, unloads successfully; the second
    unload does not complete. *)
Lemma unload_twice_counterexample :
  let ok : vendor := fun _ => true in
  let w := run [op_task ok]
             (create (fst (video_denoising_factory_new ok)) (Some [(ST_PROVIDER, 1)])) in
  let w' := snd (unload_nvidia_noise_removal ok w) in
  fst (unload_nvidia_noise_removal ok w) = Ok tt /\
  unload_nvidia_noise_removal ok w' = (Fault, w') /\
  unload_nvidia_noise_removal ok w' <> (Ok tt, w').
Proof. vm_compute. repeat split; discriminate. Qed.

(** ** The switch task *)

Lemma unmap_and_dealloc_keeps_provider_state (v : vendor) (s : surface) :
  keeps provider_state (unmap_and_dealloc v s).
Proof. unfold unmap_and_dealloc. destruct s; keeps_all. Qed.

Lemma recreate_buffer_keeps_provider_state (v : vendor) (s : surface) :
  keeps provider_state (recreate_buffer v s).
Proof.
  unfold recreate_buffer. keeps_all; try apply unmap_and_dealloc_keeps_provider_state;
    destruct s; reflexivity.
Qed.

Lemma process_keeps_provider_state (v : vendor) :
  keeps provider_state (process_nvidia_noise_removal v).
Proof.
  unfold process_nvidia_noise_removal.
  keeps_all; apply recreate_buffer_keeps_provider_state.
Qed.

Lemma video_render_keeps_provider_state (v : vendor) (h : host) (effect : option nat) :
  keeps provider_state (video_render v h effect).
Proof.
  unfold video_render. cbv zeta.
  keeps_all; try apply process_keeps_provider_state; apply keeps_calls; reflexivity.
Qed.

Lemma load_cases (v : vendor) (w : world) :
  (v cuda_obs_get && v cv_get && v vfx_get = true /\
   load_nvidia_noise_removal v w
   = (Ok tt, set_this (with_nvidia (fun n => with_nvvfx true (with_nvcvi true (with_nvcuda true n)))) w))
  \/
  (v cuda_obs_get && v cv_get && v vfx_get = false /\
   exists what n,
     load_nvidia_noise_removal v w = (Throw what, set_this (with_nvidia (fun _ => n)) w) /\
     (_nvcuda (nvidia (this w)) = true -> _nvcuda n = true) /\
     (_nvcvi (nvidia (this w)) = true -> _nvcvi n = true) /\
     _nvvfx n = _nvvfx (nvidia (this w)) /\
     _nvidia_input n = _nvidia_input (nvidia (this w)) /\
     _nvidia_output n = _nvidia_output (nvidia (this w)) /\
     _nvidia_cvi_input n = _nvidia_cvi_input (nvidia (this w)) /\
     _nvidia_cvi_output n = _nvidia_cvi_output (nvidia (this w))).
Proof.
  unfold load_nvidia_noise_removal. monad.
  destruct (v cuda_obs_get); simpl.
  - destruct (v cv_get); simpl.
    + destruct (v vfx_get); simpl.
      * left. split; [reflexivity|]. destruct w as [[? ? ? ? ? ? []] ? ? ? ? ?]; reflexivity.
      * right. split; [reflexivity|]. eexists _, _. split; [reflexivity|]. simpl. auto 10.
    + right. split; [reflexivity|]. eexists _, _. split; [reflexivity|]. simpl. auto 10.
  - right. split; [reflexivity|]. exists "nvidia::cuda::obs::get"%string, (nvidia (this w)).
    split; [|auto 10]. destruct w as [[? ? ? ? ? ? []] ? ? ? ? ?]; reflexivity.
Qed.

(** A switch task either returns with the provider installed and ready,
    or ends otherwise with the old provider in place and not ready. *)
Lemma task_switch_provider_cases (v : vendor) (p : denoise_provider) (w : world) :
  let r := task_switch_provider v p w in
  (fst r = Ok tt /\ _provider_ready (this (snd r)) = true /\ _provider (this (snd r)) = p) \/
  (fst r <> Ok tt /\ _provider_ready (this (snd r)) = false
   /\ _provider (this (snd r)) = _provider (this w)).
Proof.
  unfold task_switch_provider, load_nvidia_noise_removal, unload_nvidia_noise_removal,
    unmap_and_dealloc.
  monad. branches; first [left; repeat split; reflexivity | right; repeat split; discriminate].
Qed.

Lemma requested_provider_keeps {C : Type} (f : world -> C) (data : obs_data) :
  keeps f (requested_provider data).
Proof. intros w. rewrite requested_provider_world. reflexivity. Qed.

Lemma update_keeps_ready (data : obs_data) :
  keeps (fun w => _provider_ready (this w)) (update data).
Proof.
  unfold update, switch_provider.
  apply keeps_bind; [apply requested_provider_keeps|intros p]. keeps_all.
Qed.

Lemma provider_state_eq (w w' : world) :
  provider_state w' = provider_state w ->
  _provider_ready (this w') = _provider_ready (this w) /\
  _provider (this w') = _provider (this w) /\
  _provider_task (this w') = _provider_task (this w) /\
  pool w' = pool w /\
  _nvcuda (nvidia (this w')) = _nvcuda (nvidia (this w)) /\
  _nvcvi (nvidia (this w')) = _nvcvi (nvidia (this w)) /\
  _nvvfx (nvidia (this w')) = _nvvfx (nvidia (this w)) /\
  factory w' = factory w /\ next_handle w' = next_handle w.
Proof. unfold provider_state. intros H. injection H as -> -> -> -> -> -> -> -> ->. auto 10. Qed.

(** While no switch task succeeds, an instance that is not ready stays
    so. *)
Lemma not_ready_step (o : operation) (w : world) :
  _provider_ready (this w) = false -> ~ switch_succeeds o w ->
  _provider_ready (this (snd (step o w))) = false.
Proof.
  intros Hr Hn. destruct o as [data|v|v h effect]; simpl.
  - rewrite update_keeps_ready. exact Hr.
  - unfold threadpool_work. unfold bind at 1, get. simpl.
    destruct (pool w) as [|t rest] eqn:Ep; [exact Hr|].
    unfold bind at 1, modify. simpl.
    destruct (task_switch_provider_cases v (task_provider t) (set_pool (fun _ => rest) w))
      as [(Ok' & _ & _)|(_ & R & _)]; [|exact R].
    exfalso. apply Hn. unfold switch_succeeds. simpl. rewrite Ep.
    split; [reflexivity|]. split; [discriminate|].
    unfold threadpool_work. unfold bind at 1, get. simpl. rewrite Ep.
    unfold bind at 1, modify. simpl. exact Ok'.
  - pose proof (video_render_keeps_provider_state v h effect w) as K.
    apply provider_state_eq in K. destruct K as (K & _). rewrite K. exact Hr.
Qed.

Lemma not_ready_renders_skip (ops : list operation) (w : world) :
  _provider_ready (this w) = false -> no_switch_succeeds ops w -> renders_skip ops w.
Proof.
  revert w. induction ops as [|o ops IH]; intros w Hr Hn; simpl; [exact I|].
  destruct Hn as [Hn Hrest]. split.
  - destruct o as [d|v|v h effect]; try exact I.
    apply video_render_skip_eq. left. exact Hr.
  - apply IH; [|exact Hrest]. apply not_ready_step; assumption.
Qed.

(** C7 (as amended).  If loading the NVIDIA backend fails in a switch
    task (one of the three SDK references cannot be acquired), the task
    body ends with the exception that the load raised: the old provider,
    its textures and images, the negotiated size and the last output are
    as before, an SDK reference that was held is still held, the ready
    flag is false, and the task has written no log line and made no other
    call.  From then on, as long as no switch task succeeds, every render
    skips the filter. *)
Theorem switch_task_load_failure (v : vendor) (w : world) :
  v cuda_obs_get && v cv_get && v vfx_get = false ->
  let r := task_switch_provider v NVIDIA_VIDEO_NOISE_REMOVAL w in
  (exists what, fst r = Throw what) /\
  _provider (this (snd r)) = _provider (this w) /\
  _provider_ready (this (snd r)) = false /\
  _nvidia_input (nvidia (this (snd r))) = _nvidia_input (nvidia (this w)) /\
  _nvidia_output (nvidia (this (snd r))) = _nvidia_output (nvidia (this w)) /\
  _nvidia_cvi_input (nvidia (this (snd r))) = _nvidia_cvi_input (nvidia (this w)) /\
  _nvidia_cvi_output (nvidia (this (snd r))) = _nvidia_cvi_output (nvidia (this w)) /\
  _size (this (snd r)) = _size (this w) /\
  _output (this (snd r)) = _output (this w) /\
  (_nvcuda (nvidia (this w)) = true -> _nvcuda (nvidia (this (snd r))) = true) /\
  (_nvcvi (nvidia (this w)) = true -> _nvcvi (nvidia (this (snd r))) = true) /\
  (_nvvfx (nvidia (this w)) = true -> _nvvfx (nvidia (this (snd r))) = true) /\
  trace (snd r) = trace w /\
  pool (snd r) = pool w /\
  (forall ops, no_switch_succeeds ops (snd r) -> renders_skip ops (snd r)).
Proof.
  intros Hv r.
  assert (E : exists what n,
             r = (Throw what, set_this (with_nvidia (fun _ => n))
                                (set_this (with_provider_ready false) w)) /\
             (_nvcuda (nvidia (this w)) = true -> _nvcuda n = true) /\
             (_nvcvi (nvidia (this w)) = true -> _nvcvi n = true) /\
             _nvvfx n = _nvvfx (nvidia (this w)) /\
             _nvidia_input n = _nvidia_input (nvidia (this w)) /\
             _nvidia_output n = _nvidia_output (nvidia (this w)) /\
             _nvidia_cvi_input n = _nvidia_cvi_input (nvidia (this w)) /\
             _nvidia_cvi_output n = _nvidia_cvi_output (nvidia (this w))).
  { subst r. unfold task_switch_provider. unfold bind at 1, assign, modify. simpl.
    change (NVIDIA_VIDEO_NOISE_REMOVAL =? NVIDIA_VIDEO_NOISE_REMOVAL) with true. cbv iota.
    destruct (load_cases v (set_this (with_provider_ready false) w))
      as [(Ht & _)|(_ & what & n & El & H)]; [congruence|].
    exists what, n. split; [|exact H].
    apply (bind_throw _ _ _ _ _ El). }
  destruct E as (what & n & -> & H1 & H2 & H3 & H4 & H5 & H6 & H7). simpl.
  split; [exists what; reflexivity|].
  repeat (split; [first [reflexivity | assumption | congruence]|]).
  intros ops. apply not_ready_renders_skip. reflexivity.
Qed.

Lemma switch_task_load_failure_witness :
  let v : vendor := fun c => match c with cv_get => false | _ => true end in
  let w := initial_world (fst (video_denoising_factory_new (fun _ => true))) in
  let r := task_switch_provider v NVIDIA_VIDEO_NOISE_REMOVAL w in
  (exists what, fst r = Throw what) /\
  _provider (this (snd r)) = _provider (this w) /\
  _provider_ready (this (snd r)) = false /\
  _nvidia_input (nvidia (this (snd r))) = _nvidia_input (nvidia (this w)) /\
  _nvidia_output (nvidia (this (snd r))) = _nvidia_output (nvidia (this w)) /\
  _nvidia_cvi_input (nvidia (this (snd r))) = _nvidia_cvi_input (nvidia (this w)) /\
  _nvidia_cvi_output (nvidia (this (snd r))) = _nvidia_cvi_output (nvidia (this w)) /\
  _size (this (snd r)) = _size (this w) /\
  _output (this (snd r)) = _output (this w) /\
  (_nvcuda (nvidia (this w)) = true -> _nvcuda (nvidia (this (snd r))) = true) /\
  (_nvcvi (nvidia (this w)) = true -> _nvcvi (nvidia (this (snd r))) = true) /\
  (_nvvfx (nvidia (this w)) = true -> _nvvfx (nvidia (this (snd r))) = true) /\
  trace (snd r) = trace w /\
  pool (snd r) = pool w /\
  (forall ops, no_switch_succeeds ops (snd r) -> renders_skip ops (snd r)).
Proof.
  apply (switch_task_load_failure
           (fun c => match c with cv_get => false | _ => true end)
           (initial_world (fst (video_denoising_factory_new (fun _ => true))))).
  reflexivity.
Defined.

(** C7 fails as stated: when the load fails, the calls recorded for the
    task body (among them the log lines) are none, so the failure is not
    logged by the task; the exception leaves the body. *)
Lemma switch_task_load_failure_counterexample :
  let v : vendor := fun c => match c with cuda_obs_get => false | _ => true end in
  let w := create (fst (video_denoising_factory_new (fun _ => true)))
                  (Some [(ST_PROVIDER, 1)]) in
  let r := threadpool_work v w in
  fst r = Throw "nvidia::cuda::obs::get" /\
  trace (snd r) = trace w /\
  (forall message, ~ In (D_LOG_ERROR message) (trace (snd r))) /\
  (forall message, ~ In (D_LOG_WARNING message) (trace (snd r))).
Proof.
  vm_compute. repeat split; intros message [H|[]]; discriminate.
Qed.

(** ** Sequential histories: what holds in every reachable world *)

Lemma switch_provider_spec (p : denoise_provider) (w : world) :
  one_pending w ->
  exists w',
    switch_provider p w = (Ok tt, w') /\
    this w' = with_provider_task (Some (next_handle w)) (this w) /\
    pool w' = [{| task_handle := next_handle w; task_provider := p |}] /\
    factory w' = factory w /\ trace w' = trace w.
Proof.
  intros Hp. unfold switch_provider. monad.
  destruct Hp as [Hp|(t & Hp & Ht & _)].
  - destruct (_provider_task (this w)); simpl;
      (eexists; split; [reflexivity|]); simpl;
      unfold threadpool_push, threadpool_pop; rewrite Hp; simpl; auto.
  - rewrite Ht. simpl. (eexists; split; [reflexivity|]). simpl.
    unfold threadpool_push, threadpool_pop. rewrite Hp. simpl.
    rewrite Nat.eqb_refl. simpl. auto.
Qed.

Lemma update_invariant (data : obs_data) (w : world) :
  invariant w -> invariant (snd (update data w)).
Proof.
  intros [Hl Hp]. unfold update.
  pose proof (requested_provider_world data w) as Hw.
  unfold bind at 1. destruct (requested_provider data w) as [[p| |] w']; simpl in *; subst w';
    try (split; assumption).
  unfold bind at 1, get. simpl.
  destruct (Z.eqb_spec p (_provider (this w))) as [E|E]; simpl; [split; assumption|].
  destruct (switch_provider_spec p w Hp) as (w' & -> & Et & Eq & _). simpl.
  split.
  - rewrite Et. simpl. exact Hl.
  - right. eexists. split; [exact Eq|]. rewrite Et. simpl. auto.
Qed.

(** Turns boolean comparisons among the hypotheses into equations. *)
Ltac eqb_facts :=
  repeat match goal with
         | H : (_ =? _) = true |- _ => apply Z.eqb_eq in H
         | H : (_ =? _) = false |- _ => apply Z.eqb_neq in H
         end.

Lemma task_switch_provider_invariant (v : vendor) (p : denoise_provider) (w : world) :
  (_provider (this w) = NVIDIA_VIDEO_NOISE_REMOVAL -> loaded (nvidia (this w))) ->
  p <> _provider (this w) -> pool w = [] ->
  invariant (snd (task_switch_provider v p w)) /\
  fst (task_switch_provider v p w) <> Fault.
Proof.
  unfold invariant, one_pending, loaded.
  intros Hl Hp He.
  unfold task_switch_provider, load_nvidia_noise_removal, unload_nvidia_noise_removal,
    unmap_and_dealloc.
  monad.
  destruct (Z.eq_dec (_provider (this w)) NVIDIA_VIDEO_NOISE_REMOVAL) as [E|E].
  - destruct (Hl E) as (H1 & H2 & H3).
    branches; eqb_facts; try congruence;
      (split; [split; [intros; first [congruence | auto] | left; assumption] | discriminate]).
  - branches; eqb_facts; try congruence;
      (split; [split; [intros; first [congruence | auto] | left; assumption] | discriminate]).
Qed.

Lemma threadpool_work_unfold (v : vendor) (w : world) :
  threadpool_work v w
  = match pool w with
    | [] => (Ok tt, w)
    | t :: rest => task_switch_provider v (task_provider t) (set_pool (fun _ => rest) w)
    end.
Proof.
  unfold threadpool_work. unfold bind at 1, get. simpl.
  destruct (pool w); reflexivity.
Qed.

Lemma threadpool_work_invariant (v : vendor) (w : world) :
  invariant w ->
  invariant (snd (threadpool_work v w)) /\ fst (threadpool_work v w) <> Fault.
Proof.
  intros [Hl Hp]. rewrite threadpool_work_unfold.
  destruct Hp as [Hp|(t & Hp & Ht & Hd)]; rewrite Hp.
  - simpl. split; [split; [assumption|left; assumption]|discriminate].
  - apply task_switch_provider_invariant; simpl; auto.
Qed.

Lemma video_render_invariant (v : vendor) (h : host) (effect : option nat) (w : world) :
  invariant w -> invariant (snd (video_render v h effect w)).
Proof.
  intros [Hl Hp].
  pose proof (video_render_keeps_provider_state v h effect w) as K.
  apply provider_state_eq in K. destruct K as (_ & K2 & K3 & K4 & K5 & K6 & K7 & _).
  unfold invariant, one_pending, loaded. rewrite K2, K3, K4, K5, K6, K7.
  split; assumption.
Qed.

Lemma step_invariant (o : operation) (w : world) :
  invariant w -> invariant (snd (step o w)).
Proof.
  destruct o; simpl.
  - apply update_invariant.
  - apply threadpool_work_invariant.
  - apply video_render_invariant.
Qed.

Lemma create_invariant (f : video_denoising_factory) (data : option obs_data) :
  invariant (create f data).
Proof.
  unfold create, video_denoising_instance_new.
  unfold bind at 1, modify. simpl. unfold bind at 1, call, modify. simpl.
  destruct data as [d|].
  - apply update_invariant. split; [discriminate|left; reflexivity].
  - split; [discriminate|left; reflexivity].
Qed.

Lemma reachable_invariant (w : world) : reachable w -> invariant w.
Proof.
  intros (f & data & ops & ->).
  generalize (create_invariant f data). generalize (create f data).
  induction ops as [|o ops IH]; intros w0 H0; simpl; [exact H0|].
  apply IH. apply step_invariant. exact H0.
Qed.

(** ** Overlapping updates and switch tasks *)

(** C6.  The code breaks the claim.  An update that asks for the NVIDIA
    provider overlaps with the switch task of the instance's creation with
    that provider: the update compares the requested provider with
    [_provider] while the first task is still pending (they differ), the
    first task then completes and loads the backend, the update goes on to
    [switch_provider], and the second task runs on an instance whose
    provider already is the NVIDIA one: it loads the SDK references,
    unloads "the previous provider", which nulls them, and sets the ready
    flag.  The instance is ready with the NVIDIA provider and no SDK
    reference, and the next frame dereferences the null CUDA reference. *)
Lemma ready_with_null_backend :
  let ok : vendor := fun _ => true in
  let h := {| obs_filter_get_target := Some {| base_width := 1920; base_height := 1080 |};
              obs_filter_get_parent := None; obs_source_process_filter_begin := true;
              gs_framebuffer_srgb_enabled := false; gs_get_linear_srgb := false;
              gs_effect_loop := 1 |} in
  let f := fst (video_denoising_factory_new ok) in
  let settings := [(ST_PROVIDER, NVIDIA_VIDEO_NOISE_REMOVAL)] in
  (* the creation queues the first task *)
  let w1 := create f (Some settings) in
  (* an update compares the providers, then the first task runs *)
  let w2 := snd (threadpool_work ok w1) in
  (* the update calls switch_provider *)
  let w3 := snd (switch_provider NVIDIA_VIDEO_NOISE_REMOVAL w2) in
  (* the second task runs *)
  let w4 := snd (threadpool_work ok w3) in
  fst (requested_provider settings w1) = Ok NVIDIA_VIDEO_NOISE_REMOVAL /\
  _provider (this w1) <> NVIDIA_VIDEO_NOISE_REMOVAL /\
  (_provider_ready (this w2) = true /\
   _provider (this w2) = NVIDIA_VIDEO_NOISE_REMOVAL /\ loaded (nvidia (this w2))) /\
  w4 = perform_all [act_task ok; act_switch NVIDIA_VIDEO_NOISE_REMOVAL; act_task ok] w1 /\
  interleaved w4 /\
  _provider_ready (this w4) = true /\
  _provider (this w4) = NVIDIA_VIDEO_NOISE_REMOVAL /\
  _nvcuda (nvidia (this w4)) = false /\
  _nvcvi (nvidia (this w4)) = false /\
  _nvvfx (nvidia (this w4)) = false /\
  ~ loaded (nvidia (this w4)) /\
  fst (video_render ok h None w4) = Fault.
Proof.
  intros ok h f settings w1 w2 w3 w4.
  split; [vm_compute; reflexivity|].
  split; [vm_compute; discriminate|].
  split; [unfold loaded; vm_compute; repeat split; reflexivity|].
  split; [vm_compute; reflexivity|].
  split; [exists f, (Some settings),
                 [act_task ok; act_switch NVIDIA_VIDEO_NOISE_REMOVAL; act_task ok];
          vm_compute; reflexivity|].
  unfold loaded.
  vm_compute. repeat split; try reflexivity. intros (H & _). discriminate.
Qed.

(** ** The NVIDIA backend: process *)

Lemma unmap_and_dealloc_keeps_frame (v : vendor) (s : surface) :
  keeps (fun w => (_size (this w), _input (this w), _output (this w),
                   nvidia_texture input_surface (nvidia (this w)),
                   nvidia_texture output_surface (nvidia (this w))))
        (unmap_and_dealloc v s).
Proof. unfold unmap_and_dealloc. destruct s; keeps_all. Qed.

Lemma recreate_buffer_keeps_frame (v : vendor) (s : surface) :
  keeps (fun w => (_size (this w), _input (this w), _output (this w)))
        (recreate_buffer v s).
Proof.
  unfold recreate_buffer, unmap_and_dealloc. destruct s; keeps_all.
Qed.

Lemma recreate_output_keeps_input (v : vendor) :
  keeps (fun w => _nvidia_input (nvidia (this w))) (recreate_buffer v output_surface).
Proof. unfold recreate_buffer, unmap_and_dealloc. keeps_all. Qed.

(** How the block "re-create the buffer if necessary" ends on a backend
    that holds its CUDA and image library references. *)
Lemma recreate_buffer_cases (v : vendor) (s : surface) (w : world) :
  _nvcuda (nvidia (this w)) = true -> _nvcvi (nvidia (this w)) = true ->
  let r := recreate_buffer v s w in
  match fst r with
  | Ok _ =>
      exists t, nvidia_texture s (nvidia (this (snd r))) = Some t /\
                tex_width t = fst (_size (this w)) /\ tex_height t = snd (_size (this w))
  | Throw what => what = "Error"%string /\ exists c, v c = false
  | Fault => False
  end.
Proof.
  intros Hcuda Hcvi. unfold recreate_buffer, unmap_and_dealloc, stale. monad.
  destruct (nvidia_texture s (nvidia (this w))) as [t|] eqn:Et;
    [destruct (negb (tex_width t =? fst (_size (this w)))
               || negb (tex_height t =? snd (_size (this w)))) eqn:Es; simpl;
     [|apply orb_false_elim in Es; destruct Es as [Es1 Es2];
       apply negb_false_iff in Es1, Es2; apply Z.eqb_eq in Es1, Es2;
       rewrite Et; eexists; split; [reflexivity|split; assumption]]
    |];
    destruct s; simpl in *;
    rewrite ?Hcuda, ?Hcvi; simpl;
    branches; rewrite ?Hcuda, ?Hcvi in *; simpl in *; try discriminate;
    first [ eexists; split; [reflexivity|split; reflexivity]
          | split; [reflexivity|eexists; eassumption] ].
Qed.

Lemma process_unfold (v : vendor) (w : world) :
  _nvcuda (nvidia (this w)) = true ->
  process_nvidia_noise_removal v w
  = match recreate_buffer v input_surface w with
    | (Ok _, w1) =>
        match recreate_buffer v output_surface w1 with
        | (Ok _, w2) =>
            match _nvidia_input (nvidia (this w2)) with
            | Some dst =>
                (Ok (_nvidia_output (nvidia (this w2))),
                 emit (gs_copy_texture dst (get_texture (_input (this w)))) w2)
            | None => (Fault, w2)
            end
        | (Throw what, w2) => (Throw what, w2)
        | (Fault, w2) => (Fault, w2)
        end
    | (Throw what, w1) => (Throw what, w1)
    | (Fault, w1) => (Fault, w1)
    end.
Proof.
  intros Hcuda. unfold process_nvidia_noise_removal, bind, deref, get, call, modify.
  rewrite Hcuda.
  destruct (recreate_buffer v input_surface w) as [[[]| |] w1]; try reflexivity.
  destruct (recreate_buffer v output_surface w1) as [[[]| |] w2]; try reflexivity.
  destruct (_nvidia_input (nvidia (this w2))); reflexivity.
Qed.

(** A buffer of the negotiated size is kept as it is. *)
Lemma recreate_buffer_kept (v : vendor) (s : surface) (w : world) :
  is_stale s w = false -> recreate_buffer v s w = (Ok tt, w).
Proof.
  unfold is_stale. intros Hs. unfold recreate_buffer, bind, get. rewrite Hs. reflexivity.
Qed.

Lemma not_stale_texture (s : surface) (w : world) :
  is_stale s w = false ->
  exists t, nvidia_texture s (nvidia (this w)) = Some t /\
            (tex_width t, tex_height t) = _size (this w).
Proof.
  unfold is_stale, stale. intros Hs.
  destruct (nvidia_texture s (nvidia (this w))) as [t|]; [|discriminate].
  apply orb_false_elim in Hs. destruct Hs as [H1 H2].
  apply negb_false_iff in H1, H2. apply Z.eqb_eq in H1, H2.
  exists t. split; [reflexivity|]. rewrite H1, H2. destruct (_size (this w)); reflexivity.
Qed.

(** A stale buffer is replaced when the vendor answers every call made
    for it with success. *)
Lemma recreate_buffer_replaced (v : vendor) (s : surface) (w : world) :
  _nvcuda (nvidia (this w)) = true -> _nvcvi (nvidia (this w)) = true ->
  is_stale s w = true -> vendor_ok v s (is_mapped s w) = true ->
  recreate_buffer v s w
  = (Ok tt, replaced s {| tex_id := next_texture w; tex_width := fst (_size (this w));
                          tex_height := snd (_size (this w)) |} w).
Proof.
  unfold is_stale, vendor_ok, replaced, unmapped, is_mapped.
  intros Hcuda Hcvi Hs Hv.
  apply andb_prop in Hv. destruct Hv as [Hv Hm].
  apply andb_prop in Hv. destruct Hv as [Hu Hi].
  unfold recreate_buffer. unfold bind at 1, get. cbv beta iota.
  unfold bind at 1. cbv beta iota. rewrite Hs.
  destruct (unmap_and_dealloc_cases v s w Hcuda Hcvi)
    as [(Z1 & E1)|[(N1 & _ & E1)|(N1 & F & _)]].
  - rewrite (bind_ok _ _ _ _ _ E1). rewrite Z1. simpl (negb (0 =? 0)). cbv iota.
    unfold bind, get, modify, call, assign_nvidia, deref, ret, throw.
    destruct s; do 4 (simpl; rewrite ?Hcvi, ?Hcuda, ?Hi, ?Hm); reflexivity.
  - rewrite (bind_ok _ _ _ _ _ E1). apply Z.eqb_neq in N1. rewrite N1. simpl (negb false).
    cbv iota.
    unfold bind, get, modify, call, assign_nvidia, deref, ret, throw.
    destruct s; do 4 (simpl; rewrite ?Hcvi, ?Hcuda, ?Hi, ?Hm); reflexivity.
  - apply Z.eqb_neq in N1. rewrite N1 in Hu. simpl in Hu. congruence.
Qed.

(** A stale buffer whose re-creation meets a failing vendor call ends the
    call with "Error", the log line being the last call. *)
Lemma recreate_buffer_failed (v : vendor) (s : surface) (w : world) :
  _nvcuda (nvidia (this w)) = true -> _nvcvi (nvidia (this w)) = true ->
  is_stale s w = true -> vendor_ok v s (is_mapped s w) = false ->
  exists w' before message,
    recreate_buffer v s w = (Throw "Error", w') /\
    trace w' = trace w ++ before ++ [D_LOG_ERROR message].
Proof.
  unfold is_stale, vendor_ok, is_mapped.
  intros Hcuda Hcvi Hs Hv.
  unfold recreate_buffer. unfold bind at 1, get. cbv beta iota.
  unfold bind at 1. cbv beta iota. rewrite Hs.
  destruct (unmap_and_dealloc_cases v s w Hcuda Hcvi)
    as [(Z1 & E1)|[(N1 & U1 & E1)|(N1 & F & E1)]].
  - rewrite (bind_ok _ _ _ _ _ E1). rewrite Z1 in Hv. simpl in Hv.
    unfold bind, get, modify, call, assign_nvidia, deref, ret, throw.
    destruct (v (InitFromD3D11Texture s)) eqn:Hi; simpl in Hv.
    + destruct s; do 4 (simpl; rewrite ?Hcvi, ?Hcuda, ?Hi, ?Hv);
        (eexists _, [_; _; _], _; split; [reflexivity|simpl; rewrite <- !app_assoc; reflexivity]).
    + destruct s; do 4 (simpl; rewrite ?Hcvi, ?Hcuda, ?Hi);
        (eexists _, [_; _], _; split; [reflexivity|simpl; rewrite <- !app_assoc; reflexivity]).
  - rewrite (bind_ok _ _ _ _ _ E1). apply Z.eqb_neq in N1. rewrite N1, U1 in Hv. simpl in Hv.
    unfold bind, get, modify, call, assign_nvidia, deref, ret, throw.
    destruct (v (InitFromD3D11Texture s)) eqn:Hi; simpl in Hv.
    + destruct s; do 4 (simpl; rewrite ?Hcvi, ?Hcuda, ?Hi, ?Hv);
        (eexists _, [_; _; _; _; _], _; split;
         [reflexivity|simpl; rewrite <- !app_assoc; reflexivity]).
    + destruct s; do 4 (simpl; rewrite ?Hcvi, ?Hcuda, ?Hi);
        (eexists _, [_; _; _; _], _; split;
         [reflexivity|simpl; rewrite <- !app_assoc; reflexivity]).
  - rewrite (bind_throw _ _ _ _ _ E1).
    eexists _, [_], _. split; [reflexivity|]. simpl. rewrite <- !app_assoc. reflexivity.
Qed.

(** C1 (as amended).  On a backend that holds its CUDA and image library
    references (the effects library reference is not used, and no denoise
    call is made), [process_nvidia_noise_removal] re-creates each of its
    two buffers exactly when the texture is absent or its size differs
    from the negotiated size [_size]: it unmaps and deallocates the old
    image if one is mapped, creates the texture of the negotiated size,
    initialises the image from it and maps it; a buffer of the negotiated
    size is kept and no call is made for it.  If the vendor answers every
    call made this way with success, the call returns: both textures
    exist with the negotiated size, the calls made are those of the
    re-creations followed by the copy of the captured input texture into
    the backend's input texture, and the result is the handle of the
    backend's output texture, never null.  Otherwise, that is when an
    unmap, init or map that is made fails, the call ends with the
    exception "Error", its last call being the log line; it never ends
    with a missing result. *)
Theorem process_nvidia_noise_removal_spec (v : vendor) (w : world) :
  _nvcuda (nvidia (this w)) = true -> _nvcvi (nvidia (this w)) = true ->
  let size := _size (this w) in
  let stale_in := is_stale input_surface w in
  let stale_out := is_stale output_surface w in
  let new_in := {| tex_id := next_texture w;
                   tex_width := fst size; tex_height := snd size |} in
  let new_out := {| tex_id := if stale_in then S (next_texture w) else next_texture w;
                    tex_width := fst size; tex_height := snd size |} in
  let in_ok := negb stale_in || vendor_ok v input_surface (is_mapped input_surface w) in
  let out_ok := negb stale_out || vendor_ok v output_surface (is_mapped output_surface w) in
  let r := process_nvidia_noise_removal v w in
  (in_ok && out_ok = true ->
   exists input output,
     (if stale_in then input = new_in else _nvidia_input (nvidia (this w)) = Some input) /\
     (if stale_out then output = new_out else _nvidia_output (nvidia (this w)) = Some output) /\
     fst r = Ok (Some output) /\
     _nvidia_input (nvidia (this (snd r))) = Some input /\
     _nvidia_output (nvidia (this (snd r))) = Some output /\
     (tex_width input, tex_height input) = size /\
     (tex_width output, tex_height output) = size /\
     _size (this (snd r)) = size /\
     trace (snd r)
     = trace w
       ++ (if stale_in
           then replacement_calls input_surface (is_mapped input_surface w) new_in else [])
       ++ (if stale_out
           then replacement_calls output_surface (is_mapped output_surface w) new_out else [])
       ++ [gs_copy_texture input (get_texture (_input (this w)))]) /\
  (in_ok && out_ok = false ->
   fst r = Throw "Error" /\
   exists before message, trace (snd r) = trace w ++ before ++ [D_LOG_ERROR message]).
Proof.
  intros Hcuda Hcvi size stale_in stale_out new_in new_out in_ok out_ok r.
  subst r. rewrite (process_unfold v w Hcuda).
  subst in_ok out_ok.
  destruct (is_stale input_surface w) eqn:Si; subst stale_in; cbn [negb orb].
  - (* the input buffer is re-created *)
    destruct (vendor_ok v input_surface (is_mapped input_surface w)) eqn:Vi; cbn [andb].
    + rewrite (recreate_buffer_replaced v input_surface w Hcuda Hcvi Si Vi).
      fold size. fold new_in. set (w1 := replaced input_surface new_in w).
      assert (Hcuda1 : _nvcuda (nvidia (this w1)) = true)
        by (subst w1; unfold replaced, unmapped;
            destruct (is_mapped input_surface w); exact Hcuda).
      assert (Hcvi1 : _nvcvi (nvidia (this w1)) = true)
        by (subst w1; unfold replaced, unmapped;
            destruct (is_mapped input_surface w); exact Hcvi).
      assert (So1 : is_stale output_surface w1 = is_stale output_surface w)
        by (subst w1; unfold replaced, unmapped, is_stale;
            destruct (is_mapped input_surface w); reflexivity).
      assert (Mo1 : is_mapped output_surface w1 = is_mapped output_surface w)
        by (subst w1; unfold replaced, unmapped, is_mapped at 1 3;
            destruct (is_mapped input_surface w); reflexivity).
      assert (Sz1 : _size (this w1) = size)
        by (subst w1; unfold replaced, unmapped;
            destruct (is_mapped input_surface w); reflexivity).
      assert (Nt1 : next_texture w1 = S (next_texture w))
        by (subst w1; unfold replaced, unmapped;
            destruct (is_mapped input_surface w); reflexivity).
      assert (In1 : _nvidia_input (nvidia (this w1)) = Some new_in)
        by (subst w1; unfold replaced, unmapped;
            destruct (is_mapped input_surface w); reflexivity).
      assert (Tr1 : trace w1
                    = trace w ++ replacement_calls input_surface
                                   (is_mapped input_surface w) new_in)
        by (subst w1; unfold replaced, unmapped, replacement_calls;
            destruct (is_mapped input_surface w); simpl; rewrite <- ?app_assoc; reflexivity).
      destruct (is_stale output_surface w) eqn:So; subst stale_out; cbn [negb orb].
      * destruct (vendor_ok v output_surface (is_mapped output_surface w)) eqn:Vo.
        -- split; [intros _|discriminate].
           rewrite <- Mo1 in Vo.
           rewrite (recreate_buffer_replaced v output_surface w1 Hcuda1 Hcvi1 So1 Vo).
           rewrite Sz1, Nt1. fold new_out.
           set (w2 := replaced output_surface new_out w1).
           assert (In2 : _nvidia_input (nvidia (this w2)) = Some new_in)
             by (subst w2; unfold replaced, unmapped;
                 destruct (is_mapped output_surface w1); exact In1).
           assert (Tr2 : trace w2
                         = trace w1 ++ replacement_calls output_surface
                                         (is_mapped output_surface w1) new_out)
             by (subst w2; unfold replaced, unmapped, replacement_calls;
                 destruct (is_mapped output_surface w1); simpl; rewrite <- ?app_assoc;
                 reflexivity).
           assert (Ou2 : _nvidia_output (nvidia (this w2)) = Some new_out)
             by (subst w2; unfold replaced, unmapped;
                 destruct (is_mapped output_surface w1); reflexivity).
           assert (Sz2 : _size (this w2) = size)
             by (subst w2; unfold replaced, unmapped;
                 destruct (is_mapped output_surface w1); exact Sz1).
           rewrite In2. exists new_in, new_out. cbn [fst snd].
           cbn [emit this trace]. rewrite Ou2, In2, Sz2, Tr2, Tr1, Mo1.
           repeat split; try (subst size; destruct (_size (this w)); reflexivity).
           rewrite <- !app_assoc. reflexivity.
        -- split; [discriminate|intros _].
           rewrite <- Mo1 in Vo.
           destruct (recreate_buffer_failed v output_surface w1 Hcuda1 Hcvi1 So1 Vo)
             as (w2 & before & message & -> & Tr2).
           cbn [fst snd]. split; [reflexivity|].
           exists (replacement_calls input_surface (is_mapped input_surface w) new_in ++ before),
             message.
           rewrite Tr2, Tr1, <- !app_assoc. reflexivity.
      * cbn [andb]. split; [intros _|discriminate].
        rewrite (recreate_buffer_kept v output_surface w1 So1).
        destruct (not_stale_texture output_surface w1 So1) as (output & Eo & Do).
        change (_nvidia_output (nvidia (this w1)) = Some output) in Eo.
        rewrite In1. exists new_in, output. cbn [fst snd]. cbn [emit this trace].
        rewrite Eo, In1, Sz1, Tr1.
        assert (Eo' : _nvidia_output (nvidia (this w)) = Some output)
          by (rewrite <- Eo; subst w1; unfold replaced, unmapped;
              destruct (is_mapped input_surface w); reflexivity).
        rewrite Sz1 in Do.
        repeat split; try assumption; try (subst size; destruct (_size (this w)); reflexivity).
        rewrite <- !app_assoc. reflexivity.
    + split; [discriminate|intros _].
      destruct (recreate_buffer_failed v input_surface w Hcuda Hcvi Si Vi)
        as (w1 & before & message & -> & Tr1).
      cbn [fst snd]. split; [reflexivity|]. exists before, message. exact Tr1.
  - (* the input buffer is kept *)
    rewrite (recreate_buffer_kept v input_surface w Si).
    destruct (not_stale_texture input_surface w Si) as (input & Ei & Di). simpl in Ei.
    destruct (is_stale output_surface w) eqn:So; subst stale_out; cbn [negb orb andb].
    + destruct (vendor_ok v output_surface (is_mapped output_surface w)) eqn:Vo.
      * split; [intros _|discriminate].
        rewrite (recreate_buffer_replaced v output_surface w Hcuda Hcvi So Vo).
        fold size. fold new_out. set (w2 := replaced output_surface new_out w).
        assert (In2 : _nvidia_input (nvidia (this w2)) = Some input)
          by (subst w2; unfold replaced, unmapped;
              destruct (is_mapped output_surface w); exact Ei).
        assert (Tr2 : trace w2
                      = trace w ++ replacement_calls output_surface
                                     (is_mapped output_surface w) new_out)
          by (subst w2; unfold replaced, unmapped, replacement_calls;
              destruct (is_mapped output_surface w); simpl; rewrite <- ?app_assoc;
              reflexivity).
        assert (Ou2 : _nvidia_output (nvidia (this w2)) = Some new_out)
          by (subst w2; unfold replaced, unmapped;
              destruct (is_mapped output_surface w); reflexivity).
        assert (Sz2 : _size (this w2) = size)
          by (subst w2; unfold replaced, unmapped;
              destruct (is_mapped output_surface w); reflexivity).
        rewrite In2. exists input, new_out. cbn [fst snd]. cbn [emit this trace].
        rewrite Ou2, In2, Sz2, Tr2.
        repeat split; try assumption; try (subst size; destruct (_size (this w)); reflexivity).
        simpl. rewrite <- !app_assoc. reflexivity.
      * split; [discriminate|intros _].
        destruct (recreate_buffer_failed v output_surface w Hcuda Hcvi So Vo)
          as (w2 & before & message & -> & Tr2).
        cbn [fst snd]. split; [reflexivity|]. exists before, message. exact Tr2.
    + split; [intros _|discriminate].
      rewrite (recreate_buffer_kept v output_surface w So).
      destruct (not_stale_texture output_surface w So) as (output & Eo & Do). simpl in Eo.
      rewrite Ei. exists input, output. cbn [fst snd]. cbn [emit this trace].
      rewrite Eo, Ei.
      repeat split; try assumption.
Qed.

Lemma process_nvidia_noise_removal_spec_witness :
  let ok : vendor := fun _ => true in
  let w := set_this (with_nvidia (fun n => with_nvcvi true (with_nvcuda true n)))
             (initial_world (fst (video_denoising_factory_new ok))) in
  let new_in := {| tex_id := 1; tex_width := 1; tex_height := 1 |} in
  let new_out := {| tex_id := 2; tex_width := 1; tex_height := 1 |} in
  let r := process_nvidia_noise_removal ok w in
  exists input output,
    input = new_in /\ output = new_out /\
    fst r = Ok (Some output) /\
    _nvidia_input (nvidia (this (snd r))) = Some input /\
    _nvidia_output (nvidia (this (snd r))) = Some output /\
    (tex_width input, tex_height input) = (1, 1) /\
    (tex_width output, tex_height output) = (1, 1) /\
    _size (this (snd r)) = (1, 1) /\
    trace (snd r)
    = trace w ++ replacement_calls input_surface false new_in
      ++ replacement_calls output_surface false new_out
      ++ [gs_copy_texture input (get_texture (_input (this w)))].
Proof.
  intros ok w new_in new_out.
  apply (proj1 (process_nvidia_noise_removal_spec ok w eq_refl eq_refl)).
  reflexivity.
Defined.

(** C1 fails as stated.  With the effects library reference null, so
    that no denoise step can run, the first process call of a backend
    still returns its output texture, and the calls it makes are the two
    buffer allocations with their mappings and the copy; and when the
    vendor fails to map the input image the call ends with the exception
    "Error", not with a missing result. *)
Lemma process_nvidia_noise_removal_counterexample :
  let ok : vendor := fun _ => true in
  let w := set_this (with_size (1920, 1080))
             (run [op_task ok]
                (create (fst (video_denoising_factory_new ok)) (Some [(ST_PROVIDER, 1)]))) in
  let without_effects := set_this (with_nvidia (with_nvvfx false)) w in
  let input := {| tex_id := 1; tex_width := 1920; tex_height := 1080 |} in
  let output := {| tex_id := 2; tex_width := 1920; tex_height := 1080 |} in
  fst (process_nvidia_noise_removal ok without_effects) = Ok (Some output) /\
  trace (snd (process_nvidia_noise_removal ok without_effects))
  = trace w ++ [texture_create input;
                NvCVImage_InitFromD3D11Texture input_surface input;
                NvCVImage_MapResource input_surface;
                texture_create output;
                NvCVImage_InitFromD3D11Texture output_surface output;
                NvCVImage_MapResource output_surface;
                gs_copy_texture input (get_texture (_input (this w)))] /\
  fst (process_nvidia_noise_removal
         (fun c => match c with MapResource input_surface => false | _ => true end) w)
  = Throw "Error" /\
  fst (process_nvidia_noise_removal
         (fun c => match c with MapResource input_surface => false | _ => true end) w)
  <> Ok None.
Proof. vm_compute. repeat split; discriminate. Qed.

(** ** The render tick: frames that get past the checks *)

Lemma capture_input_spec (h : host) (size : Z * Z) (w : world) :
  let width := obs_source_get_base_width (obs_filter_get_target h) in
  let height := obs_source_get_base_height (obs_filter_get_target h) in
  capture_input h size w
  = (Ok tt,
     {| this := with_input {| rt_width := width; rt_height := height |}
                  (with_size size (this w));
        factory := factory w; pool := pool w;
        next_handle := next_handle w; next_texture := next_texture w;
        trace := (trace w ++ [obs_source_process_filter_begin_call])
                 ++ capture_calls h width height |}).
Proof.
  cbv zeta. unfold capture_input, bind, assign, call, modify.
  rewrite calls_spec. reflexivity.
Qed.

Lemma passes_checks_true (h : host) (w : world) :
  passes_checks h w = true ->
  negb (_provider_ready (this w))
  || is_none (match obs_filter_get_target h with
              | Some t => Some t
              | None => obs_filter_get_parent h
              end)
  || (obs_source_get_base_width (obs_filter_get_target h) =? 0)
  || (obs_source_get_base_height (obs_filter_get_target h) =? 0) = false.
Proof.
  unfold passes_checks. intros H.
  apply andb_prop in H. destruct H as [H H4].
  apply andb_prop in H. destruct H as [H H3].
  apply andb_prop in H. destruct H as [H1 H2].
  apply negb_true_iff in H2, H3, H4. rewrite H1, H2, H3, H4. reflexivity.
Qed.

(** [video_render] for a frame that gets past the checks and that the
    host lets the filter process: the capture, then the provider. *)
Lemma video_render_unfold (v : vendor) (h : host) (effect : option nat) (w : world)
    (size : Z * Z) :
  passes_checks h w = true ->
  obs_source_process_filter_begin h = true ->
  size_policy (_provider (this w))
    (obs_source_get_base_width (obs_filter_get_target h))
    (obs_source_get_base_height (obs_filter_get_target h)) = Some size ->
  video_render v h effect w
  = (capture_input h size ;;
     output <- (if _provider (this w) =? NVIDIA_VIDEO_NOISE_REMOVAL
                then process_nvidia_noise_removal v else ret None) ;;
     assign (with_output output) ;;
     match output with
     | None =>
         name <- lift (denoise_provider_to_string (_provider (this w))) ;;
         call (D_LOG_ERROR ("Provider '" ++ name ++ "' did not return a result.")) ;;
         call obs_source_skip_video_filter
     | Some out =>
         assign (with_input {| rt_width := 1; rt_height := 1 |}) ;;
         call (rendertarget_render 1 1) ;;
         call (gs_effect_set_texture
                 (match effect with Some e => e | None => OBS_EFFECT_DEFAULT end)
                 (gs_get_linear_srgb h) out) ;;
         size <- get (fun w => _size (this w)) ;;
         calls (repeat (gs_draw_sprite (fst size) (snd size)) (gs_effect_loop h))
     end) w.
Proof.
  intros Hc Hb Hs. unfold video_render. cbv zeta.
  unfold bind at 1, get. rewrite (passes_checks_true h w Hc).
  unfold bind at 1. cbv beta iota.
  unfold bind at 1. rewrite Hs. rewrite Hb.
  unfold capture_input. unfold bind, assign, call, modify, get. simpl. reflexivity.
Qed.

(** C2 (as amended).  [video_render] handles no exception.  For a frame
    that gets past the checks at its head and that the host lets the
    filter process: with the NVIDIA provider, the call ends as the call of
    [process_nvidia_noise_removal] on the captured input ends, so an
    exception raised there (a failed unmap, init or map while a buffer is
    re-created) leaves [video_render]; with a provider that has no
    backend, the display conversion for the log line throws "Missing
    Conversion Entry", which leaves [video_render] before anything is
    logged or skipped. *)
Theorem video_render_propagates (v : vendor) (h : host) (effect : option nat) (w : world)
    (size : Z * Z) :
  passes_checks h w = true ->
  obs_source_process_filter_begin h = true ->
  size_policy (_provider (this w))
    (obs_source_get_base_width (obs_filter_get_target h))
    (obs_source_get_base_height (obs_filter_get_target h)) = Some size ->
  (_provider (this w) = NVIDIA_VIDEO_NOISE_REMOVAL ->
   fst (video_render v h effect w)
   = match fst (process_nvidia_noise_removal v (snd (capture_input h size w))) with
     | Ok _ => Ok tt
     | Throw what => Throw what
     | Fault => Fault
     end) /\
  (_provider (this w) <> NVIDIA_VIDEO_NOISE_REMOVAL ->
   video_render v h effect w
   = (Throw "Missing Conversion Entry",
      set_this (with_output None) (snd (capture_input h size w)))).
Proof.
  intros Hc Hb Hs. rewrite (video_render_unfold v h effect w size Hc Hb Hs).
  pose proof (capture_input_spec h size w) as Ec. cbv zeta in Ec.
  split.
  - intros Hp. rewrite Hp. change (NVIDIA_VIDEO_NOISE_REMOVAL =? NVIDIA_VIDEO_NOISE_REMOVAL) with true.
    cbv iota. rewrite (bind_ok _ _ _ _ _ Ec). rewrite Ec. cbn [snd].
    unfold bind at 1.
    destruct (process_nvidia_noise_removal v _) as [[[out|]| |] w2]; try reflexivity.
    + unfold bind, assign, call, modify, get. cbn [fst]. rewrite calls_spec. reflexivity.
  - intros Hp. rewrite (bind_ok _ _ _ _ _ Ec). rewrite Ec. cbn [snd].
    destruct (Z.eqb_spec (_provider (this w)) NVIDIA_VIDEO_NOISE_REMOVAL) as [E|E];
      [congruence|].
    unfold bind, ret, assign, modify, lift, denoise_provider_to_string. simpl.
    destruct (Z.eqb_spec (_provider (this w)) NVIDIA_VIDEO_NOISE_REMOVAL) as [E'|E'];
      [congruence|]. reflexivity.
Qed.

Lemma video_render_propagates_witness :
  let ok : vendor := fun _ => true in
  let h := {| obs_filter_get_target := Some {| base_width := 1920; base_height := 1080 |};
              obs_filter_get_parent := None; obs_source_process_filter_begin := true;
              gs_framebuffer_srgb_enabled := false; gs_get_linear_srgb := false;
              gs_effect_loop := 1 |} in
  let w := set_this (with_provider_ready true)
             (initial_world (fst (video_denoising_factory_new ok))) in
  video_render ok h None w
  = (Throw "Missing Conversion Entry",
     set_this (with_output None) (snd (capture_input h (1920, 1080) w))).
Proof.
  intros ok h w.
  apply (video_render_propagates ok h None w (1920, 1080)).
  - reflexivity.
  - reflexivity.
  - reflexivity.
  - discriminate.
Defined.

(** C2 fails as stated: on a ready NVIDIA instance whose vendor fails to
    map the input image, the error raised inside process leaves
    [video_render], and the host is not told to skip the filter. *)
Lemma video_render_propagates_counterexample :
  let ok : vendor := fun _ => true in
  let failing : vendor :=
    fun c => match c with MapResource input_surface => false | _ => true end in
  let h := {| obs_filter_get_target := Some {| base_width := 1920; base_height := 1080 |};
              obs_filter_get_parent := None; obs_source_process_filter_begin := true;
              gs_framebuffer_srgb_enabled := false; gs_get_linear_srgb := false;
              gs_effect_loop := 1 |} in
  let w := run [op_task ok]
             (create (fst (video_denoising_factory_new ok)) (Some [(ST_PROVIDER, 1)])) in
  reachable w /\
  fst (video_render failing h None w) = Throw "Error" /\
  ~ In obs_source_skip_video_filter (trace (snd (video_render failing h None w))).
Proof.
  split; [eexists _, _, _; reflexivity|].
  vm_compute. split; [reflexivity|].
  intros H. repeat (destruct H as [H|H]; [discriminate|]). exact H.
Qed.

(** * Further properties of the code *)

(** ** How process and the render tick end *)

(** How [process_nvidia_noise_removal] ends on a backend that holds its
    CUDA and image library references. *)
Lemma process_outcome (v : vendor) (w : world) :
  _nvcuda (nvidia (this w)) = true -> _nvcvi (nvidia (this w)) = true ->
  let r := process_nvidia_noise_removal v w in
  match fst r with
  | Ok result =>
      exists input output before,
        result = Some output /\
        _nvidia_output (nvidia (this (snd r))) = Some output /\
        _nvidia_input (nvidia (this (snd r))) = Some input /\
        (tex_width input, tex_height input) = _size (this w) /\
        (tex_width output, tex_height output) = _size (this w) /\
        _size (this (snd r)) = _size (this w) /\
        trace (snd r)
        = before ++ [gs_copy_texture input (get_texture (_input (this w)))]
  | Throw what => what = "Error"%string /\ exists c, v c = false
  | Fault => False
  end.
Proof.
  intros Hcuda Hcvi r. subst r. rewrite (process_unfold v w Hcuda).
  pose proof (recreate_buffer_cases v input_surface w Hcuda Hcvi) as C1.
  pose proof (recreate_buffer_keeps_provider_state v input_surface w) as K1.
  pose proof (recreate_buffer_keeps_frame v input_surface w) as F1.
  cbv zeta in C1.
  destruct (recreate_buffer v input_surface w) as [[[]| |] w1]; simpl in C1, K1, F1;
    [|exact C1|exact C1].
  destruct C1 as (input & Ei & Wi & Hi).
  apply provider_state_eq in K1. destruct K1 as (_ & _ & _ & _ & Kc & Kv & _).
  injection F1 as Fs Fi Fo.
  pose proof (recreate_buffer_cases v output_surface w1) as C2.
  rewrite Kc, Kv in C2. specialize (C2 Hcuda Hcvi).
  pose proof (recreate_output_keeps_input v w1) as K2.
  pose proof (recreate_buffer_keeps_frame v output_surface w1) as F2.
  cbv zeta in C2.
  destruct (recreate_buffer v output_surface w1) as [[[]| |] w2]; simpl in C2, K2, F2;
    [|exact C2|exact C2].
  destruct C2 as (output & Eo & Wo & Ho).
  injection F2 as Fs2 Fi2 Fo2.
  rewrite K2, Ei. simpl.
  exists input, output, (trace w2).
  rewrite Fs in Wo, Ho.
  repeat split;
    first [ reflexivity
          | assumption
          | congruence
          | rewrite Wi, Hi; destruct (_size (this w)); reflexivity
          | rewrite Wo, Ho; destruct (_size (this w)); reflexivity ].
Qed.

(** How [video_render] ends for a frame that gets past the checks and
    that the host lets the filter process. *)
Lemma video_render_past_checks (v : vendor) (h : host) (effect : option nat) (w : world)
    (size : Z * Z) :
  passes_checks h w = true ->
  obs_source_process_filter_begin h = true ->
  size_policy (_provider (this w))
    (obs_source_get_base_width (obs_filter_get_target h))
    (obs_source_get_base_height (obs_filter_get_target h)) = Some size ->
  (_provider (this w) = NVIDIA_VIDEO_NOISE_REMOVAL ->
   fst (video_render v h effect w)
   = match fst (process_nvidia_noise_removal v (snd (capture_input h size w))) with
     | Ok _ => Ok tt
     | Throw what => Throw what
     | Fault => Fault
     end) /\
  (_provider (this w) <> NVIDIA_VIDEO_NOISE_REMOVAL ->
   video_render v h effect w
   = (Throw "Missing Conversion Entry",
      set_this (with_output None) (snd (capture_input h size w)))).
Proof.
  intros Hc Hb Hs. rewrite (video_render_unfold v h effect w size Hc Hb Hs).
  pose proof (capture_input_spec h size w) as Ec. cbv zeta in Ec.
  split.
  - intros Hp. rewrite Hp. change (NVIDIA_VIDEO_NOISE_REMOVAL =? NVIDIA_VIDEO_NOISE_REMOVAL) with true.
    cbv iota. rewrite (bind_ok _ _ _ _ _ Ec). rewrite Ec. cbn [snd].
    unfold bind at 1.
    destruct (process_nvidia_noise_removal v _) as [[[out|]| |] w2]; try reflexivity.
    + unfold bind, assign, call, modify, get. cbn [fst]. rewrite calls_spec. reflexivity.
  - intros Hp. rewrite (bind_ok _ _ _ _ _ Ec). rewrite Ec. cbn [snd].
    destruct (Z.eqb_spec (_provider (this w)) NVIDIA_VIDEO_NOISE_REMOVAL) as [E|E];
      [congruence|].
    unfold bind, ret, assign, modify, lift, denoise_provider_to_string. simpl.
    destruct (Z.eqb_spec (_provider (this w)) NVIDIA_VIDEO_NOISE_REMOVAL) as [E'|E'];
      [congruence|]. reflexivity.
Qed.

(** ** The size policy on sizes the provider accepts and at the origin *)

(** A size whose dominant side already lies in the range of the NVIDIA
    provider is returned unchanged: the scaled side comes back from the
    double arithmetic exactly. *)
Theorem resize_in_range_unchanged (x y : Z) :
  (0 <= y < x /\ 142 <= x <= 1920) \/ (0 <= x <= y /\ 80 <= y <= 1080) ->
  resize_nvidia_noise_removal x y = Some (x, y).
Proof.
  intros [[Hy Hx]|[Hx Hy]].
  - destruct (resize_dominant_width x y) as (r & E & N);
      [lia|change (2 ^ 32) with 4294967296; lia|].
    rewrite (clamp_fixed x) in E, N by lia.
    rewrite (nearest_self y r x ltac:(lia) N) in E. exact E.
  - destruct (resize_dominant_height x y) as (r & E & N);
      [lia|change (2 ^ 32) with 4294967296; lia|].
    rewrite (clamp_fixed y) in E, N by lia.
    rewrite (nearest_self x r y ltac:(lia) N) in E. exact E.
Qed.

Lemma resize_in_range_unchanged_witness :
  resize_nvidia_noise_removal 1280 720 = Some (1280, 720).
Proof. apply resize_in_range_unchanged. left. lia. Defined.

Lemma resize_defined (x y : Z) :
  0 <= x < 2 ^ 32 -> 0 <= y < 2 ^ 32 -> x <> 0 \/ y <> 0 ->
  exists size, resize_nvidia_noise_removal x y = Some size.
Proof.
  intros Hx Hy Hn. destruct (Z.lt_ge_cases y x) as [G|G].
  - destruct (resize_dominant_width x y) as (r & E & _); [lia|lia|].
    eexists. exact E.
  - destruct (resize_dominant_height x y) as (r & E & _); [lia|lia|].
    eexists. exact E.
Qed.

(** On [uint32_t] arguments the conversion of the scaled side to
    [uint32_t] is undefined for 0 x 0 only, where the aspect ratio 0 / 0 is
    not a number; everywhere else the function returns a size. *)
Theorem resize_undefined_only_at_origin (x y : Z) :
  0 <= x < 2 ^ 32 -> 0 <= y < 2 ^ 32 ->
  (resize_nvidia_noise_removal x y = None <-> x = 0 /\ y = 0).
Proof.
  intros Hx Hy. split.
  - intros E. destruct (Z.eq_dec x 0) as [Ex|Ex]; destruct (Z.eq_dec y 0) as [Ey|Ey];
      try (split; assumption);
      (destruct (resize_defined x y Hx Hy) as (size & E'); [lia|congruence]).
  - intros [-> ->]. reflexivity.
Qed.

Lemma resize_undefined_only_at_origin_witness :
  resize_nvidia_noise_removal 0 0 = None <-> 0 = 0 /\ 0 = 0.
Proof.
  apply resize_undefined_only_at_origin; change (2 ^ 32) with 4294967296; lia.
Defined.

(** ** Which provider an update asks for *)

Lemma requested_provider_eq (data : obs_data) (w : world) (f : video_denoising_factory) :
  factory w = Some f ->
  requested_provider data w
  = (Ok (if obs_data_get_int data ST_PROVIDER =? AUTOMATIC
         then (if _nvidia_available f then NVIDIA_VIDEO_NOISE_REMOVAL else AUTOMATIC)
         else obs_data_get_int data ST_PROVIDER), w).
Proof.
  intros Hf. unfold requested_provider.
  destruct (Z.eqb_spec (obs_data_get_int data ST_PROVIDER) AUTOMATIC) as [E|E];
    [|reflexivity].
  simpl. unfold bind, get, factory_get, ret, is_provider_available. rewrite Hf.
  change (NVIDIA_VIDEO_NOISE_REMOVAL =? NVIDIA_VIDEO_NOISE_REMOVAL) with true. cbv iota.
  destruct (_nvidia_available f); [reflexivity|]. rewrite E. reflexivity.
Qed.

(** With a factory in place, the provider an update asks for is the
    integer of the settings, 0 when the item is missing; [AUTOMATIC] is
    replaced by the NVIDIA provider exactly when that one is available and
    stays [AUTOMATIC] otherwise; any other value is taken as it is, whether
    or not such a provider is available. *)
Theorem requested_provider_resolution (data : obs_data) (w : world)
    (f : video_denoising_factory) :
  factory w = Some f ->
  requested_provider data w
  = (Ok (if obs_data_get_int data ST_PROVIDER =? AUTOMATIC
         then (if _nvidia_available f then NVIDIA_VIDEO_NOISE_REMOVAL else AUTOMATIC)
         else obs_data_get_int data ST_PROVIDER), w) /\
  (requested_provider [] w = requested_provider [(ST_PROVIDER, AUTOMATIC)] w).
Proof.
  intros Hf. split; [apply requested_provider_eq; exact Hf|reflexivity].
Qed.

Lemma requested_provider_resolution_witness :
  let f := fst (video_denoising_factory_new (fun _ => false)) in
  requested_provider [(ST_PROVIDER, 1)] (initial_world f)
  = (Ok (if obs_data_get_int [(ST_PROVIDER, 1)] ST_PROVIDER =? AUTOMATIC
         then (if _nvidia_available f then NVIDIA_VIDEO_NOISE_REMOVAL else AUTOMATIC)
         else obs_data_get_int [(ST_PROVIDER, 1)] ST_PROVIDER), initial_world f) /\
  (requested_provider [] (initial_world f)
   = requested_provider [(ST_PROVIDER, AUTOMATIC)] (initial_world f)).
Proof.
  intros f. apply (requested_provider_resolution [(ST_PROVIDER, 1)] (initial_world f) f).
  reflexivity.
Defined.

(** After the global factory was finalized, an update that asks for
    [AUTOMATIC] dereferences the null factory pointer; an update that
    names a provider does not consult the factory. *)
Theorem update_without_factory (data : obs_data) (w : world) :
  factory w = None ->
  (obs_data_get_int data ST_PROVIDER = AUTOMATIC -> update data w = (Fault, w)) /\
  (obs_data_get_int data ST_PROVIDER <> AUTOMATIC -> fst (update data w) = Ok tt).
Proof.
  intros Hf. unfold update, requested_provider. split.
  - intros ->. simpl. unfold bind, get, factory_get. rewrite Hf. reflexivity.
  - intros Hn. destruct (Z.eqb_spec (obs_data_get_int data ST_PROVIDER) AUTOMATIC) as [E|E];
      [congruence|].
    unfold switch_provider. monad.
    branches; try reflexivity; destruct (_provider_task (this w)); reflexivity.
Qed.

Lemma update_without_factory_witness :
  let w := {| this := new_instance; factory := factory_finalize None; pool := [];
              next_handle := 0%nat; next_texture := 1%nat; trace := [] |} in
  (obs_data_get_int [] ST_PROVIDER = AUTOMATIC -> update [] w = (Fault, w)) /\
  (obs_data_get_int [] ST_PROVIDER <> AUTOMATIC -> fst (update [] w) = Ok tt).
Proof.
  intros w. apply (update_without_factory [] w). reflexivity.
Defined.
(** ** Scheduling of switch tasks *)

Lemma switch_provider_tracked (p : denoise_provider) (w : world) :
  tracked w ->
  switch_provider p w
  = (Ok tt, set_this (with_provider_task (Some (next_handle w)))
              (set_pool (fun _ => [{| task_handle := next_handle w; task_provider := p |}])
                 (set_next_handle (S (next_handle w)) w))) /\
  tracked (snd (switch_provider p w)).
Proof.
  intros Ht.
  assert (E : switch_provider p w
    = (Ok tt, set_this (with_provider_task (Some (next_handle w)))
                (set_pool (fun _ => [{| task_handle := next_handle w; task_provider := p |}])
                   (set_next_handle (S (next_handle w)) w)))).
  { unfold switch_provider. monad. destruct w as [i f q n nt tr].
    destruct Ht as [Hp|(t & Hp & Hh)]; simpl in *; subst q.
    - destruct (_provider_task i); reflexivity.
    - rewrite Hh. unfold modify, set_this, set_pool, set_next_handle, threadpool_push,
        threadpool_pop. cbn -[Nat.eqb]. rewrite Nat.eqb_refl. reflexivity. }
  split; [exact E|]. rewrite E. right. eexists. split; reflexivity.
Qed.

Lemma task_switch_provider_keeps_pool (v : vendor) (p : denoise_provider) :
  keeps (fun w => (pool w, _provider_task (this w))) (task_switch_provider v p).
Proof.
  unfold task_switch_provider, load_nvidia_noise_removal, unload_nvidia_noise_removal,
    unmap_and_dealloc.
  keeps_all.
Qed.

Lemma tracked_eq (w w' : world) :
  (pool w', _provider_task (this w')) = (pool w, _provider_task (this w)) ->
  tracked w -> tracked w'.
Proof.
  intros E. injection E as E1 E2. unfold tracked. rewrite E1, E2. exact (fun H => H).
Qed.

Lemma tracked_tail (w w' : world) :
  pool w' = tl (pool w) -> tracked w -> tracked w'.
Proof.
  intros E [Hp|(t & Hp & _)]; left; rewrite E, Hp; reflexivity.
Qed.

Lemma perform_tracked (a : action) (w : world) : tracked w -> tracked (snd (perform a w)).
Proof.
  intros Ht. destruct a as [data|p| | |v p|v|v h effect]; simpl.
  - unfold update.
    pose proof (requested_provider_world data w) as Hw.
    unfold bind at 1. destruct (requested_provider data w) as [[p| |] w']; simpl in *; subst w';
      try exact Ht.
    unfold bind at 1, get. simpl.
    destruct (p =? _provider (this w)); [exact Ht|].
    apply switch_provider_tracked. exact Ht.
  - apply switch_provider_tracked. exact Ht.
  - apply (tracked_tail w); [reflexivity|exact Ht].
  - apply (tracked_eq w); [reflexivity|exact Ht].
  - apply (tracked_eq w); [apply task_switch_provider_keeps_pool|exact Ht].
  - rewrite threadpool_work_unfold. destruct (pool w) as [|t rest] eqn:Hp; [exact Ht|].
    apply (tracked_tail w).
    + pose proof (task_switch_provider_keeps_pool v (task_provider t)
                    (set_pool (fun _ => rest) w)) as K.
      injection K as K1 _. rewrite K1, Hp. reflexivity.
    + exact Ht.
  - apply (tracked_eq w); [|exact Ht].
    pose proof (video_render_keeps_provider_state v h effect w) as K.
    unfold provider_state in K. injection K as _ _ K3 K4 _ _ _ _ _. rewrite K3, K4. reflexivity.
Qed.

Lemma interleaved_tracked (w : world) : interleaved w -> tracked w.
Proof.
  intros (f & data & acts & ->).
  assert (H0 : tracked (create f data)).
  { destruct (create_invariant f data) as [_ [Hp|(t & Hp & Hh & _)]];
      [left; exact Hp|right; exists t; split; assumption]. }
  revert H0. generalize (create f data).
  induction acts as [|a acts IH]; intros w0 H0; simpl; [exact H0|].
  apply IH. apply perform_tracked. exact H0.
Qed.

(** A sequential history is one of the overlapping ones. *)
Lemma reachable_interleaved (w : world) : reachable w -> interleaved w.
Proof.
  intros (f & data & ops & ->).
  exists f, data,
    (map (fun o => match o with
                   | op_update d => act_update d
                   | op_task v => act_task v
                   | op_render v h effect => act_render v h effect
                   end) ops).
  generalize (create f data).
  induction ops as [|o ops IH]; intros w0; simpl; [reflexivity|].
  rewrite IH. destruct o; reflexivity.
Qed.

(** However updates, switch tasks and renders overlap, at most one switch
    task is pending in the pool, and it is the task whose handle the
    instance keeps. *)
Theorem pending_task_unique (w : world) :
  interleaved w ->
  (List.length (pool w) <= 1)%nat /\
  (forall t, In t (pool w) -> _provider_task (this w) = Some (task_handle t)).
Proof.
  intros Hi. destruct (interleaved_tracked w Hi) as [Hp|(t & Hp & Ht)]; rewrite Hp.
  - split; [simpl; lia|intros t []].
  - split; [simpl; lia|]. intros t' [<-|[]]. exact Ht.
Qed.

Lemma pending_task_unique_witness :
  let w := perform_all [act_update [(ST_PROVIDER, 1)]; act_dequeue; act_switch 1]
             (create (fst (video_denoising_factory_new (fun _ => true))) None) in
  (List.length (pool w) <= 1)%nat /\
  (forall t, In t (pool w) -> _provider_task (this w) = Some (task_handle t)).
Proof.
  intros w. apply (pending_task_unique w). eexists _, _, _. reflexivity.
Defined.

Lemma update_switches (data : obs_data) (w : world) (p : denoise_provider) :
  one_pending w ->
  fst (requested_provider data w) = Ok p ->
  p <> _provider (this w) ->
  exists w',
    update data w = (Ok tt, w') /\
    pool w' = [{| task_handle := next_handle w; task_provider := p |}] /\
    this w' = with_provider_task (Some (next_handle w)) (this w) /\
    factory w' = factory w /\ trace w' = trace w.
Proof.
  intros Hp Hq Hd. unfold update.
  pose proof (requested_provider_world data w) as Hw.
  destruct (requested_provider data w) as [o w0] eqn:E. simpl in *. subst o w0.
  rewrite (bind_ok _ _ _ _ _ E). unfold bind at 1, get. cbv beta iota.
  destruct (Z.eqb_spec p (_provider (this w))) as [|_]; [contradiction|].
  destruct (switch_provider_spec p w Hp) as (w' & Es & Et & Eq & Ef & Etr).
  exists w'. simpl. auto.
Qed.

(** In a reachable world, an update that asks for a provider other than
    the current one returns with exactly one task pending, the task for
    the requested provider whose handle the instance now keeps: a task
    that was pending before is cancelled.  Nothing else changes; the
    provider, the ready flag and the backend are as before. *)
Theorem update_supersedes (data : obs_data) (w : world) (p : denoise_provider) :
  reachable w ->
  fst (requested_provider data w) = Ok p ->
  p <> _provider (this w) ->
  exists w',
    update data w = (Ok tt, w') /\
    pool w' = [{| task_handle := next_handle w; task_provider := p |}] /\
    this w' = with_provider_task (Some (next_handle w)) (this w) /\
    factory w' = factory w /\ trace w' = trace w.
Proof.
  intros Hr. apply update_switches. apply (reachable_invariant w Hr).
Qed.

Lemma update_supersedes_witness :
  let w := run [op_update [(ST_PROVIDER, 1)]]
             (create (fst (video_denoising_factory_new (fun _ => true))) None) in
  exists w',
    update [(ST_PROVIDER, 2)] w = (Ok tt, w') /\
    pool w' = [{| task_handle := next_handle w; task_provider := 2 |}] /\
    this w' = with_provider_task (Some (next_handle w)) (this w) /\
    factory w' = factory w /\ trace w' = trace w.
Proof.
  intros w. apply (update_supersedes [(ST_PROVIDER, 2)] w 2).
  - eexists _, _, _. reflexivity.
  - reflexivity.
  - discriminate.
Defined.

(** ** Null pointers *)

Lemma update_keeps_factory (data : obs_data) : keeps factory (update data).
Proof.
  unfold update, switch_provider.
  apply keeps_bind; [apply requested_provider_keeps|intros p]. keeps_all.
Qed.

Lemma task_switch_provider_keeps_factory (v : vendor) (p : denoise_provider) :
  keeps factory (task_switch_provider v p).
Proof.
  unfold task_switch_provider, load_nvidia_noise_removal, unload_nvidia_noise_removal,
    unmap_and_dealloc.
  keeps_all.
Qed.

Lemma perform_keeps_factory (a : action) : keeps factory (perform a).
Proof.
  destruct a as [data|p| | |v p|v|v h effect]; simpl.
  - apply update_keeps_factory.
  - unfold switch_provider. keeps_all.
  - intros w. reflexivity.
  - intros w. reflexivity.
  - apply task_switch_provider_keeps_factory.
  - intros w. rewrite threadpool_work_unfold. destruct (pool w) as [|t rest]; [reflexivity|].
    rewrite task_switch_provider_keeps_factory. reflexivity.
  - intros w. pose proof (video_render_keeps_provider_state v h effect w) as K.
    apply provider_state_eq in K. apply K.
Qed.

(** However updates and switch tasks overlap, the instance has its
    factory. *)
Lemma interleaved_factory (w : world) : interleaved w -> exists f, factory w = Some f.
Proof.
  intros (f & data & acts & ->). exists f.
  assert (H0 : factory (create f data) = Some f).
  { unfold create, video_denoising_instance_new.
    unfold bind at 1, modify. cbn [snd]. unfold bind at 1, call, modify. cbn [snd].
    destruct data as [d|]; [|reflexivity].
    unfold load. rewrite update_keeps_factory. reflexivity. }
  revert H0. generalize (create f data).
  induction acts as [|a acts IH]; intros w0 H0; simpl; [exact H0|].
  apply IH. rewrite perform_keeps_factory. exact H0.
Qed.

Lemma passes_checks_false (h : host) (w : world) :
  passes_checks h w = false ->
  _provider_ready (this w) = false \/
  obs_filter_get_target h = None \/
  obs_source_get_base_width (obs_filter_get_target h) = 0 \/
  obs_source_get_base_height (obs_filter_get_target h) = 0.
Proof.
  unfold passes_checks. intros H.
  destruct (_provider_ready (this w)); [|left; reflexivity]. right.
  destruct (obs_filter_get_target h) as [s|]; [|left; reflexivity]. right.
  simpl in H.
  destruct (Z.eqb_spec (base_width s) 0) as [E|E]; [left; exact E|].
  destruct (Z.eqb_spec (base_height s) 0) as [E'|E']; [right; exact E'|].
  discriminate.
Qed.

Lemma passes_checks_sizes (h : host) (w : world) :
  passes_checks h w = true ->
  obs_source_get_base_width (obs_filter_get_target h) <> 0 /\
  obs_source_get_base_height (obs_filter_get_target h) <> 0 /\
  _provider_ready (this w) = true.
Proof.
  unfold passes_checks. intros H.
  apply andb_prop in H. destruct H as [H H4].
  apply andb_prop in H. destruct H as [H H3].
  apply andb_prop in H. destruct H as [H1 H2].
  apply negb_true_iff in H3, H4. apply Z.eqb_neq in H3, H4. auto.
Qed.

(** [video_render] for a frame that gets past the checks and that the
    host declines to hand to the filter. *)
Lemma video_render_declined_eq (v : vendor) (h : host) (effect : option nat) (w : world)
    (size : Z * Z) :
  passes_checks h w = true ->
  obs_source_process_filter_begin h = false ->
  size_policy (_provider (this w))
    (obs_source_get_base_width (obs_filter_get_target h))
    (obs_source_get_base_height (obs_filter_get_target h)) = Some size ->
  video_render v h effect w
  = (Ok tt, emit obs_source_skip_video_filter
              (emit obs_source_process_filter_begin_call (set_this (with_size size) w))).
Proof.
  intros Hc Hb Hs. unfold video_render. cbv zeta.
  unfold bind at 1, get. rewrite (passes_checks_true h w Hc).
  unfold bind at 1. cbv beta iota.
  unfold bind at 1. rewrite Hs. rewrite Hb.
  unfold bind, assign, call, modify, get. reflexivity.
Qed.

Lemma size_policy_defined (p : denoise_provider) (width height : Z) :
  uint32 width -> uint32 height -> width <> 0 -> height <> 0 ->
  exists size, size_policy p width height = Some size.
Proof.
  unfold uint32. intros Hw Hh Nw Nh. unfold size_policy.
  destruct (p =? NVIDIA_VIDEO_NOISE_REMOVAL); [|eexists; reflexivity].
  destruct (resize_nvidia_noise_removal width height) as [size|] eqn:E;
    [eexists; reflexivity|].
  destruct (resize_defined width height Hw Hh) as (size & E'); [lia|congruence].
Qed.

Lemma host_ok_sizes (h : host) :
  host_ok h ->
  uint32 (obs_source_get_base_width (obs_filter_get_target h)) /\
  uint32 (obs_source_get_base_height (obs_filter_get_target h)).
Proof.
  unfold host_ok. intros H. destruct (obs_filter_get_target h) as [s|]; simpl.
  - apply H. reflexivity.
  - unfold uint32. change (2 ^ 32) with 4294967296. lia.
Qed.

Lemma switch_provider_returns (p : denoise_provider) (w : world) :
  fst (switch_provider p w) = Ok tt.
Proof.
  unfold switch_provider. monad. destruct (_provider_task (this w)); reflexivity.
Qed.

Lemma update_no_fault (data : obs_data) (w : world) :
  factory w <> None -> fst (update data w) <> Fault.
Proof.
  intros Hf. destruct (factory w) as [f|] eqn:Ef; [|contradiction].
  pose proof (requested_provider_eq data w f Ef) as Eq.
  unfold update. rewrite (bind_ok _ _ _ _ _ Eq). unfold bind at 1, get. cbv beta iota.
  match goal with |- context [if ?b then _ else _] => destruct b end.
  - rewrite switch_provider_returns. discriminate.
  - unfold ret. simpl. discriminate.
Qed.

Lemma task_switch_provider_no_fault (v : vendor) (p : denoise_provider) (w : world) :
  (_provider (this w) = NVIDIA_VIDEO_NOISE_REMOVAL ->
     _nvcuda (nvidia (this w)) = true /\ _nvcvi (nvidia (this w)) = true) ->
  fst (task_switch_provider v p w) <> Fault.
Proof.
  intros Hl.
  unfold task_switch_provider, load_nvidia_noise_removal, unload_nvidia_noise_removal,
    unmap_and_dealloc.
  monad.
  destruct (Z.eq_dec (_provider (this w)) NVIDIA_VIDEO_NOISE_REMOVAL) as [E|E].
  - destruct (Hl E) as (H1 & H2).
    branches; eqb_facts; try congruence; discriminate.
  - branches; eqb_facts; try congruence; discriminate.
Qed.

(** No operation dereferences a null pointer or converts a NaN on an
    instance that has its factory and whose provider, when it is the
    NVIDIA one, holds the CUDA and the image SDK reference: an update
    finds the factory and always returns from [switch_provider], a switch
    task unloads only a backend that holds its references, and a render
    reaches the backend only with these references and a size that is not
    0 x 0. *)
Theorem no_null_dereference (o : operation) (w : world) :
  factory w <> None ->
  (_provider (this w) = NVIDIA_VIDEO_NOISE_REMOVAL ->
     _nvcuda (nvidia (this w)) = true /\ _nvcvi (nvidia (this w)) = true) ->
  operation_ok o -> fst (step o w) <> Fault.
Proof.
  intros Hf Hl Ho.
  destruct o as [data|v|v h effect]; simpl in *.
  - apply update_no_fault. exact Hf.
  - rewrite threadpool_work_unfold. destruct (pool w) as [|t rest]; [discriminate|].
    apply task_switch_provider_no_fault. exact Hl.
  - destruct (passes_checks h w) eqn:Hc.
    + destruct (passes_checks_sizes h w Hc) as (Nw & Nh & _).
      destruct (host_ok_sizes h Ho) as [Uw Uh].
      destruct (size_policy_defined (_provider (this w)) _ _ Uw Uh Nw Nh) as (size & Hs).
      destruct (obs_source_process_filter_begin h) eqn:Hb.
      * destruct (video_render_past_checks v h effect w size Hc Hb Hs) as [Pn Po].
        destruct (Z.eq_dec (_provider (this w)) NVIDIA_VIDEO_NOISE_REMOVAL) as [E|E].
        -- rewrite (Pn E).
           pose proof (capture_input_spec h size w) as Ec. cbv zeta in Ec. rewrite Ec.
           cbn [snd]. destruct (Hl E) as (H1 & H2).
           match goal with
           | |- context [process_nvidia_noise_removal v ?w1] =>
               pose proof (process_outcome v w1 H1 H2) as S;
               cbv zeta in S;
               destruct (fst (process_nvidia_noise_removal v w1))
           end; [discriminate|discriminate|destruct S].
        -- rewrite (Po E). discriminate.
      * rewrite (video_render_declined_eq v h effect w size Hc Hb Hs). discriminate.
    + rewrite video_render_skip_eq; [discriminate|]. apply passes_checks_false. exact Hc.
Qed.

Lemma no_null_dereference_witness :
  let ok : vendor := fun _ => true in
  let h := {| obs_filter_get_target := Some {| base_width := 1920; base_height := 1080 |};
              obs_filter_get_parent := None; obs_source_process_filter_begin := true;
              gs_framebuffer_srgb_enabled := false; gs_get_linear_srgb := false;
              gs_effect_loop := 1 |} in
  fst (step (op_render ok h None)
         (run [op_task ok]
            (create (fst (video_denoising_factory_new ok)) (Some [(ST_PROVIDER, 1)]))))
  <> Fault.
Proof.
  intros ok h. apply no_null_dereference.
  - vm_compute. discriminate.
  - intros _. vm_compute. split; reflexivity.
  - intros s E. injection E as <-. unfold uint32. simpl.
    change (2 ^ 32) with 4294967296. lia.
Defined.

(** ** Frames that reach the provider *)

(** When the host declines the filter transaction, the frame is skipped
    after the size was negotiated: [get_width] and [get_height] report the
    new size although nothing was captured, and the backend and the last
    output are untouched. *)
Theorem video_render_declined (v : vendor) (h : host) (effect : option nat) (w : world)
    (size : Z * Z) :
  passes_checks h w = true ->
  obs_source_process_filter_begin h = false ->
  size_policy (_provider (this w))
    (obs_source_get_base_width (obs_filter_get_target h))
    (obs_source_get_base_height (obs_filter_get_target h)) = Some size ->
  let r := video_render v h effect w in
  fst r = Ok tt /\
  trace (snd r) = trace w ++ [obs_source_process_filter_begin_call; obs_source_skip_video_filter] /\
  get_width (snd r) = fst size /\ get_height (snd r) = snd size /\
  nvidia (this (snd r)) = nvidia (this w) /\
  _output (this (snd r)) = _output (this w) /\
  _input (this (snd r)) = _input (this w).
Proof.
  intros Hc Hb Hs. cbv zeta.
  rewrite (video_render_declined_eq v h effect w size Hc Hb Hs). simpl.
  rewrite <- app_assoc. repeat split.
Qed.

Lemma video_render_declined_witness :
  let ok : vendor := fun _ => true in
  let h := {| obs_filter_get_target := Some {| base_width := 3840; base_height := 2160 |};
              obs_filter_get_parent := None; obs_source_process_filter_begin := false;
              gs_framebuffer_srgb_enabled := false; gs_get_linear_srgb := false;
              gs_effect_loop := 1 |} in
  let w := set_this (with_provider_ready true)
             (initial_world (fst (video_denoising_factory_new ok))) in
  let r := video_render ok h None w in
  fst r = Ok tt /\
  trace (snd r) = trace w ++ [obs_source_process_filter_begin_call; obs_source_skip_video_filter] /\
  get_width (snd r) = fst (3840, 2160) /\ get_height (snd r) = snd (3840, 2160) /\
  nvidia (this (snd r)) = nvidia (this w) /\
  _output (this (snd r)) = _output (this w) /\
  _input (this (snd r)) = _input (this w).
Proof.
  intros ok h w.
  apply (video_render_declined ok h None w (3840, 2160)); reflexivity.
Defined.

(** A frame of a loaded NVIDIA backend whose vendor calls succeed is
    drawn: [video_render] returns, [get_width] and [get_height] report the
    negotiated size, the input render target is back at 1 x 1, the output
    is the backend's output texture of the negotiated size, and the last
    calls bind that texture to the effect and draw one sprite of the
    negotiated size per pass of the effect. *)
Theorem video_render_draws (v : vendor) (h : host) (effect : option nat) (w : world)
    (size : Z * Z) :
  passes_checks h w = true ->
  obs_source_process_filter_begin h = true ->
  _provider (this w) = NVIDIA_VIDEO_NOISE_REMOVAL ->
  _nvcuda (nvidia (this w)) = true -> _nvcvi (nvidia (this w)) = true ->
  succeeds v ->
  resize_nvidia_noise_removal
    (obs_source_get_base_width (obs_filter_get_target h))
    (obs_source_get_base_height (obs_filter_get_target h)) = Some size ->
  exists w' output before,
    video_render v h effect w = (Ok tt, w') /\
    get_width w' = fst size /\ get_height w' = snd size /\
    _input (this w') = {| rt_width := 1; rt_height := 1 |} /\
    _output (this w') = Some output /\
    _nvidia_output (nvidia (this w')) = Some output /\
    (tex_width output, tex_height output) = size /\
    trace w'
    = before
      ++ [rendertarget_render 1 1;
          gs_effect_set_texture (match effect with Some e => e | None => OBS_EFFECT_DEFAULT end)
            (gs_get_linear_srgb h) output]
      ++ repeat (gs_draw_sprite (fst size) (snd size)) (gs_effect_loop h).
Proof.
  intros Hc Hb Hp Hcuda Hcvi Hv Hs.
  assert (Hs' : size_policy (_provider (this w))
                  (obs_source_get_base_width (obs_filter_get_target h))
                  (obs_source_get_base_height (obs_filter_get_target h)) = Some size).
  { rewrite Hp. exact Hs. }
  rewrite (video_render_unfold v h effect w size Hc Hb Hs').
  pose proof (capture_input_spec h size w) as Ec. cbv zeta in Ec.
  rewrite (bind_ok _ _ _ _ _ Ec). rewrite Hp.
  change (NVIDIA_VIDEO_NOISE_REMOVAL =? NVIDIA_VIDEO_NOISE_REMOVAL) with true. cbv iota.
  match goal with
  | |- context [bind (process_nvidia_noise_removal v) _ ?w1] =>
      pose proof (process_outcome v w1 Hcuda Hcvi) as S; cbv zeta in S;
      unfold bind at 1;
      destruct (process_nvidia_noise_removal v w1) as [[result|what|] w2]; simpl in S
  end.
  - destruct S as (input & output & before & -> & Eo & Ei & Di & Do & Es & Et).
    unfold bind, assign, call, modify, get. rewrite calls_spec. simpl.
    exists (* the world after the draw calls *)
      {| this := with_input {| rt_width := 1; rt_height := 1 |}
                   (with_output (Some output) (this w2));
         factory := factory w2; pool := pool w2;
         next_handle := next_handle w2; next_texture := next_texture w2;
         trace := ((trace w2 ++ [rendertarget_render 1 1])
                   ++ [gs_effect_set_texture
                         (match effect with Some e => e | None => OBS_EFFECT_DEFAULT end)
                         (gs_get_linear_srgb h) output])
                  ++ repeat (gs_draw_sprite (fst (_size (this w2))) (snd (_size (this w2))))
                       (gs_effect_loop h) |},
      output, (trace w2).
    unfold get_width, get_height. simpl. rewrite Es.
    repeat split; try assumption.
    rewrite <- !app_assoc. reflexivity.
  - destruct S as (_ & c & Hcf). rewrite Hv in Hcf. discriminate.
  - destruct S.
Qed.

Lemma video_render_draws_witness :
  let ok : vendor := fun _ => true in
  let h := {| obs_filter_get_target := Some {| base_width := 1920; base_height := 1080 |};
              obs_filter_get_parent := None; obs_source_process_filter_begin := true;
              gs_framebuffer_srgb_enabled := false; gs_get_linear_srgb := true;
              gs_effect_loop := 1 |} in
  let w := set_this (fun i => with_provider NVIDIA_VIDEO_NOISE_REMOVAL
                                (with_provider_ready true
                                   (with_nvidia (fun n => with_nvcvi true (with_nvcuda true n)) i)))
             (initial_world (fst (video_denoising_factory_new ok))) in
  exists w' output before,
    video_render ok h None w = (Ok tt, w') /\
    get_width w' = fst (1920, 1080) /\ get_height w' = snd (1920, 1080) /\
    _input (this w') = {| rt_width := 1; rt_height := 1 |} /\
    _output (this w') = Some output /\
    _nvidia_output (nvidia (this w')) = Some output /\
    (tex_width output, tex_height output) = (1920, 1080) /\
    trace w'
    = before
      ++ [rendertarget_render 1 1;
          gs_effect_set_texture OBS_EFFECT_DEFAULT (gs_get_linear_srgb h) output]
      ++ repeat (gs_draw_sprite (fst (1920, 1080)) (snd (1920, 1080))) (gs_effect_loop h).
Proof.
  intros ok h w.
  apply (video_render_draws ok h None w (1920, 1080)); try reflexivity.
  intros c. reflexivity.
Defined.

(** ** Buffers of the backend across frames *)

Lemma recreate_buffer_fresh (v : vendor) (s : surface) (w : world) (t : texture) :
  nvidia_texture s (nvidia (this w)) = Some t ->
  (tex_width t, tex_height t) = _size (this w) ->
  recreate_buffer v s w = (Ok tt, w).
Proof.
  intros Et Es. unfold recreate_buffer, bind, get, stale, ret. rewrite Et, <- Es. simpl.
  rewrite !Z.eqb_refl. reflexivity.
Qed.

(** Once both buffers of the backend have the negotiated size, a process
    call consults neither the vendor nor the image descriptors: it copies
    the captured input into the input buffer and returns the output
    buffer, whatever the vendor would answer. *)
Theorem process_steady_state (v : vendor) (w : world) (input output : texture) :
  _nvcuda (nvidia (this w)) = true ->
  _nvidia_input (nvidia (this w)) = Some input ->
  _nvidia_output (nvidia (this w)) = Some output ->
  (tex_width input, tex_height input) = _size (this w) ->
  (tex_width output, tex_height output) = _size (this w) ->
  process_nvidia_noise_removal v w
  = (Ok (Some output), emit (gs_copy_texture input (get_texture (_input (this w)))) w).
Proof.
  intros Hcuda Ei Eo Si So. rewrite (process_unfold v w Hcuda).
  rewrite (recreate_buffer_fresh v input_surface w input Ei Si).
  rewrite (recreate_buffer_fresh v output_surface w output Eo So).
  rewrite Ei, Eo. reflexivity.
Qed.

Lemma process_steady_state_witness :
  let t1 := {| tex_id := 1; tex_width := 1; tex_height := 1 |} in
  let t2 := {| tex_id := 2; tex_width := 1; tex_height := 1 |} in
  let w := set_this (with_nvidia (fun n => with_nvidia_texture output_surface (Some t2)
                                             (with_nvidia_texture input_surface (Some t1)
                                                (with_nvcuda true n))))
             (initial_world (fst (video_denoising_factory_new (fun _ => true)))) in
  process_nvidia_noise_removal (fun _ => false) w
  = (Ok (Some t2), emit (gs_copy_texture t1 (get_texture (_input (this w)))) w).
Proof.
  intros t1 t2 w. apply (process_steady_state (fun _ => false) w t1 t2); reflexivity.
Defined.

Lemma recreate_output_keeps_input_image (v : vendor) :
  keeps (fun w => (_nvidia_input (nvidia (this w)), _nvidia_cvi_input (nvidia (this w))))
        (recreate_buffer v output_surface).
Proof. unfold recreate_buffer, unmap_and_dealloc. keeps_all. Qed.

(** A failed initialisation of a new input buffer is not retried.  When
    the backend has no input buffer and the vendor fails to initialise the
    image of the new texture, the call logs and throws "Error", leaving
    the new texture of the negotiated size in place with an image that is
    not mapped; in every later process call on that world the texture is
    taken as it is, and its image stays unmapped however the call ends. *)
Theorem process_failed_init_not_retried (v v' : vendor) (w : world) :
  _nvcuda (nvidia (this w)) = true -> _nvcvi (nvidia (this w)) = true ->
  _nvidia_input (nvidia (this w)) = None ->
  cvi_width (_nvidia_cvi_input (nvidia (this w))) = 0 ->
  v (InitFromD3D11Texture input_surface) = false ->
  let t := {| tex_id := next_texture w;
              tex_width := fst (_size (this w)); tex_height := snd (_size (this w)) |} in
  let r := process_nvidia_noise_removal v w in
  let r' := process_nvidia_noise_removal v' (snd r) in
  fst r = Throw "Error" /\
  trace (snd r)
  = trace w ++ [texture_create t; NvCVImage_InitFromD3D11Texture input_surface t;
                D_LOG_ERROR "Failed to NvCVImage_InitFromD3D11Texture input with error: %s"] /\
  _nvidia_input (nvidia (this (snd r))) = Some t /\
  _nvidia_input (nvidia (this (snd r'))) = Some t /\
  cvi_width (_nvidia_cvi_input (nvidia (this (snd r')))) = 0.
Proof.
  intros Hcuda Hcvi Ei Ec Hv t r r'.
  assert (Er : r = (Throw "Error",
                    emit (D_LOG_ERROR "Failed to NvCVImage_InitFromD3D11Texture input with error: %s")
                      (emit (NvCVImage_InitFromD3D11Texture input_surface t)
                         (set_this (with_nvidia (with_nvidia_texture input_surface (Some t)))
                            (emit (texture_create t)
                               (set_next_texture (S (next_texture w)) w)))))).
  { subst r. rewrite (process_unfold v w Hcuda).
    unfold recreate_buffer at 1, unmap_and_dealloc, stale.
    unfold bind, get, modify, call, assign_nvidia, deref, ret, throw. simpl.
    rewrite Ei, Ec. simpl. rewrite Hcvi, Hv. simpl. rewrite Hcvi. reflexivity. }
  subst r'. rewrite Er. cbn [fst snd].
  split; [reflexivity|]. split; [simpl; rewrite <- !app_assoc; reflexivity|].
  split; [reflexivity|].
  match goal with
  | |- context [process_nvidia_noise_removal v' ?w1] => set (w1' := w1)
  end.
  assert (Hcuda' : _nvcuda (nvidia (this w1')) = true) by exact Hcuda.
  rewrite (process_unfold v' w1' Hcuda').
  rewrite (recreate_buffer_fresh v' input_surface w1' t eq_refl);
    [|simpl; destruct (_size (this w)); reflexivity].
  pose proof (recreate_output_keeps_input_image v' w1') as K.
  destruct (recreate_buffer v' output_surface w1') as [[[]| |] w2]; simpl in K;
    injection K as K1 K2.
  - rewrite K1. simpl. rewrite K1, K2. split; [reflexivity|exact Ec].
  - simpl. rewrite K1, K2. split; [reflexivity|exact Ec].
  - simpl. rewrite K1, K2. split; [reflexivity|exact Ec].
Qed.

Lemma process_failed_init_not_retried_witness :
  let v : vendor := fun c => match c with InitFromD3D11Texture _ => false | _ => true end in
  let w := set_this (with_nvidia (fun n => with_nvcvi true (with_nvcuda true n)))
             (initial_world (fst (video_denoising_factory_new (fun _ => true)))) in
  let t := {| tex_id := next_texture w;
              tex_width := fst (_size (this w)); tex_height := snd (_size (this w)) |} in
  let r := process_nvidia_noise_removal v w in
  let r' := process_nvidia_noise_removal (fun _ => true) (snd r) in
  fst r = Throw "Error" /\
  trace (snd r)
  = trace w ++ [texture_create t; NvCVImage_InitFromD3D11Texture input_surface t;
                D_LOG_ERROR "Failed to NvCVImage_InitFromD3D11Texture input with error: %s"] /\
  _nvidia_input (nvidia (this (snd r))) = Some t /\
  _nvidia_input (nvidia (this (snd r'))) = Some t /\
  cvi_width (_nvidia_cvi_input (nvidia (this (snd r')))) = 0.
Proof.
  intros v w.
  apply (process_failed_init_not_retried v (fun _ => true) w); reflexivity.
Defined.

(** ** Releasing the backend *)

(** A successful unload leaves the five pointers of the backend null, so
    it cannot be repeated: the next unload dereferences the null CUDA
    reference. *)
Theorem unload_not_repeatable (v v' : vendor) (w w' : world) :
  unload_nvidia_noise_removal v w = (Ok tt, w') ->
  _nvcuda (nvidia (this w')) = false /\ _nvcvi (nvidia (this w')) = false /\
  _nvvfx (nvidia (this w')) = false /\
  _nvidia_input (nvidia (this w')) = None /\ _nvidia_output (nvidia (this w')) = None /\
  unload_nvidia_noise_removal v' w' = (Fault, w').
Proof.
  intros H. destruct (unload_ok_null v w w' H) as (H1 & H2 & H3 & H4 & H5).
  repeat (split; [assumption|]).
  unfold unload_nvidia_noise_removal. unfold bind at 1, deref. rewrite H1. reflexivity.
Qed.

Lemma unload_not_repeatable_witness :
  let w := set_this (with_nvidia (with_nvcuda true))
             (initial_world (fst (video_denoising_factory_new (fun _ => true)))) in
  let w' := snd (unload_nvidia_noise_removal (fun _ => true) w) in
  _nvcuda (nvidia (this w')) = false /\ _nvcvi (nvidia (this w')) = false /\
  _nvvfx (nvidia (this w')) = false /\
  _nvidia_input (nvidia (this w')) = None /\ _nvidia_output (nvidia (this w')) = None /\
  unload_nvidia_noise_removal (fun _ => false) w' = (Fault, w').
Proof.
  intros w w'.
  apply (unload_not_repeatable (fun _ => true) (fun _ => false) w w'). reflexivity.
Defined.

(** When the vendor fails to unmap the first mapped image that unload
    comes to, unload logs the failure and throws "Error" at once: nothing
    was released, the SDK references, both textures and both images are
    as before, and the later steps of the teardown do not run. *)
Theorem unload_unmap_failure (v : vendor) (w : world) (s : surface) :
  _nvcuda (nvidia (this w)) = true -> _nvcvi (nvidia (this w)) = true ->
  cvi_width (nvidia_cvi s (nvidia (this w))) <> 0 ->
  (s = output_surface -> cvi_width (_nvidia_cvi_input (nvidia (this w))) = 0) ->
  v (UnmapResource s) = false ->
  unload_nvidia_noise_removal v w
  = (Throw "Error",
     emit (D_LOG_ERROR ("Failed to NvCVImage_UnmapResource " ++ surface_name s
                        ++ " with error: %s"))
       (emit (NvCVImage_UnmapResource s) w)).
Proof.
  intros Hcuda Hcvi Hw Hi Hv.
  unfold unload_nvidia_noise_removal, unmap_and_dealloc. monad. rewrite Hcuda. simpl.
  destruct s; simpl in *.
  - destruct (Z.eqb_spec (cvi_width (_nvidia_cvi_input (nvidia (this w)))) 0) as [E|_];
      [contradiction|]. simpl. rewrite Hcvi, Hcuda, Hv. simpl. rewrite Hcvi. reflexivity.
  - rewrite (Hi eq_refl). simpl.
    destruct (Z.eqb_spec (cvi_width (_nvidia_cvi_output (nvidia (this w)))) 0) as [E|_];
      [contradiction|]. simpl. rewrite Hcvi, Hcuda, Hv. simpl. rewrite Hcvi. reflexivity.
Qed.

Lemma unload_unmap_failure_witness :
  let w := set_this (with_nvidia (fun n =>
                       with_nvidia_cvi input_surface {| cvi_width := 1920; cvi_height := 1080 |}
                         (with_nvcvi true (with_nvcuda true n))))
             (initial_world (fst (video_denoising_factory_new (fun _ => true)))) in
  unload_nvidia_noise_removal (fun _ => false) w
  = (Throw "Error",
     emit (D_LOG_ERROR ("Failed to NvCVImage_UnmapResource " ++ surface_name input_surface
                        ++ " with error: %s"))
       (emit (NvCVImage_UnmapResource input_surface) w)).
Proof.
  intros w. apply (unload_unmap_failure (fun _ => false) w input_surface);
    try reflexivity; discriminate.
Defined.

(** What a successful unload of a loaded backend leaves behind. *)
Lemma unload_releases (v : vendor) (w : world) :
  _nvcuda (nvidia (this w)) = true -> _nvcvi (nvidia (this w)) = true ->
  (forall s, v (UnmapResource s) = true) ->
  exists w',
    unload_nvidia_noise_removal v w = (Ok tt, w') /\
    _nvcuda (nvidia (this w')) = false /\ _nvcvi (nvidia (this w')) = false /\
    _nvvfx (nvidia (this w')) = false /\
    _nvidia_input (nvidia (this w')) = None /\ _nvidia_output (nvidia (this w')) = None /\
    cvi_width (_nvidia_cvi_input (nvidia (this w'))) = 0 /\
    cvi_width (_nvidia_cvi_output (nvidia (this w'))) = 0 /\
    (_size (this w'), _provider_ready (this w'), _provider (this w'),
     _provider_task (this w'), _input (this w'), _output (this w'), pool w', factory w')
    = (_size (this w), _provider_ready (this w), _provider (this w),
       _provider_task (this w), _input (this w), _output (this w), pool w, factory w).
Proof.
  intros Hcuda Hcvi Hv.
  unfold unload_nvidia_noise_removal. unfold bind at 1, deref. rewrite Hcuda.
  destruct (unmap_and_dealloc_cases v input_surface w Hcuda Hcvi)
    as [(Z1 & E1)|[(N1 & _ & E1)|(_ & F & _)]];
    [| |rewrite Hv in F; discriminate];
    rewrite (bind_ok _ _ _ _ _ E1);
    match goal with
    | |- context [bind (unmap_and_dealloc v output_surface) _ ?w1] =>
        destruct (unmap_and_dealloc_cases v output_surface w1 Hcuda Hcvi)
          as [(Z2 & E2)|[(N2 & _ & E2)|(_ & F & _)]];
        [| |rewrite Hv in F; discriminate];
        rewrite (bind_ok _ _ _ _ _ E2)
    end;
    unfold bind, assign_nvidia, modify; simpl in *;
    (eexists; split; [reflexivity|]); simpl; auto 12.
Qed.

(** The destructor, with a vendor that unmaps without error.  For a
    provider other than the NVIDIA one it does nothing.  For the NVIDIA
    provider with its CUDA and image SDK references it returns with the
    backend released (null pointers, no mapped image).  For the NVIDIA
    provider with a null CUDA reference, the state overlapping switch
    tasks can leave, it dereferences the null pointer. *)
Theorem destructor_releases (v : vendor) (w : world) :
  (forall s, v (UnmapResource s) = true) ->
  (_provider (this w) <> NVIDIA_VIDEO_NOISE_REMOVAL ->
     video_denoising_instance_delete v w = (Ok tt, w)) /\
  (_provider (this w) = NVIDIA_VIDEO_NOISE_REMOVAL ->
   _nvcuda (nvidia (this w)) = true -> _nvcvi (nvidia (this w)) = true ->
   exists w',
     video_denoising_instance_delete v w = (Ok tt, w') /\
     _nvcuda (nvidia (this w')) = false /\ _nvcvi (nvidia (this w')) = false /\
     _nvvfx (nvidia (this w')) = false /\
     _nvidia_input (nvidia (this w')) = None /\ _nvidia_output (nvidia (this w')) = None /\
     cvi_width (_nvidia_cvi_input (nvidia (this w'))) = 0 /\
     cvi_width (_nvidia_cvi_output (nvidia (this w'))) = 0) /\
  (_provider (this w) = NVIDIA_VIDEO_NOISE_REMOVAL ->
   _nvcuda (nvidia (this w)) = false ->
     video_denoising_instance_delete v w = (Fault, w)).
Proof.
  intros Hv.
  unfold video_denoising_instance_delete. unfold bind, get. cbv beta iota.
  destruct (Z.eqb_spec (_provider (this w)) NVIDIA_VIDEO_NOISE_REMOVAL) as [E|E].
  - split; [intros N; contradiction|]. split.
    + intros _ H1 H2.
      destruct (unload_releases v w H1 H2 Hv) as (w' & -> & R).
      exists w'. split; [reflexivity|].
      destruct R as (R1 & R2 & R3 & R4 & R5 & R6 & R7 & _). auto 10.
    + intros _ H1. unfold unload_nvidia_noise_removal. unfold bind at 1, deref.
      rewrite H1. reflexivity.
  - split; [intros _; reflexivity|]. split; intros N; contradiction.
Qed.

Lemma destructor_releases_witness :
  let ok : vendor := fun _ => true in
  let h := {| obs_filter_get_target := Some {| base_width := 1920; base_height := 1080 |};
              obs_filter_get_parent := None; obs_source_process_filter_begin := true;
              gs_framebuffer_srgb_enabled := false; gs_get_linear_srgb := false;
              gs_effect_loop := 1 |} in
  let w := run [op_task ok; op_render ok h None]
             (create (fst (video_denoising_factory_new ok)) (Some [(ST_PROVIDER, 1)])) in
  (_provider (this w) <> NVIDIA_VIDEO_NOISE_REMOVAL ->
     video_denoising_instance_delete ok w = (Ok tt, w)) /\
  (_provider (this w) = NVIDIA_VIDEO_NOISE_REMOVAL ->
   _nvcuda (nvidia (this w)) = true -> _nvcvi (nvidia (this w)) = true ->
   exists w',
     video_denoising_instance_delete ok w = (Ok tt, w') /\
     _nvcuda (nvidia (this w')) = false /\ _nvcvi (nvidia (this w')) = false /\
     _nvvfx (nvidia (this w')) = false /\
     _nvidia_input (nvidia (this w')) = None /\ _nvidia_output (nvidia (this w')) = None /\
     cvi_width (_nvidia_cvi_input (nvidia (this w'))) = 0 /\
     cvi_width (_nvidia_cvi_output (nvidia (this w'))) = 0) /\
  (_provider (this w) = NVIDIA_VIDEO_NOISE_REMOVAL ->
   _nvcuda (nvidia (this w)) = false ->
     video_denoising_instance_delete ok w = (Fault, w)).
Proof.
  intros ok h w. apply (destructor_releases ok w). intros s. reflexivity.
Defined.

(** A switch task that leaves the loaded NVIDIA provider for a provider
    without backend, with a vendor that unmaps without error, returns with
    the new provider ready and the backend released; the last output
    handle and the negotiated size stay as they were. *)
Theorem switch_away_releases (v : vendor) (p : denoise_provider) (w : world) :
  _provider (this w) = NVIDIA_VIDEO_NOISE_REMOVAL ->
  _nvcuda (nvidia (this w)) = true -> _nvcvi (nvidia (this w)) = true ->
  p <> NVIDIA_VIDEO_NOISE_REMOVAL ->
  (forall s, v (UnmapResource s) = true) ->
  exists w',
    task_switch_provider v p w = (Ok tt, w') /\
    _provider (this w') = p /\ _provider_ready (this w') = true /\
    _nvcuda (nvidia (this w')) = false /\ _nvcvi (nvidia (this w')) = false /\
    _nvvfx (nvidia (this w')) = false /\
    _nvidia_input (nvidia (this w')) = None /\ _nvidia_output (nvidia (this w')) = None /\
    _output (this w') = _output (this w) /\ _size (this w') = _size (this w).
Proof.
  intros Hp Hcuda Hcvi Hn Hv. unfold task_switch_provider.
  unfold bind at 1, assign, modify. cbv beta iota.
  destruct (Z.eqb_spec p NVIDIA_VIDEO_NOISE_REMOVAL) as [|_]; [contradiction|].
  unfold bind at 1, ret. cbv beta iota.
  unfold bind at 1, get. cbv beta iota. cbn [this set_this _provider with_provider_ready].
  rewrite Hp. change (NVIDIA_VIDEO_NOISE_REMOVAL =? NVIDIA_VIDEO_NOISE_REMOVAL) with true.
  cbv iota.
  destruct (unload_releases v (set_this (with_provider_ready false) w) Hcuda Hcvi Hv)
    as (w1 & E1 & R1 & R2 & R3 & R4 & R5 & _ & _ & F).
  rewrite (bind_ok _ _ _ _ _ E1). unfold bind, modify. simpl.
  injection F as F1 F2 F3 F4 F5 F6 F7 F8.
  eexists. split; [reflexivity|]. simpl. auto 12.
Qed.

Lemma switch_away_releases_witness :
  let ok : vendor := fun _ => true in
  let w := run [op_task ok]
             (create (fst (video_denoising_factory_new ok)) (Some [(ST_PROVIDER, 1)])) in
  exists w',
    task_switch_provider ok 2 w = (Ok tt, w') /\
    _provider (this w') = 2 /\ _provider_ready (this w') = true /\
    _nvcuda (nvidia (this w')) = false /\ _nvcvi (nvidia (this w')) = false /\
    _nvvfx (nvidia (this w')) = false /\
    _nvidia_input (nvidia (this w')) = None /\ _nvidia_output (nvidia (this w')) = None /\
    _output (this w') = _output (this w) /\ _size (this w') = _size (this w).
Proof.
  intros ok w. apply (switch_away_releases ok 2 w); try reflexivity.
  discriminate.
Defined.

(** ** What updates and renders leave alone *)

(** A render tick never switches anything: however it ends, the ready
    flag, the provider, the task handle, the pool, the three SDK
    references and the factory are as before. *)
Theorem render_never_switches (v : vendor) (h : host) (effect : option nat) (w : world) :
  let w' := snd (video_render v h effect w) in
  _provider_ready (this w') = _provider_ready (this w) /\
  _provider (this w') = _provider (this w) /\
  _provider_task (this w') = _provider_task (this w) /\
  pool w' = pool w /\
  _nvcuda (nvidia (this w')) = _nvcuda (nvidia (this w)) /\
  _nvcvi (nvidia (this w')) = _nvcvi (nvidia (this w)) /\
  _nvvfx (nvidia (this w')) = _nvvfx (nvidia (this w)) /\
  factory w' = factory w /\ next_handle w' = next_handle w.
Proof.
  apply provider_state_eq. apply video_render_keeps_provider_state.
Qed.

Lemma update_keeps_instance (data : obs_data) :
  keeps (fun w => (_size (this w), _provider_ready (this w), _provider (this w),
                   _input (this w), _output (this w), nvidia (this w),
                   trace w, factory w, next_texture w))
        (update data).
Proof.
  unfold update, switch_provider.
  apply keeps_bind; [apply requested_provider_keeps|intros p]. keeps_all.
Qed.

(** An update only schedules: however it ends, the negotiated size, the
    ready flag, the provider, the surfaces, the backend, the calls made
    so far and the factory are as before; all it can change is the pool
    and the task handle. *)
Theorem update_only_schedules (data : obs_data) (w : world) :
  let w' := snd (update data w) in
  _size (this w') = _size (this w) /\
  _provider_ready (this w') = _provider_ready (this w) /\
  _provider (this w') = _provider (this w) /\
  _input (this w') = _input (this w) /\
  _output (this w') = _output (this w) /\
  nvidia (this w') = nvidia (this w) /\
  trace w' = trace w /\ factory w' = factory w.
Proof.
  cbv zeta. pose proof (update_keeps_instance data w) as K.
  injection K as K1 K2 K3 K4 K5 K6 K7 K8 K9. auto 10.
Qed.

(** ** From creation to a ready instance *)

(** An instance created with settings that ask for [AUTOMATIC] or for the
    NVIDIA provider, by a factory for which that provider is available,
    has one switch task pending; once a worker has run it with a vendor
    that hands out the three SDK references, the instance is ready with
    the NVIDIA provider loaded and no task pending. *)
Theorem instance_becomes_ready (f : video_denoising_factory) (data : obs_data) (v : vendor) :
  _nvidia_available f = true ->
  obs_data_get_int data ST_PROVIDER = AUTOMATIC \/
  obs_data_get_int data ST_PROVIDER = NVIDIA_VIDEO_NOISE_REMOVAL ->
  v cuda_obs_get = true -> v cv_get = true -> v vfx_get = true ->
  let w0 := create f (Some data) in
  let w := run [op_task v] w0 in
  pool w0 = [{| task_handle := 0%nat; task_provider := NVIDIA_VIDEO_NOISE_REMOVAL |}] /\
  _provider_ready (this w0) = false /\
  _provider_ready (this w) = true /\
  _provider (this w) = NVIDIA_VIDEO_NOISE_REMOVAL /\
  loaded (nvidia (this w)) /\
  pool w = [].
Proof.
  intros Ha Hd H1 H2 H3 w0 w.
  assert (E0 : w0 = {| this := with_provider_task (Some 0%nat) new_instance;
                       factory := Some f;
                       pool := [{| task_handle := 0%nat;
                                   task_provider := NVIDIA_VIDEO_NOISE_REMOVAL |}];
                       next_handle := 1%nat; next_texture := 1%nat;
                       trace := [rendertarget_render 1 1] |}).
  { subst w0. unfold create, video_denoising_instance_new.
    unfold bind at 1, modify. cbv beta iota.
    unfold bind at 1, call, modify. cbv beta iota.
    unfold load, update.
    match goal with
    | |- context [bind (requested_provider data) _ ?w1] =>
        pose proof (requested_provider_eq data w1 f eq_refl) as Eq;
        rewrite (bind_ok _ _ _ _ _ Eq)
    end.
    rewrite Ha.
    assert (Ep : (if obs_data_get_int data ST_PROVIDER =? AUTOMATIC
                  then NVIDIA_VIDEO_NOISE_REMOVAL
                  else obs_data_get_int data ST_PROVIDER) = NVIDIA_VIDEO_NOISE_REMOVAL).
    { destruct Hd as [-> | ->]; reflexivity. }
    rewrite Ep. reflexivity. }
  subst w. rewrite E0. cbn [run step].
  rewrite threadpool_work_unfold. cbn [pool task_provider].
  unfold task_switch_provider, load_nvidia_noise_removal.
  unfold bind, assign, assign_nvidia, modify, ret, get. simpl.
  rewrite H1, H2, H3. simpl. unfold loaded. auto 10.
Qed.

Lemma instance_becomes_ready_witness :
  let f := fst (video_denoising_factory_new (fun _ => true)) in
  let v : vendor := fun _ => true in
  let w0 := create f (Some []) in
  let w := run [op_task v] w0 in
  pool w0 = [{| task_handle := 0%nat; task_provider := NVIDIA_VIDEO_NOISE_REMOVAL |}] /\
  _provider_ready (this w0) = false /\
  _provider_ready (this w) = true /\
  _provider (this w) = NVIDIA_VIDEO_NOISE_REMOVAL /\
  loaded (nvidia (this w)) /\
  pool w = [].
Proof.
  intros f v.
  apply (instance_becomes_ready f [] v); try reflexivity.
  left. reflexivity.
Defined.

(** ** Re-creating the buffers after a size change *)

(** The world after a stale buffer with a mapped image was replaced. *)
Lemma recreate_buffer_replaces (v : vendor) (s : surface) (w : world) (old : texture) :
  _nvcuda (nvidia (this w)) = true -> _nvcvi (nvidia (this w)) = true ->
  nvidia_texture s (nvidia (this w)) = Some old ->
  stale (Some old) (_size (this w)) = true ->
  cvi_width (nvidia_cvi s (nvidia (this w))) <> 0 ->
  succeeds v ->
  let t := {| tex_id := next_texture w;
              tex_width := fst (_size (this w)); tex_height := snd (_size (this w)) |} in
  recreate_buffer v s w
  = (Ok tt,
     emit (NvCVImage_MapResource s)
       (set_this (with_nvidia (with_nvidia_cvi s (cvi_of_texture t)))
          (emit (NvCVImage_InitFromD3D11Texture s t)
             (set_this (with_nvidia (with_nvidia_texture s (Some t)))
                (emit (texture_create t)
                   (set_next_texture (S (next_texture w))
                      (set_this (with_nvidia (with_nvidia_cvi s cvi_empty))
                         (emit (NvCVImage_Dealloc s)
                            (emit (NvCVImage_UnmapResource s) w))))))))).
Proof.
  intros Hcuda Hcvi Et Es Hw Hv t. unfold recreate_buffer.
  unfold bind at 1, get. cbv beta iota. unfold bind at 1. cbv beta iota.
  rewrite Et, Es.
  destruct (unmap_and_dealloc_cases v s w Hcuda Hcvi)
    as [(Z1 & _)|[(_ & _ & E1)|(_ & F & _)]];
    [contradiction| |rewrite Hv in F; discriminate].
  rewrite (bind_ok _ _ _ _ _ E1).
  unfold bind, get, modify, call, assign_nvidia, deref, ret, throw.
  unfold succeeds in Hv.
  destruct s; do 6 (simpl; rewrite ?Hcvi, ?Hcuda, ?Hv); reflexivity.
Qed.

(** When the negotiated size changed and both images are mapped, a
    process call with a succeeding vendor replaces each buffer in this
    order: unmap the old image, deallocate it, create the texture of the
    new size, initialise the image from it, map it; first for the input,
    then for the output; then it copies the captured input and returns the
    new output texture. *)
Theorem process_recreates_in_order (v : vendor) (w : world) (old_in old_out : texture) :
  _nvcuda (nvidia (this w)) = true -> _nvcvi (nvidia (this w)) = true ->
  _nvidia_input (nvidia (this w)) = Some old_in ->
  _nvidia_output (nvidia (this w)) = Some old_out ->
  stale (Some old_in) (_size (this w)) = true ->
  stale (Some old_out) (_size (this w)) = true ->
  cvi_width (_nvidia_cvi_input (nvidia (this w))) <> 0 ->
  cvi_width (_nvidia_cvi_output (nvidia (this w))) <> 0 ->
  succeeds v ->
  let new_in := {| tex_id := next_texture w;
                   tex_width := fst (_size (this w)); tex_height := snd (_size (this w)) |} in
  let new_out := {| tex_id := S (next_texture w);
                    tex_width := fst (_size (this w)); tex_height := snd (_size (this w)) |} in
  let r := process_nvidia_noise_removal v w in
  fst r = Ok (Some new_out) /\
  _nvidia_input (nvidia (this (snd r))) = Some new_in /\
  _nvidia_output (nvidia (this (snd r))) = Some new_out /\
  _nvidia_cvi_input (nvidia (this (snd r))) = cvi_of_texture new_in /\
  _nvidia_cvi_output (nvidia (this (snd r))) = cvi_of_texture new_out /\
  trace (snd r)
  = trace w ++ [NvCVImage_UnmapResource input_surface;
                NvCVImage_Dealloc input_surface;
                texture_create new_in;
                NvCVImage_InitFromD3D11Texture input_surface new_in;
                NvCVImage_MapResource input_surface;
                NvCVImage_UnmapResource output_surface;
                NvCVImage_Dealloc output_surface;
                texture_create new_out;
                NvCVImage_InitFromD3D11Texture output_surface new_out;
                NvCVImage_MapResource output_surface;
                gs_copy_texture new_in (get_texture (_input (this w)))].
Proof.
  intros Hcuda Hcvi Ei Eo Si So Wi Wo Hv new_in new_out r. subst r.
  rewrite (process_unfold v w Hcuda).
  rewrite (recreate_buffer_replaces v input_surface w old_in Hcuda Hcvi Ei Si Wi Hv).
  match goal with
  | |- context [recreate_buffer v output_surface ?w1] =>
      rewrite (recreate_buffer_replaces v output_surface w1 old_out Hcuda Hcvi Eo So Wo Hv)
  end.
  simpl. rewrite <- !app_assoc. repeat split.
Qed.

Lemma process_recreates_in_order_witness :
  let ok : vendor := fun _ => true in
  let old_in := {| tex_id := 1; tex_width := 1920; tex_height := 1080 |} in
  let old_out := {| tex_id := 2; tex_width := 1920; tex_height := 1080 |} in
  let w := {| this := {| _size := (1280, 720); _provider_ready := true;
                         _provider := NVIDIA_VIDEO_NOISE_REMOVAL;
                         _provider_task := Some 0%nat;
                         _input := {| rt_width := 2560; rt_height := 1440 |};
                         _output := Some old_out;
                         nvidia := {| _nvcuda := true; _nvcvi := true; _nvvfx := true;
                                      _nvidia_input := Some old_in;
                                      _nvidia_output := Some old_out;
                                      _nvidia_cvi_input := cvi_of_texture old_in;
                                      _nvidia_cvi_output := cvi_of_texture old_out |} |};
              factory := Some (fst (video_denoising_factory_new ok));
              pool := []; next_handle := 1%nat; next_texture := 3%nat; trace := [] |} in
  let new_in := {| tex_id := 3; tex_width := 1280; tex_height := 720 |} in
  let new_out := {| tex_id := 4; tex_width := 1280; tex_height := 720 |} in
  let r := process_nvidia_noise_removal ok w in
  fst r = Ok (Some new_out) /\
  _nvidia_input (nvidia (this (snd r))) = Some new_in /\
  _nvidia_output (nvidia (this (snd r))) = Some new_out /\
  _nvidia_cvi_input (nvidia (this (snd r))) = cvi_of_texture new_in /\
  _nvidia_cvi_output (nvidia (this (snd r))) = cvi_of_texture new_out /\
  trace (snd r)
  = trace w ++ [NvCVImage_UnmapResource input_surface;
                NvCVImage_Dealloc input_surface;
                texture_create new_in;
                NvCVImage_InitFromD3D11Texture input_surface new_in;
                NvCVImage_MapResource input_surface;
                NvCVImage_UnmapResource output_surface;
                NvCVImage_Dealloc output_surface;
                texture_create new_out;
                NvCVImage_InitFromD3D11Texture output_surface new_out;
                NvCVImage_MapResource output_surface;
                gs_copy_texture new_in (get_texture (_input (this w)))].
Proof.
  intros ok old_in old_out w.
  apply (process_recreates_in_order ok w old_in old_out);
    try reflexivity; try discriminate.
  intros c. reflexivity.
Defined.
